(** * Cog: the script execution engine of server.js

    A shallow embedding of the engine of [server.js]: the in-memory script
    list [runtime.scripts], [runScript] with the listeners and the timer it
    installs on the spawned child, the cron trigger, the HTTP handlers that
    create, update, trigger and run scripts, and the reload loop of the
    [server.listen] callback.

    JavaScript closures are defunctionalised: a listener is a constructor of
    [handler], the variables it closes over live in the record of the
    invocation (or of the run request) that created it.  The event loop is a
    step function on [world]: one [event] runs one callback to completion.

    The platform is modelled where the program calls it: [EventEmitter]
    ([on], [emit], [removeAllListeners], the unhandled ['error'] event),
    [ChildProcess] ([spawn], [kill], [killed]), the Express response
    ([status], [json], [send]) with the error handler that Express puts
    behind every route, [fs] and [JSON].  Whether [node-cron] accepts a
    schedule, what [JSON.parse] makes of a text that the server did not
    write, the text that [JSON.stringify] gives and the base64 decoder of
    the basic-auth gate are parameters.
    The handlers of [/ui] are modelled past the gate, the gate by
    itself. *)

From Stdlib Require Import ZArith String Ascii Bool Lia.
From stdpp Require Import base gmap strings list pretty.

Open Scope string_scope.
Open Scope Z_scope.
Open Scope list_scope.

(** ** JavaScript values *)

Module JS.

(** The values that reach the engine: fields of a parsed request body, of
    a query string, of a descriptor.  Numbers are the integers (timestamps
    and timeouts are the only numbers of the program). *)
#[local] Unset Elimination Schemes.
Inductive jsval :=
| JUndefined
| JNull
| JBool (b : bool)
| JNum (n : Z)
| JStr (s : string)
| JArr (l : list jsval).
#[local] Set Elimination Schemes.

(** ToString, as template literals, [+] with a string operand and the
    argument vector of [child_process.spawn] apply it.  An array is its
    elements joined by commas, [null] and [undefined] elements being
    empty. *)
Fixpoint ToString (v : jsval) : string :=
  match v with
  | JUndefined => "undefined"
  | JNull => "null"
  | JBool true => "true"
  | JBool false => "false"
  | JNum n => pretty n
  | JStr s => s
  | JArr l =>
      (fix join (l : list jsval) : string :=
         match l with
         | [] => EmptyString
         | x :: rest =>
             let e := match x with
                      | JUndefined | JNull => EmptyString
                      | _ => ToString x
                      end in
             match rest with
             | [] => e
             | _ :: _ => e +:+ "," +:+ join rest
             end
         end) l
  end.

(** ToBoolean. *)
Definition truthy (v : jsval) : bool :=
  match v with
  | JUndefined | JNull => false
  | JBool b => b
  | JNum n => negb (n =? 0)
  | JStr s => negb (String.eqb s EmptyString)
  | JArr _ => true
  end.

(** [v === s] for a string literal [s]. *)
Definition strict_eq_str (v : jsval) (s : string) : bool :=
  match v with
  | JStr t => String.eqb t s
  | _ => false
  end.

(** [a || b]. *)
Definition or_else (a b : jsval) : jsval := if truthy a then a else b.

(** [a + s] for a string [s]: string concatenation. *)
Definition plus_str (a : jsval) (s : string) : jsval :=
  JStr (ToString a +:+ s).

(** [s.includes(needle)]. *)
Fixpoint includes (s needle : string) : bool :=
  if String.prefix needle s then true
  else match s with
       | EmptyString => false
       | String _ s' => includes s' needle
       end.

(** Errors thrown by the language and the platform. *)
Inductive js_error :=
| TypeError (msg : string)
| SyntaxError (msg : string)
| SystemError (code : string).

Definition error_name (e : js_error) : string :=
  match e with
  | TypeError _ => "TypeError"
  | SyntaxError _ => "SyntaxError"
  | SystemError _ => "Error"
  end.

(** How a piece of code completes: normally with a value, or abruptly. *)
Inductive completion (A : Type) :=
| Normal (a : A)
| Throw (e : js_error).
Arguments Normal {A} a.
Arguments Throw {A} e.

Definition is_normal {A} (c : completion A) : bool :=
  match c with Normal _ => true | Throw _ => false end.

End JS.
Import JS.

(** ** The data model *)

(** The newline character of ['\n']. *)
Definition nl : string := String (ascii_of_nat 10) EmptyString.

(** The double quote character. *)
Definition dq : string := String (ascii_of_nat 34) EmptyString.

(** A script descriptor: the object built by [POST /ui/new] and stored as
    [.cog].  [cronTask] is the [_cronTask] property that [addCronTrigger]
    attaches: an index into the scheduler's tasks. *)
Record cogFile := {
  id : string;
  created : Z;
  updated : Z;
  name : jsval;
  runtime : jsval;
  webhook : jsval;
  cron : jsval;
  cronSchedule : jsval;
  entrypoint : jsval;
  timeout : Z;
  cronTask : option nat
}.

(** A file under [./data].  The text [JSON.stringify(c, null, 4)] that the
    server writes for a descriptor is represented by the descriptor, any
    other text is kept as it is. *)
Inductive file :=
| Raw (text : string)
| Json (c : cogFile).

(** The listeners of the program, one constructor per function expression
    passed to [on]; [k] is the run request whose variables the listener
    closes over. *)
Inductive handler :=
| OnExit_runScript
| OnStdout_runScript
| OnStdout_run (k : nat)
| OnStderr_run (k : nat)
| OnExit_run (k : nat).

(** One call of [runScript] that spawned: the local variables of the call
    and the [ChildProcess] object it created. *)
Record child := {
  cogScriptId : string;
  message : jsval;
  spawnedProcessRunning : bool;
  spawnedProcessMessageSent : bool;
  spawnfile : string;
  spawnargs : list jsval;
  killed : bool;
  exited : bool;
  listeners : list (string * handler);
  stdout_listeners : list (string * handler);
  stderr_listeners : list (string * handler);
  stdin : list string;
  kills : nat;
  signals : nat;
  timer : option Z
}.

(** The variables of one [POST /api/v1/run] request. *)
Record run_capture := {
  res_of : nat;
  consoleOutput : string;
  consoleError : string
}.

Inductive body :=
| MessageBody (m : string)
| IdBody (i : string)
| RunBody (m output outputError : string)
| TextBody (s : string)
| ErrorPage (e : js_error).          (* the page of Express's error handler *)

(** An Express response: the status set so far, and what went out. *)
Record response := {
  statusCode : Z;
  sent : option (Z * body)
}.

Record cron_task := {
  task_script : string;
  task_schedule : jsval
}.

Inductive level := Log | Warn | Error.

Record world := {
  scripts : list cogFile;
  dirs : list string;
  files : gmap string file;
  procs : list child;
  runs : list run_capture;
  resps : list response;
  crons : list cron_task;
  console : list (level * string)
}.

Definition empty_world : world :=
  {| scripts := []; dirs := []; files := ∅; procs := []; runs := [];
     resps := []; crons := []; console := [] |}.

(** ** Effects: a state and exception monad over [world]

    A statement sequence threads the world and stops at the first throw;
    what was written before the throw stays written. *)

Definition M (A : Type) : Type := world -> completion A * world.

#[global] Instance M_ret : MRet M := fun A a w => (Normal a, w).

#[global] Instance M_bind : MBind M := fun A B f m w =>
  match m w with
  | (Normal a, w') => f a w'
  | (Throw e, w') => (Throw e, w')
  end.

Definition throw {A} (e : js_error) : M A := fun w => (Throw e, w).
Definition get : M world := fun w => (Normal w, w).
Definition modify (f : world -> world) : M unit := fun w => (Normal tt, f w).

Definition when (b : bool) (m : M unit) : M unit :=
  if b then m else mret tt.

(** Field updates. *)
Definition with_scripts (f : list cogFile -> list cogFile) (w : world) : world :=
  {| scripts := f (scripts w); dirs := dirs w; files := files w;
     procs := procs w; runs := runs w; resps := resps w; crons := crons w;
     console := console w |}.

Definition with_dirs (f : list string -> list string) (w : world) : world :=
  {| scripts := scripts w; dirs := f (dirs w); files := files w;
     procs := procs w; runs := runs w; resps := resps w; crons := crons w;
     console := console w |}.

Definition with_files (f : gmap string file -> gmap string file) (w : world) : world :=
  {| scripts := scripts w; dirs := dirs w; files := f (files w);
     procs := procs w; runs := runs w; resps := resps w; crons := crons w;
     console := console w |}.

Definition with_procs (f : list child -> list child) (w : world) : world :=
  {| scripts := scripts w; dirs := dirs w; files := files w;
     procs := f (procs w); runs := runs w; resps := resps w; crons := crons w;
     console := console w |}.

Definition with_runs (f : list run_capture -> list run_capture) (w : world) : world :=
  {| scripts := scripts w; dirs := dirs w; files := files w;
     procs := procs w; runs := f (runs w); resps := resps w; crons := crons w;
     console := console w |}.

Definition with_resps (f : list response -> list response) (w : world) : world :=
  {| scripts := scripts w; dirs := dirs w; files := files w;
     procs := procs w; runs := runs w; resps := f (resps w); crons := crons w;
     console := console w |}.

Definition with_crons (f : list cron_task -> list cron_task) (w : world) : world :=
  {| scripts := scripts w; dirs := dirs w; files := files w;
     procs := procs w; runs := runs w; resps := resps w; crons := f (crons w);
     console := console w |}.

Definition with_console (f : list (level * string) -> list (level * string)) (w : world) : world :=
  {| scripts := scripts w; dirs := dirs w; files := files w;
     procs := procs w; runs := runs w; resps := resps w; crons := crons w;
     console := f (console w) |}.

Definition console_log (s : string) : M unit :=
  modify (with_console (fun l => l ++ [(Log, s)])).
Definition console_warn (s : string) : M unit :=
  modify (with_console (fun l => l ++ [(Warn, s)])).
Definition console_error (s : string) : M unit :=
  modify (with_console (fun l => l ++ [(Error, s)])).

(** Updates of one child, one run request, one response, by index. *)
Definition on_child (p : nat) (f : child -> child) : M unit :=
  modify (with_procs (alter f p)).
Definition on_run (k : nat) (f : run_capture -> run_capture) : M unit :=
  modify (with_runs (alter f k)).
Definition on_resp (r : nat) (f : response -> response) : M unit :=
  modify (with_resps (alter f r)).

Definition set_running (b : bool) (c : child) : child :=
  {| cogScriptId := cogScriptId c; message := message c;
     spawnedProcessRunning := b;
     spawnedProcessMessageSent := spawnedProcessMessageSent c;
     spawnfile := spawnfile c; spawnargs := spawnargs c;
     killed := killed c; exited := exited c; listeners := listeners c;
     stdout_listeners := stdout_listeners c;
     stderr_listeners := stderr_listeners c; stdin := stdin c;
     kills := kills c; signals := signals c; timer := timer c |}.

Definition set_exited (c : child) : child :=
  {| cogScriptId := cogScriptId c; message := message c;
     spawnedProcessRunning := spawnedProcessRunning c;
     spawnedProcessMessageSent := spawnedProcessMessageSent c;
     spawnfile := spawnfile c; spawnargs := spawnargs c;
     killed := killed c; exited := true; listeners := listeners c;
     stdout_listeners := stdout_listeners c;
     stderr_listeners := stderr_listeners c; stdin := stdin c;
     kills := kills c; signals := signals c; timer := timer c |}.

Definition set_timer (t : option Z) (c : child) : child :=
  {| cogScriptId := cogScriptId c; message := message c;
     spawnedProcessRunning := spawnedProcessRunning c;
     spawnedProcessMessageSent := spawnedProcessMessageSent c;
     spawnfile := spawnfile c; spawnargs := spawnargs c;
     killed := killed c; exited := exited c; listeners := listeners c;
     stdout_listeners := stdout_listeners c;
     stderr_listeners := stderr_listeners c; stdin := stdin c;
     kills := kills c; signals := signals c; timer := t |}.

Definition add_listener (ev : string) (h : handler) (c : child) : child :=
  {| cogScriptId := cogScriptId c; message := message c;
     spawnedProcessRunning := spawnedProcessRunning c;
     spawnedProcessMessageSent := spawnedProcessMessageSent c;
     spawnfile := spawnfile c; spawnargs := spawnargs c;
     killed := killed c; exited := exited c;
     listeners := listeners c ++ [(ev, h)];
     stdout_listeners := stdout_listeners c;
     stderr_listeners := stderr_listeners c; stdin := stdin c;
     kills := kills c; signals := signals c; timer := timer c |}.

Definition add_stdout_listener (ev : string) (h : handler) (c : child) : child :=
  {| cogScriptId := cogScriptId c; message := message c;
     spawnedProcessRunning := spawnedProcessRunning c;
     spawnedProcessMessageSent := spawnedProcessMessageSent c;
     spawnfile := spawnfile c; spawnargs := spawnargs c;
     killed := killed c; exited := exited c; listeners := listeners c;
     stdout_listeners := stdout_listeners c ++ [(ev, h)];
     stderr_listeners := stderr_listeners c; stdin := stdin c;
     kills := kills c; signals := signals c; timer := timer c |}.

Definition add_stderr_listener (ev : string) (h : handler) (c : child) : child :=
  {| cogScriptId := cogScriptId c; message := message c;
     spawnedProcessRunning := spawnedProcessRunning c;
     spawnedProcessMessageSent := spawnedProcessMessageSent c;
     spawnfile := spawnfile c; spawnargs := spawnargs c;
     killed := killed c; exited := exited c; listeners := listeners c;
     stdout_listeners := stdout_listeners c;
     stderr_listeners := stderr_listeners c ++ [(ev, h)]; stdin := stdin c;
     kills := kills c; signals := signals c; timer := timer c |}.

(** [spawnedProcess.removeAllListeners()]: the listeners of the
    [ChildProcess] emitter itself; its [stdout] and [stderr] streams are
    emitters of their own and keep theirs. *)
Definition removeAllListeners (c : child) : child :=
  {| cogScriptId := cogScriptId c; message := message c;
     spawnedProcessRunning := spawnedProcessRunning c;
     spawnedProcessMessageSent := spawnedProcessMessageSent c;
     spawnfile := spawnfile c; spawnargs := spawnargs c;
     killed := killed c; exited := exited c; listeners := [];
     stdout_listeners := stdout_listeners c;
     stderr_listeners := stderr_listeners c; stdin := stdin c;
     kills := kills c; signals := signals c; timer := timer c |}.

(** [spawnedProcess.stdin.write(s)]. *)
Definition stdin_write (s : string) (c : child) : child :=
  {| cogScriptId := cogScriptId c; message := message c;
     spawnedProcessRunning := spawnedProcessRunning c;
     spawnedProcessMessageSent := spawnedProcessMessageSent c;
     spawnfile := spawnfile c; spawnargs := spawnargs c;
     killed := killed c; exited := exited c; listeners := listeners c;
     stdout_listeners := stdout_listeners c;
     stderr_listeners := stderr_listeners c; stdin := stdin c ++ [s];
     kills := kills c; signals := signals c; timer := timer c |}.

(** [spawnedProcess.kill()].  [kills] counts the calls.  The method of
    [ChildProcess] signals through the process handle, which is gone once
    the exit has been seen: only while the child has not exited does a
    signal go out ([signals]) and [killed] become true. *)
Definition kill (c : child) : child :=
  {| cogScriptId := cogScriptId c; message := message c;
     spawnedProcessRunning := spawnedProcessRunning c;
     spawnedProcessMessageSent := spawnedProcessMessageSent c;
     spawnfile := spawnfile c; spawnargs := spawnargs c;
     killed := if exited c then killed c else true;
     exited := exited c; listeners := listeners c;
     stdout_listeners := stdout_listeners c;
     stderr_listeners := stderr_listeners c; stdin := stdin c;
     kills := S (kills c);
     signals := if exited c then signals c else S (signals c);
     timer := timer c |}.

(** ** The Executor: [runScript] and what it installs *)

Definition script_path (i file_name : string) : string :=
  "./data/scripts/" +:+ i +:+ "/" +:+ file_name.

(** [runtime.scripts.find(i => i.id === x)]. *)
Definition find_script (x : string) (l : list cogFile) : option cogFile :=
  List.find (fun i => String.eqb (id i) x) l.

(** [childProcess.spawn('node', [cogScriptFile, ...context], ...)]: the
    child as [runScript] first sees it, its local variables at their
    initial values. *)
Definition spawn (cogScript : cogFile) (msg : jsval) (args : list jsval) : child :=
  {| cogScriptId := id cogScript; message := msg;
     spawnedProcessRunning := true;
     spawnedProcessMessageSent := false;
     spawnfile := "node"; spawnargs := args;
     killed := false; exited := false; listeners := [];
     stdout_listeners := []; stderr_listeners := []; stdin := [];
     kills := 0; signals := 0; timer := None |}.

(** [runScript(cogScriptId, context, message)], lines 37-95.  The result is
    the handle of the spawned child; [None] is the [undefined] of the bare
    [return].  With a runtime other than ['nodejs'] the variable
    [spawnedProcess] is still [null] when [.on] is read from it. *)
Definition runScript (cogScriptId : string) (context : list jsval)
    (msg : jsval) : M (option nat) :=
  w ← get;
  match find_script cogScriptId (scripts w) with
  | None =>
      console_error ("Could not locate cog script " +:+ cogScriptId +:+ " in runtime");;
      mret None
  | Some cogScript =>
      let cogScriptFile :=
        script_path (id cogScript) (ToString (entrypoint cogScript)) in
      if strict_eq_str (runtime cogScript) "nodejs" then
        let p := length (procs w) in
        modify (with_procs (fun l =>
          l ++ [spawn cogScript msg (JStr cogScriptFile :: context)]));;
        on_child p (add_listener "exit" OnExit_runScript);;
        on_child p (add_stdout_listener "data" OnStdout_runScript);;
        on_child p (set_timer (Some (timeout cogScript)));;
        mret (Some p)
      else
        throw (TypeError "Cannot read properties of null (reading 'on')")
  end.

(** The arguments the operating system hands to [node]: each element of
    [spawnargs] converted to a string. *)
Definition argv (c : child) : list string := map ToString (spawnargs c).

(** ** Responses *)

Definition res_new : M nat :=
  w ← get;
  modify (with_resps (fun l => l ++ [{| statusCode := 200; sent := None |}]));;
  mret (length (resps w)).

Definition res_status (r : nat) (code : Z) : M unit :=
  on_resp r (fun x => {| statusCode := code; sent := sent x |}).

(** [res.json] and [res.send]: the first one goes out with the status set
    so far; a later one finds the headers sent. *)
Definition res_send (r : nat) (b : body) : M unit :=
  w ← get;
  match resps w !! r with
  | None => mret tt
  | Some x =>
      match sent x with
      | None =>
          on_resp r (fun x => {| statusCode := statusCode x;
                                 sent := Some (statusCode x, b) |})
      | Some _ => throw (SystemError "ERR_HTTP_HEADERS_SENT")
      end
  end.

(** What the client of response [r] received. *)
Definition received (r : nat) (w : world) : option (Z * body) :=
  x ← resps w !! r; sent x.

(** ** Listeners *)

Definition append_output (data : string) (x : run_capture) : run_capture :=
  {| res_of := res_of x; consoleOutput := consoleOutput x +:+ data;
     consoleError := consoleError x |}.

Definition append_error (data : string) (x : run_capture) : run_capture :=
  {| res_of := res_of x; consoleOutput := consoleOutput x;
     consoleError := consoleError x +:+ data |}.

(** The body of each listener, run for child [p] with the event's data. *)
Definition run_handler (p : nat) (h : handler) (data : string) : M unit :=
  match h with
  | OnExit_runScript =>
      (* lines 60-64 *)
      on_child p (set_running false);;
      w ← get;
      from_option (fun c =>
        console_log ("Cog script " +:+ cogScriptId c +:+ " has exited"))
        (mret tt) (procs w !! p)
  | OnStdout_runScript =>
      (* lines 66-75 *)
      let output := data in
      w ← get;
      from_option (fun c =>
        console_log ("Cog script " +:+ cogScriptId c +:+ ": " +:+ output))
        (mret tt) (procs w !! p);;
      when (includes output "message:")
        (on_child p (fun c =>
           stdin_write (ToString (or_else (plus_str (message c) nl) (JStr nl))) c))
  | OnStdout_run k =>
      (* lines 321-323 *)
      on_run k (append_output data)
  | OnStderr_run k =>
      (* lines 325-328 *)
      on_run k (append_output data);;
      on_run k (append_error data)
  | OnExit_run k =>
      (* lines 330-332 *)
      w ← get;
      from_option (fun x =>
        res_send (res_of x)
          (RunBody "Script has executed successfully!"
                   (consoleOutput x) (consoleError x)))
        (mret tt) (runs w !! k)
  end.

Fixpoint call_all (p : nat) (hs : list handler) (data : string) : M unit :=
  match hs with
  | [] => mret tt
  | h :: rest => run_handler p h data;; call_all p rest data
  end.

Definition handlers_for (ev : string) (ls : list (string * handler)) : list handler :=
  map snd (List.filter (fun x => String.eqb (fst x) ev) ls).

(** [emitter.emit(ev, data)]: the listeners of [ev] in the order they were
    added.  An ['error'] event without a listener is thrown. *)
Definition emit (p : nat) (ls : list (string * handler)) (ev data : string) : M unit :=
  match handlers_for ev ls with
  | [] => if String.eqb ev "error" then throw (SystemError data) else mret tt
  | hs => call_all p hs data
  end.

(** ** The event loop *)

(** What the platform delivers to the engine, one callback at a time. *)
Inductive event :=
| StdoutData (p : nat) (data : string)   (* 'data' on child.stdout *)
| StderrData (p : nat) (data : string)   (* 'data' on child.stderr *)
| ProcExit (p : nat)                     (* the child has exited: 'exit' *)
| ProcError (p : nat) (code : string)    (* the child could not be spawned: 'error' *)
| TimerFired (p : nat)                   (* the setTimeout of runScript *)
| CronFired (t : nat) (now : Z).         (* a tick of scheduler task t *)

(** The callback of [setTimeout], lines 78-92. *)
Definition timeout_callback (p : nat) : M unit :=
  w ← get;
  match procs w !! p with
  | None => mret tt
  | Some c =>
      when (spawnedProcessRunning c)
        (console_warn ("Cog script " +:+ cogScriptId c +:+ " exceed execution time window"));;
      (* spawnedProcess !== null holds for every child that has a timer *)
      when (negb (killed c))
        (on_child p removeAllListeners;;
         on_child p removeAllListeners;;
         on_child p kill)
  end.

(** The callback given to [nodeCron.schedule], lines 28-32, for the task of
    script [i] at clock reading [now] (milliseconds). *)
Definition cron_callback (i : string) (now : Z) : M unit :=
  console_log ("Running cog script " +:+ i +:+ " from cron schedule");;
  runScript i [JArr [JStr ("--time=" +:+ pretty (now `div` 1000))]] JNull;;
  mret tt.

Definition step (e : event) : M unit :=
  w ← get;
  match e with
  | StdoutData p data =>
      from_option (fun c => emit p (stdout_listeners c) "data" data)
        (mret tt) (procs w !! p)
  | StderrData p data =>
      from_option (fun c => emit p (stderr_listeners c) "data" data)
        (mret tt) (procs w !! p)
  | ProcExit p =>
      match procs w !! p with
      | None => mret tt
      | Some c =>
          if exited c then mret tt
          else on_child p set_exited;; emit p (listeners c) "exit" EmptyString
      end
  | ProcError p code =>
      from_option (fun c => emit p (listeners c) "error" code)
        (mret tt) (procs w !! p)
  | TimerFired p =>
      match procs w !! p with
      | None => mret tt
      | Some c =>
          match timer c with
          | None => mret tt
          | Some _ => on_child p (set_timer None);; timeout_callback p
          end
      end
  | CronFired t now =>
      from_option (fun task => cron_callback (task_script task) now)
        (mret tt) (crons w !! t)
  end.

(** A run of the loop; an exception that leaves a callback ends it. *)
Fixpoint run_events (es : list event) : M unit :=
  match es with
  | [] => mret tt
  | e :: rest => step e;; run_events rest
  end.

(** ** The HTTP handlers *)

Record request := {
  params_script : string;               (* req.params.script *)
  query : list (string * jsval);        (* req.query, in Object.keys order *)
  req_body : gmap string jsval;         (* req.body *)
  body_json : string                    (* JSON.stringify(req.body) *)
}.

(** [req.body.key]. *)
Definition field (req : request) (key : string) : jsval :=
  default JUndefined (req_body req !! key).

(** The loop that flattens the query into command line arguments,
    lines 278-282 and 310-314. *)
Definition flatten_query (q : list (string * jsval)) : list jsval :=
  map (fun kv => JStr ("--" +:+ fst kv +:+ "=" +:+ dq +:+ ToString (snd kv) +:+ dq)) q.

(** [POST /api/v1/trigger/:script], lines 258-287. *)
Definition trigger (req : request) (res : nat) : M unit :=
  w ← get;
  match find_script (params_script req) (scripts w) with
  | None =>
      console_error ("Could not locate cog script " +:+ params_script req +:+ " in runtime");;
      res_status res 404;;
      res_send res (MessageBody "The requested script could not be found.")
  | Some cogScript =>
      when (negb (truthy (webhook cogScript)))
        (res_status res 400;;
         res_send res (MessageBody "The requested script does not have webhooks enabled."));;
      let context := flatten_query (query req) in
      runScript (id cogScript) context (JStr (body_json req));;
      res_send res (MessageBody "Script execution has been triggered.")
  end.

(** [POST /api/v1/run/:script], lines 290-333. *)
Definition run (req : request) (res : nat) : M unit :=
  w ← get;
  match find_script (params_script req) (scripts w) with
  | None =>
      console_error ("Could not locate cog script " +:+ params_script req +:+ " in runtime");;
      res_status res 404;;
      res_send res (MessageBody "The requested script could not be found.")
  | Some cogScript =>
      when (negb (truthy (webhook cogScript)))
        (res_status res 400;;
         res_send res (MessageBody "The requested script does not have webhooks enabled."));;
      let context := flatten_query (query req) in
      child ← runScript (id cogScript) context (JStr (body_json req));
      match child with
      | None => throw (TypeError "Cannot read properties of undefined (reading 'stdout')")
      | Some p =>
          w' ← get;
          let k := length (runs w') in
          modify (with_runs (fun l =>
            l ++ [{| res_of := res; consoleOutput := EmptyString; consoleError := EmptyString |}]));;
          on_child p (add_stdout_listener "data" (OnStdout_run k));;
          on_child p (add_stderr_listener "data" (OnStderr_run k));;
          on_child p (add_listener "exit" (OnExit_run k))
      end
  end.

(** The handler of a route called on a fresh response object; the
    result is how the handler completes. *)
Definition invoke (h : request -> nat -> M unit) (req : request) : M unit :=
  res ← res_new; h req res.

(** [try { m } catch (e) { h(e) }]. *)
Definition try_catch {A} (m : M A) (h : js_error -> M A) : M A :=
  fun w =>
    match m w with
    | (Normal a, w') => (Normal a, w')
    | (Throw e, w') => h e w'
    end.

(** The status that the error handler answers with: the one set on the
    response when that is an error status, 500 otherwise (the errors of
    the program carry no status of their own). *)
Definition error_status (x : response) : Z :=
  if (400 <=? statusCode x) && (statusCode x <=? 599) then statusCode x
  else 500.

(** The default error handler of Express, which receives what a route
    handler throws.  While nothing has gone out on the response it sends
    its error page; once the headers are sent it only closes the
    connection.  The trace that it writes with [console.error] is not
    kept. *)
Definition finalhandler (res : nat) (e : js_error) : M unit :=
  w ← get;
  match resps w !! res with
  | None => mret tt
  | Some x =>
      match sent x with
      | None =>
          on_resp res (fun x => {| statusCode := error_status x;
                                   sent := Some (error_status x, ErrorPage e) |})
      | Some _ => mret tt
      end
  end.

(** A request served: Express calls the handler of the route on a fresh
    response object and hands an exception that leaves it to its error
    handler. *)
Definition serve (h : request -> nat -> M unit) (req : request) : M unit :=
  res ← res_new; try_catch (h req res) (finalhandler res).

(** ** The file store *)

(** [fs.mkdirSync('./data/scripts/' + i)]: fails on an existing entry. *)
Definition mkdirSync (i : string) : M unit :=
  w ← get;
  if bool_decide (i ∈ dirs w) then throw (SystemError "EEXIST")
  else modify (with_dirs (fun l => l ++ [i])).

(** [fs.writeFileSync(path, data)]: [data] has to be a string. *)
Definition writeFileSync (path : string) (data : jsval) : M unit :=
  match data with
  | JStr s => modify (with_files (insert path (Raw s)))
  | _ => throw (TypeError "ERR_INVALID_ARG_TYPE")
  end.

(** [fs.writeFileSync(path, JSON.stringify(c, null, 4))]. *)
Definition writeDescriptor (path : string) (c : cogFile) : M unit :=
  modify (with_files (insert path (Json c))).

(** A result of a built-in used as a statement. *)
Definition lift {A} (c : completion A) : M A := fun w => (c, w).

Definition set_entrypoint (e : jsval) (c : cogFile) : cogFile :=
  {| id := id c; created := created c; updated := updated c; name := name c;
     runtime := runtime c; webhook := webhook c; cron := cron c;
     cronSchedule := cronSchedule c; entrypoint := e; timeout := timeout c;
     cronTask := cronTask c |}.

Definition set_cronTask (t : option nat) (c : cogFile) : cogFile :=
  {| id := id c; created := created c; updated := updated c; name := name c;
     runtime := runtime c; webhook := webhook c; cron := cron c;
     cronSchedule := cronSchedule c; entrypoint := entrypoint c;
     timeout := timeout c; cronTask := t |}.

(** ** Registration, update and reload *)

Section Scheduler.

(** Whether [nodeCron.schedule] accepts an expression; the library
    throws on the others. *)
Variable cron_valid : jsval -> bool.

(** [JSON.parse] on a text that is not the output of [JSON.stringify] for
    a descriptor: [None] when it throws its [SyntaxError], the object
    otherwise.  The objects are descriptors, as everywhere in the script
    list: a text that is JSON for another value ([null], a number, an
    object without a string [id]) has no counterpart here, and the
    properties of the reload loop are about descriptor files that hold
    none of these. *)
Variable JSON_parse_text : string -> option cogFile.

Definition JSON_parse (f : file) : completion cogFile :=
  match f with
  | Json c => Normal c
  | Raw text =>
      match JSON_parse_text text with
      | Some c => Normal c
      | None => Throw (SyntaxError "JSON.parse")
      end
  end.

(** [addCronTrigger(cogFile)], lines 27-35.  [cogFile] is the object at
    index [i] of [runtime.scripts]: the assignment to [_cronTask] is seen
    through the list. *)
Definition addCronTrigger (i : nat) : M unit :=
  w ← get;
  match scripts w !! i with
  | None => mret tt
  | Some cogFile =>
      if cron_valid (cronSchedule cogFile) then
        let task := length (crons w) in
        modify (with_crons (fun l =>
          l ++ [{| task_script := id cogFile;
                   task_schedule := cronSchedule cogFile |}]));;
        modify (with_scripts (alter (set_cronTask (Some task)) i))
      else throw (SystemError "invalid cron expression")
  end.

(** [POST /ui/new], lines 141-183.  [hat] is the identifier that [hat()]
    returns and [now] the reading of [Date.now()]. *)
Definition ui_new (hat : string) (now : Z) (req : request) (res : nat) : M unit :=
  let id := hat in
  mkdirSync id;;
  let entryFile :=
    {| id := id;
       created := now `div` 1000;
       updated := now `div` 1000;
       name := field req "name";
       runtime := field req "runtime";
       webhook := field req "webhook";
       cron := field req "cron";
       cronSchedule := field req "cronSchedule";
       entrypoint := JNull;
       timeout := 30000;
       cronTask := None |} in
  entryFile ←
    (if strict_eq_str (field req "runtime") "nodejs" then
       writeFileSync (script_path id "app.js") (field req "code");;
       mret (set_entrypoint (JStr "app.js") entryFile)
     else mret entryFile);
  writeDescriptor (script_path id ".cog") entryFile;;
  w ← get;
  modify (with_scripts (fun l => l ++ [entryFile]));;
  when (truthy (field req "cron")) (addCronTrigger (length (scripts w)));;
  res_send res (IdBody id).

(** [POST /ui/scripts/:script], lines 218-231. *)
Definition ui_update (req : request) (res : nat) : M unit :=
  w ← get;
  match find_script (params_script req) (scripts w) with
  | None =>
      res_status res 404;;
      res_send res (TextBody "404")
  | Some script =>
      writeFileSync
        (script_path (id script) (ToString (entrypoint script)))
        (field req "code");;
      res_send res (IdBody (id script))
  end.

(** The reload loop of the [server.listen] callback, lines 353-369, over
    the names that [readdirSync] returned. *)
Fixpoint reload (names : list string) : M unit :=
  match names with
  | [] => mret tt
  | script :: rest =>
      w ← get;
      match files w !! script_path script ".cog" with
      | None =>
          console_log ("Script " +:+ script +:+ " is missing .cog file, skipping");;
          reload rest
      | Some text =>
          cogFile ← lift (JSON_parse text);
          modify (with_scripts (fun l => l ++ [cogFile]));;
          when (truthy (cron cogFile)) (addCronTrigger (length (scripts w)));;
          console_log ("Cog script " +:+ id cogFile +:+ " loaded into runtime");;
          reload rest
      end
  end.

(** The [server.listen] callback, lines 336-370. *)
Definition listen_callback : M unit :=
  console_log "Cog is online 0.0.0.0:3000";;
  w ← get;
  reload (dirs w).

End Scheduler.

(** ** Predicates and reference states for the properties *)

(** The child as [runScript] leaves it: one listener on the process, one on
    its stdout, the timer armed. *)
Definition started (cogScript : cogFile) (context : list jsval) (msg : jsval) : child :=
  {| cogScriptId := id cogScript; message := msg;
     spawnedProcessRunning := true;
     spawnedProcessMessageSent := false;
     spawnfile := "node";
     spawnargs :=
       JStr (script_path (id cogScript) (ToString (entrypoint cogScript))) :: context;
     killed := false; exited := false;
     listeners := [("exit", OnExit_runScript)];
     stdout_listeners := [("data", OnStdout_runScript)];
     stderr_listeners := []; stdin := [];
     kills := 0; signals := 0; timer := Some (timeout cogScript) |}.

Ltac unfold_m :=
  unfold when, on_child, on_run, on_resp,
    console_log, console_warn, console_error;
  unfold mbind, M_bind, mret, M_ret, get, modify, throw.

(** What one stdout chunk does to a child that carries the listener of
    [runScript] alone: a log line, and a write to stdin when the chunk
    contains [message:].  No variable of the invocation is consulted or
    changed besides. *)
Definition after_chunk (data : string) (c : child) : child :=
  if includes data "message:"
  then stdin_write (ToString (message c) +:+ nl) c
  else c.

Module Ref.

(** A descriptor as [POST /ui/new] builds it for a nodejs script. *)
Definition descriptor (i : string) (rt wh cr sched : jsval) : cogFile :=
  {| id := i; created := 100; updated := 100; name := JStr "hello";
     runtime := rt; webhook := wh; cron := cr; cronSchedule := sched;
     entrypoint := JStr "app.js"; timeout := 30000; cronTask := None |}.

Definition s1 : cogFile :=
  descriptor "s1" (JStr "nodejs") (JBool true) (JBool false) JUndefined.

(** [s1] with the webhook switched off. *)
Definition s1_closed : cogFile :=
  descriptor "s1" (JStr "nodejs") (JBool false) (JBool false) JUndefined.


(** A server that holds the one script [c], stored on disk. *)
Definition server (c : cogFile) : world :=
  {| scripts := [c];
     dirs := [id c];
     files := {[ script_path (id c) ".cog" := Json c;
                 script_path (id c) "app.js" := Raw "console.log('message: go')" ]};
     procs := []; runs := []; resps := []; crons := []; console := [] |}.

(** [s1] scheduled every minute: the descriptor carries its task. *)
Definition s1_cron : cogFile :=
  set_cronTask (Some 0%nat)
    (descriptor "s1" (JStr "nodejs") (JBool true) (JBool true) (JStr "* * * * *")).

Definition cron_server : world :=
  with_crons (fun _ => [{| task_script := "s1"; task_schedule := JStr "* * * * *" |}])
    (server s1_cron).

(** [POST .../s1?who=world] with a JSON body of one field, [hello]. *)
Definition post_s1 : request :=
  {| params_script := "s1";
     query := [("who", JStr "world")];
     req_body := {[ "hello" := JStr "from curl" ]};
     body_json := "{" +:+ dq +:+ "hello" +:+ dq +:+ ":" +:+ dq +:+ "from curl" +:+ dq +:+ "}" |}.

End Ref.




(** C8 as stated: after an update received at clock reading [now] the
    entrypoint of script [i] holds the new code, its descriptor carries the
    refreshed [updated] stamp, and that descriptor is the one stored. *)
Definition update_refreshes (now : Z) (i code : string) (w' : world) : Prop :=
  exists c,
    find_script i (scripts w') = Some c /\
    files w' !! script_path i (ToString (entrypoint c)) = Some (Raw code) /\
    updated c = now `div` 1000 /\
    files w' !! script_path i ".cog" = Some (Json c).

Module RefUpdate.

(** New code for [s1], received at second 200 while the descriptor
    dates from second 100. *)
Definition post_code : request :=
  {| params_script := "s1"; query := [];
     req_body := {[ "code" := JStr "console.log(2)" ]};
     body_json := "{}" |}.

Definition received_at : Z := 200000.

End RefUpdate.

Module RefNew.

(** A registration form that also supplies a [timeout]. *)
Definition form : request :=
  {| params_script := EmptyString; query := [];
     req_body := {[ "name" := JStr "greeter"; "runtime" := JStr "nodejs";
                    "webhook" := JStr "on"; "code" := JStr "console.log(1)";
                    "timeout" := JNum 5 ]};
     body_json := "{}" |}.

Definition accept_all (_ : jsval) : bool := true.

End RefNew.

(** The statements of [POST /ui/new] from the write of the descriptor
    file on, for the entry [e] built so far. *)
Definition register_entry (valid : jsval -> bool) (req : request)
    (res : nat) (e : cogFile) : M unit :=
  writeDescriptor (script_path (id e) ".cog") e;;
  w ← get;
  modify (with_scripts (fun l => l ++ [e]));;
  when (truthy (field req "cron")) (addCronTrigger valid (length (scripts w)));;
  res_send res (IdBody (id e)).

(** The descriptor that a file holds, if it holds one. *)
Definition descriptor_of (parse : string -> option cogFile) (f : option file)
    : option cogFile :=
  match f with
  | Some (Json c) => Some c
  | Some (Raw text) => parse text
  | None => None
  end.

(** The descriptors on disk, in the order of the directory listing. *)
Definition stored (parse : string -> option cogFile) (fs : gmap string file)
    (names : list string) : list cogFile :=
  omap (fun n => descriptor_of parse (fs !! script_path n ".cog")) names.

(** A directory entry the loop gets past: no descriptor file, or one that
    holds a descriptor which, when it asks for cron, carries a schedule
    that the scheduler accepts. *)
Definition loadable (valid : jsval -> bool) (parse : string -> option cogFile)
    (f : option file) : Prop :=
  match f with
  | None => True
  | Some _ =>
      match descriptor_of parse f with
      | Some c => truthy (cron c) = true -> valid (cronSchedule c) = true
      | None => False
      end
  end.

Definition skip_line (n : string) : level * string :=
  (Log, "Script " +:+ n +:+ " is missing .cog file, skipping").

(** C9 as stated: the startup load completes, and every script whose
    descriptor parses is in the script list afterwards. *)
Definition load_completes (valid : jsval -> bool)
    (parse : string -> option cogFile) (w : world) : Prop :=
  let r := listen_callback valid parse w in
  fst r = Normal tt /\
  forall n c, n ∈ dirs w ->
    descriptor_of parse (files w !! script_path n ".cog") = Some c ->
    exists c', c' ∈ scripts (snd r) /\ id c' = id c.

Module RefDisk.

Definition b : cogFile :=
  Ref.descriptor "b" (JStr "nodejs") (JBool true) (JBool false) JUndefined.

Definition c : cogFile :=
  Ref.descriptor "c" (JStr "nodejs") (JBool false) (JBool false) JUndefined.

(** [JSON.parse] on the one text of the disks below that the server did
    not write: a brace that is never closed. *)
Definition cut_short (text : string) : option cogFile := None.

(** Two script directories; the descriptor of the first is cut short. *)
Definition damaged : world :=
  {| scripts := []; dirs := ["a"; "b"];
     files := {[ script_path "a" ".cog" := Raw "{";
                 script_path "b" ".cog" := Json b ]};
     procs := []; runs := []; resps := []; crons := []; console := [] |}.

(** Two script directories; the first has no descriptor file. *)
Definition incomplete : world :=
  {| scripts := []; dirs := ["a"; "b"];
     files := {[ script_path "a" "app.js" := Raw "console.log(1)";
                 script_path "b" ".cog" := Json b ]};
     procs := []; runs := []; resps := []; crons := []; console := [] |}.

(** Three script directories; the descriptor of the second is cut
    short. *)
Definition broken_middle : world :=
  {| scripts := []; dirs := ["b"; "a"; "c"];
     files := {[ script_path "b" ".cog" := Json b;
                 script_path "a" ".cog" := Raw "{";
                 script_path "c" ".cog" := Json c ]};
     procs := []; runs := []; resps := []; crons := []; console := [] |}.

End RefDisk.

(** C5 as stated, on the child [p] of world [w] that now exits by itself:
    the exit cancels the timer, and the timeout callback calls no
    [kill()]. *)
Definition exit_disarms (w : world) (p : nat) : Prop :=
  let w1 := snd (step (ProcExit p) w) in
  let w2 := snd (step (TimerFired p) w1) in
  (exists c1, procs w1 !! p = Some c1 /\ timer c1 = None) /\
  (exists c2, procs w2 !! p = Some c2 /\ kills c2 = 0%nat).

(** ** The routes around the engine *)

(** [s.split(sep)] for a separator of one character. *)
Fixpoint split (sep : ascii) (s : string) : list string :=
  match s with
  | EmptyString => [EmptyString]
  | String ch s' =>
      if Ascii.eqb ch sep then EmptyString :: split sep s'
      else match split sep s' with
           | [] => [String ch EmptyString]
           | piece :: rest => String ch piece :: rest
           end
  end.

(** [x || ''] for a string that may be [undefined]. *)
Definition or_empty (x : option string) : string := default EmptyString x.

(** An array element that may be missing, as a value. *)
Definition of_piece (x : option string) : jsval := from_option JStr JUndefined x.

Section Gate.

(** [Buffer.from(s, 'base64').toString()]. *)
Variable base64_decode : string -> string.

(** The pieces that the gate of [/ui] destructures into [login] and
    [password], lines 115-116, from [req.headers.authorization]. *)
Definition credentials (authorization : option string) : list string :=
  let b64auth := or_empty (split " "%char (or_empty authorization) !! 1%nat) in
  split ":"%char (base64_decode b64auth).

(** [process.env.UI_SECRET || 'cogui'], line 112. *)
Definition auth_password (UI_SECRET : option string) : string :=
  match UI_SECRET with
  | Some s => if String.eqb s EmptyString then "cogui" else s
  | None => "cogui"
  end.

(** The condition of line 119. *)
Definition ui_auth (UI_SECRET authorization : option string) : bool :=
  let login := of_piece (credentials authorization !! 0%nat) in
  let password := of_piece (credentials authorization !! 1%nat) in
  truthy login && truthy password &&
  strict_eq_str login "admin" &&
  strict_eq_str password (auth_password UI_SECRET).

(** The middleware of [/ui], lines 110-126, in front of a handler; the
    [WWW-Authenticate] header of the refusal is not kept. *)
Definition ui_gate (UI_SECRET authorization : option string)
    (next : M unit) (res : nat) : M unit :=
  if ui_auth UI_SECRET authorization then next
  else res_status res 401;;
       res_send res (TextBody "Authentication required.").

End Gate.

(** What the routes below answer: they send once, at the end of each path,
    so the answer is the result of the handler. *)
Inductive page :=
| HomePage (listing : list (string * jsval * jsval))   (* ui/home.html *)
| ScriptPage (i : string) (n r : jsval).               (* ui/script.html *)

Inductive payload :=
| Rendered (p : page)
| Sent (s : string)
| NullId                                               (* { id: null } *)
| Failed (e : js_error).            (* the page of Express's error handler *)

Record reply := {
  reply_status : Z;
  reply_payload : payload
}.

(** [GET /ui], lines 129-133. *)
Definition ui_home : M reply :=
  w ← get;
  mret {| reply_status := 200;
          reply_payload :=
            Rendered (HomePage (map (fun i => (id i, name i, runtime i)) (scripts w))) |}.

(** [GET /ui/scripts/:script], lines 186-201. *)
Definition ui_script (req : request) : M reply :=
  w ← get;
  match find_script (params_script req) (scripts w) with
  | None => mret {| reply_status := 404; reply_payload := Sent "404" |}
  | Some script =>
      mret {| reply_status := 200;
              reply_payload :=
                Rendered (ScriptPage (id script) (name script) (runtime script)) |}
  end.

Section Raw.

(** The text [JSON.stringify(c, null, 4)]. *)
Variable JSON_stringify : cogFile -> string.

Definition file_text (f : file) : string :=
  match f with
  | Raw text => text
  | Json c => JSON_stringify c
  end.

(** [fs.readFileSync(path).toString()]. *)
Definition readFileSync (path : string) : M string :=
  w ← get;
  match files w !! path with
  | None => throw (SystemError "ENOENT")
  | Some f => mret (file_text f)
  end.

(** [GET /ui/scripts/:script/raw], lines 204-215. *)
Definition ui_raw (req : request) : M reply :=
  w ← get;
  match find_script (params_script req) (scripts w) with
  | None => mret {| reply_status := 404; reply_payload := Sent "404" |}
  | Some script =>
      text ← readFileSync (script_path (id script) (ToString (entrypoint script)));
      mret {| reply_status := 200; reply_payload := Sent text |}
  end.

End Raw.

(** The engine together with the scheduler tasks on which [destroy()] was
    called: the scheduler fires those no more. *)
Record site := {
  engine : world;
  destroyed : list nat
}.

Definition on_engine {A} (m : M A) (s : site) : completion A * site :=
  let r := m (engine s) in
  (fst r, {| engine := snd r; destroyed := destroyed s |}).

(** The directory of a script, as a prefix of the paths under it.  Ids are
    directory names: not empty, without [/]. *)
Definition script_dir (i : string) : string := "./data/scripts/" +:+ i +:+ "/".

(** [rimrafSync('./data/scripts/' + i)]: the entry and every file under
    it; nothing is raised when there is none. *)
Definition rimrafSync (i : string) (w : world) : world :=
  with_files (filter (fun kv : string * file => String.prefix (script_dir i) (fst kv) = false))
    (with_dirs (List.filter (fun d => negb (String.eqb d i))) w).

(** [DELETE /ui/scripts/:script], lines 234-255.  For a script that
    carries a task, [destroy()] is called and returns [undefined]: the
    [.then] of line 245 is read from it, and the [TypeError] leaves the
    handler before [rimrafSync] and the filter. *)
Definition ui_delete (req : request) (s : site) : completion reply * site :=
  let w := engine s in
  match find_script (params_script req) (scripts w) with
  | None => (Normal {| reply_status := 404; reply_payload := Sent "404" |}, s)
  | Some script =>
      match cronTask script with
      | Some t =>
          (Throw (TypeError "Cannot read properties of undefined (reading 'then')"),
           {| engine := w; destroyed := destroyed s ++ [t] |})
      | None =>
          let w1 := rimrafSync (id script) w in
          let w2 :=
            with_scripts
              (List.filter (fun i => negb (String.eqb (id i) (id script)))) w1 in
          (Normal {| reply_status := 200; reply_payload := NullId |},
           {| engine := w2; destroyed := destroyed s |})
      end
  end.

(** What the client of a route that returns its answer receives: the
    answer, or the error page when the handler throws. *)
Definition answered (c : completion reply) : reply :=
  match c with
  | Normal r => r
  | Throw e => {| reply_status := 500; reply_payload := Failed e |}
  end.

(** One event at the site: a tick of a destroyed task does not happen. *)
Definition deliver (e : event) (s : site) : completion unit * site :=
  match e with
  | CronFired t _ =>
      if bool_decide (t ∈ destroyed s) then (Normal tt, s)
      else on_engine (step e) s
  | _ => on_engine (step e) s
  end.

Fixpoint deliver_all (es : list event) (s : site) : completion unit * site :=
  match es with
  | [] => (Normal tt, s)
  | e :: rest =>
      match deliver e s with
      | (Normal _, s') => deliver_all rest s'
      | (Throw x, s') => (Throw x, s')
      end
  end.

(** ** Predicates for the properties of whole runs *)

(** The registry, the disk and the scheduler are as they were. *)
Definition static (w w' : world) : Prop :=
  scripts w' = scripts w /\ dirs w' = dirs w /\
  files w' = files w /\ crons w' = crons w.

(** [m] leaves registry, disk and scheduler alone, spawns nothing, and
    takes every child to one in relation [R] with it. *)
Definition evolves (R : child -> child -> Prop) {A} (m : M A) : Prop :=
  forall w, static w (snd (m w)) /\ Forall2 R (procs w) (procs (snd (m w))).

Definition any_child (c c' : child) : Prop := True.

(** What a listener leaves of a child. *)
Definition same_counts (c c' : child) : Prop :=
  kills c' = kills c /\ signals c' = signals c /\ timer c' = timer c /\
  killed c' = killed c /\ cogScriptId c' = cogScriptId c.

Definition same_script (c c' : child) : Prop :=
  cogScriptId c' = cogScriptId c.

(** [kill()] is called at most once on a child, and not before its timer
    has fired. *)
Definition kill_once (c : child) : Prop :=
  (kills c <= 1)%nat /\ (signals c <= kills c)%nat /\
  (is_Some (timer c) -> kills c = 0%nat).

(** What the firing of its timer makes of a child, lines 84-91. *)
Definition fire (c : child) : child :=
  if killed c then set_timer None c
  else kill (removeAllListeners (removeAllListeners (set_timer None c))).

(** The output of a child, chunk by chunk. *)
Inductive chunk :=
| Out (data : string)
| Err (data : string).

Definition chunk_event (p : nat) (c : chunk) : event :=
  match c with
  | Out data => StdoutData p data
  | Err data => StderrData p data
  end.

Fixpoint all_output (cs : list chunk) : string :=
  match cs with
  | [] => EmptyString
  | Out data :: rest => data +:+ all_output rest
  | Err data :: rest => data +:+ all_output rest
  end.

Fixpoint error_output (cs : list chunk) : string :=
  match cs with
  | [] => EmptyString
  | Out _ :: rest => error_output rest
  | Err data :: rest => data +:+ error_output rest
  end.

(** The child of a run request: the listeners of [runScript] and those of
    the request [k]. *)
Definition run_child (cogScript : cogFile) (context : list jsval)
    (msg : jsval) (k : nat) : child :=
  add_listener "exit" (OnExit_run k)
    (add_stderr_listener "data" (OnStderr_run k)
       (add_stdout_listener "data" (OnStdout_run k)
          (started cogScript context msg))).

(** A later state of a child: the same script, and [kill_once] kept. *)
Definition settled (c c' : child) : Prop :=
  cogScriptId c' = cogScriptId c /\ (kill_once c -> kill_once c').

(** A child as it can be spawned while the registry is [registry]: its
    script is registered, and no [kill()] was called on it. *)
Definition fresh_child (registry : list cogFile) (c : child) : Prop :=
  kill_once c /\ is_Some (find_script (cogScriptId c) registry).

(** [m] leaves registry, disk and scheduler alone; the children it finds
    stay in place and [settled], the ones it adds are [fresh_child]ren. *)
Definition grows {A} (m : M A) : Prop :=
  forall w,
    static w (snd (m w)) /\
    exists old new,
      procs (snd (m w)) = old ++ new /\
      Forall2 settled (procs w) old /\
      Forall (fresh_child (scripts w)) new.

(** [m] touches no child. *)
Definition keeps_procs {A} (m : M A) : Prop :=
  forall w, procs (snd (m w)) = procs w.

(** ** The server as a transition system *)

(** What happens to the server: an event of the platform, or a request
    that changes something (the [/ui] requests taken past the gate). *)
Inductive action :=
| Event (e : event)
| PostTrigger (req : request)
| PostRun (req : request)
| PostNew (hat : string) (now : Z) (req : request)
| PostUpdate (req : request)
| DeleteScript (req : request).

Section Server.

Variable cron_valid : jsval -> bool.

(** The state after an action, however its callback completed. *)
Definition perform (a : action) (s : site) : site :=
  match a with
  | Event e => snd (deliver e s)
  | PostTrigger req => snd (on_engine (serve trigger req) s)
  | PostRun req => snd (on_engine (serve run req) s)
  | PostNew hat now req => snd (on_engine (serve (ui_new cron_valid hat now) req) s)
  | PostUpdate req => snd (on_engine (serve ui_update req) s)
  | DeleteScript req => snd (ui_delete req s)
  end.

Definition perform_all (l : list action) (s : site) : site :=
  fold_left (fun s a => perform a s) l s.

End Server.

Definition registers (a : action) : bool :=
  match a with PostNew _ _ _ => true | _ => false end.

(** The actions that are traffic: events and API requests. *)
Definition is_traffic (a : action) : bool :=
  match a with
  | Event _ | PostTrigger _ | PostRun _ => true
  | _ => false
  end.

(** No child of script [i] beyond the first [n] children. *)
Definition none_spawned (i : string) (n : nat) (s : site) : Prop :=
  find_script i (scripts (engine s)) = None /\
  exists old new,
    procs (engine s) = old ++ new /\ length old = n /\
    Forall (fun c => cogScriptId c <> i) new.

(** A run request [k] waiting for the exit of its child [p]: the child has
    not exited and carries the listeners of [runScript] and of the
    request, the variables of the request hold [out] and [err], and the
    response [r] is in state [rs]. *)
Definition awaiting (p k r : nat) (rs : response) (out err : string)
    (w : world) : Prop :=
  (exists c,
     procs w !! p = Some c /\ exited c = false /\
     listeners c = [("exit", OnExit_runScript); ("exit", OnExit_run k)] /\
     stdout_listeners c =
       [("data", OnStdout_runScript); ("data", OnStdout_run k)] /\
     stderr_listeners c = [("data", OnStderr_run k)]) /\
  runs w !! k =
    Some {| res_of := r; consoleOutput := out; consoleError := err |} /\
  resps w !! r = Some rs.

(** The child [p] of a run request [k], whether it has exited or not: its
    streams carry the listeners of [runScript] and of the request, the
    variables of the request hold [out] and [err], and the response [r]
    is in state [rs]. *)
Definition capturing (p k r : nat) (rs : response) (out err : string)
    (w : world) : Prop :=
  (exists c,
     procs w !! p = Some c /\
     stdout_listeners c =
       [("data", OnStdout_runScript); ("data", OnStdout_run k)] /\
     stderr_listeners c = [("data", OnStderr_run k)]) /\
  runs w !! k =
    Some {| res_of := r; consoleOutput := out; consoleError := err |} /\
  resps w !! r = Some rs.

(** The descriptor that a registration stores: every field but the five
    taken from the form is fixed by the handler. *)
Definition new_entry (hat : string) (now : Z) (req : request) : cogFile :=
  {| id := hat;
     created := now `div` 1000;
     updated := now `div` 1000;
     name := field req "name";
     runtime := field req "runtime";
     webhook := field req "webhook";
     cron := field req "cron";
     cronSchedule := field req "cronSchedule";
     entrypoint :=
       if strict_eq_str (field req "runtime") "nodejs"
       then JStr "app.js" else JNull;
     timeout := 30000;
     cronTask := None |}.

(** The server process started anew on the same disk; [names] is what
    [readdirSync] returns then, in its order. *)
Definition restart (names : list string) (w : world) : world :=
  {| scripts := []; dirs := names; files := files w; procs := [];
     runs := []; resps := []; crons := []; console := [] |}.

(** A directory entry at which the reload loop throws: the error, and
    what the iteration has appended to the script list by then. *)
Definition rejected (valid : jsval -> bool) (parse : string -> option cogFile)
    (f : option file) : option (js_error * list cogFile) :=
  match f with
  | None => None
  | Some _ =>
      match descriptor_of parse f with
      | None => Some (SyntaxError "JSON.parse", [])
      | Some c =>
          if truthy (cron c) && negb (valid (cronSchedule c))
          then Some (SystemError "invalid cron expression", [c])
          else None
      end
  end.

(** [!s.includes(sep)] for a separator of one character. *)
Definition lacks (sep : ascii) (s : string) : Prop :=
  includes s (String sep EmptyString) = false.

Definition no_slash (n : string) : Prop := lacks "/"%char n.

(** A decoder for the examples: the header carries the credentials as
    they are. *)
Definition plain (s : string) : string := s.

Module RefForms.

(** A registration form that asks for cron every minute. *)
Definition cron_form : request :=
  {| params_script := EmptyString; query := [];
     req_body := {[ "name" := JStr "ticker"; "runtime" := JStr "nodejs";
                    "cron" := JStr "on"; "cronSchedule" := JStr "* * * * *";
                    "code" := JStr "console.log(2)" ]};
     body_json := "{}" |}.

(** A registration form for nodejs without the [code] field. *)
Definition no_code : request :=
  {| params_script := EmptyString; query := [];
     req_body := {[ "name" := JStr "empty"; "runtime" := JStr "nodejs" ]};
     body_json := "{}" |}.

(** An update of [s1] without the [code] field. *)
Definition update_no_code : request :=
  {| params_script := "s1"; query := []; req_body := ∅; body_json := "{}" |}.

Definition reject_all (_ : jsval) : bool := false.

End RefForms.

(** * Properties *)

(** ** The values *)

Example ToString_nested :
  ToString (JArr [JStr "--time=12"]) = "--time=12".
Proof. reflexivity. Qed.

Example includes_mid : includes "say message: now" "message:" = true.
Proof. reflexivity. Qed.

Example includes_none : includes "messag e:" "message:" = false.
Proof. reflexivity. Qed.

Lemma append_nl_nonempty (s : string) : String.eqb (s +:+ nl) EmptyString = false.
Proof. destruct s; reflexivity. Qed.

(** The operand of [stdin.write], [message + '\n' || '\n']: [+] binds
    tighter than [||] and its result is never the empty string, so the
    right operand of [||] is never taken. *)
Lemma handshake_operand (m : jsval) :
  or_else (plus_str m nl) (JStr nl) = JStr (ToString m +:+ nl).
Proof.
  unfold or_else, plus_str, truthy.
  now rewrite append_nl_nonempty.
Qed.

(** ** [runScript] *)

Lemma alter_last {A} (f : A -> A) (l : list A) (x : A) :
  alter f (length l) (l ++ [x]) = l ++ [f x].
Proof.
  replace (length l) with (length l + 0)%nat by lia.
  now rewrite alter_app_r.
Qed.

Lemma runScript_nodejs w i context msg c :
  find_script i (scripts w) = Some c ->
  strict_eq_str (runtime c) "nodejs" = true ->
  runScript i context msg w =
    (Normal (Some (length (procs w))),
     with_procs (fun l => l ++ [started c context msg]) w).
Proof.
  intros Hfind Hrt. unfold runScript. unfold_m.
  rewrite Hfind, Hrt. cbn.
  unfold with_procs; cbn.
  rewrite !alter_last. reflexivity.
Qed.

Lemma runScript_other_runtime w i context msg c :
  find_script i (scripts w) = Some c ->
  strict_eq_str (runtime c) "nodejs" = false ->
  runScript i context msg w =
    (Throw (TypeError "Cannot read properties of null (reading 'on')"), w).
Proof.
  intros Hfind Hrt. unfold runScript. unfold_m.
  now rewrite Hfind, Hrt.
Qed.

Lemma runScript_unknown w i context msg :
  find_script i (scripts w) = None ->
  runScript i context msg w =
    (Normal None,
     with_console (fun l =>
       l ++ [(Error, "Could not locate cog script " +:+ i +:+ " in runtime")]) w).
Proof.
  intros Hfind. unfold runScript. unfold_m.
  now rewrite Hfind.
Qed.

(** ** Serving a request *)

Lemma lookup_last {A} (l : list A) (x : A) : (l ++ [x]) !! length l = Some x.
Proof. rewrite lookup_app_r by lia. now rewrite Nat.sub_diag. Qed.

(** Express around a handler: the handler's own completion when that is
    normal, the error handler on what it throws. *)
Lemma serve_of_invoke h req w :
  serve h req w =
    match invoke h req w with
    | (Normal a, w') => (Normal a, w')
    | (Throw e, w') => finalhandler (length (resps w)) e w'
    end.
Proof. reflexivity. Qed.

(** The error handler leaves script list, disk, children, run requests
    and scheduler as the handler left them. *)
Lemma serve_state h req w :
  let a := snd (serve h req w) in
  let b := snd (invoke h req w) in
  scripts a = scripts b /\ dirs a = dirs b /\ files a = files b /\
  procs a = procs b /\ runs a = runs b /\ crons a = crons b.
Proof.
  rewrite serve_of_invoke. cbn zeta.
  destruct (invoke h req w) as [[[]|e] w']; cbn [snd]; [now repeat split|].
  unfold finalhandler. unfold_m.
  destruct (resps w' !! length (resps w)) as [x|]; [|now repeat split].
  destruct (sent x); now repeat split.
Qed.

(** ** The stdin handshake *)

Lemma step_stdout_runScript w p c data :
  procs w !! p = Some c ->
  stdout_listeners c = [("data", OnStdout_runScript)] ->
  step (StdoutData p data) w =
    (Normal tt,
     with_procs (alter (after_chunk data) p)
       (with_console (fun l =>
          l ++ [(Log, "Cog script " +:+ cogScriptId c +:+ ": " +:+ data)]) w)).
Proof.
  intros Hp Hl. unfold step. unfold_m. rewrite Hp. cbn.
  unfold emit. rewrite Hl. cbn. unfold_m. rewrite Hp. cbn.
  unfold after_chunk. destruct (includes data "message:"); cbn.
  - unfold with_procs; cbn. f_equal. f_equal.
    apply list_alter_ext; [|reflexivity].
    intros x _. now rewrite handshake_operand.
  - unfold with_procs, with_console; cbn.
    now rewrite list_alter_id by reflexivity.
Qed.

Lemma after_chunk_keeps data c :
  stdout_listeners (after_chunk data c) = stdout_listeners c /\
  message (after_chunk data c) = message c /\
  cogScriptId (after_chunk data c) = cogScriptId c.
Proof. unfold after_chunk. now destruct (includes data "message:"). Qed.

Lemma stdin_after_chunk data c :
  stdin (after_chunk data c) =
    stdin c ++ (if includes data "message:" then [ToString (message c) +:+ nl] else []).
Proof.
  unfold after_chunk. destruct (includes data "message:"); cbn; [reflexivity|].
  now rewrite app_nil_r.
Qed.

(** Every chunk that contains [message:] is answered: over any sequence of
    stdout chunks the writes to stdin are as many as the matching chunks. *)
Lemma handshake_writes_per_match chunks : forall w p c,
  procs w !! p = Some c ->
  stdout_listeners c = [("data", OnStdout_runScript)] ->
  exists w' c',
    run_events (map (StdoutData p) chunks) w = (Normal tt, w') /\
    procs w' !! p = Some c' /\
    stdin c' =
      stdin c ++
      map (fun _ => ToString (message c) +:+ nl)
          (List.filter (fun d => includes d "message:") chunks).
Proof.
  induction chunks as [|d rest IH]; intros w p c Hp Hl.
  - exists w, c. cbn. now rewrite app_nil_r.
  - cbn [map run_events]. unfold mbind, M_bind at 1.
    rewrite (step_stdout_runScript w p c d Hp Hl).
    destruct (after_chunk_keeps d c) as (Hl' & Hm' & _).
    edestruct (IH (with_procs (alter (after_chunk d) p)
                    (with_console (fun l =>
                       l ++ [(Log, "Cog script " +:+ cogScriptId c +:+ ": " +:+ d)]) w))
                  p (after_chunk d c)) as (w' & c' & Hrun & Hp' & Hin).
    + cbn. now rewrite list_lookup_alter_eq, Hp.
    + congruence.
    + exists w', c'. split; [exact Hrun|]. split; [exact Hp'|].
      rewrite Hin, Hm', stdin_after_chunk. cbn [List.filter].
      destruct (includes d "message:"); cbn; now rewrite <- app_assoc.
Qed.

(** ** Reference states *)

(** C1, at the failing input.  A triggered script prints two chunks that
    contain [message:]: the body is written to its stdin twice, and
    [spawnedProcessMessageSent] is still false. *)
Theorem handshake_fires_on_every_match :
  let w := snd ((serve trigger Ref.post_s1;;
                 run_events [StdoutData 0 "message: first";
                             StdoutData 0 "message: second"])
                (Ref.server Ref.s1)) in
  exists c,
    procs w !! 0%nat = Some c /\
    stdin c = [body_json Ref.post_s1 +:+ nl; body_json Ref.post_s1 +:+ nl] /\
    spawnedProcessMessageSent c = false.
Proof. eexists. vm_compute. repeat split. Qed.

(** C6, at the failing input.  A cron tick starts the script with the
    message [null]; on the first [message:] chunk the line written to
    stdin is [null], not the empty line. *)
Theorem cron_handshake_writes_null :
  let w := snd (run_events [CronFired 0 1700000000123;
                            StdoutData 0 "message: ready"]
                Ref.cron_server) in
  exists c,
    procs w !! 0%nat = Some c /\
    message c = JNull /\
    stdin c = ["null" +:+ nl] /\
    stdin c <> [nl].
Proof. eexists. vm_compute. repeat split. discriminate. Qed.

(** C2, at the failing input.  A trigger request for a script whose
    webhook flag is off: the client receives 400, and the child process
    is spawned all the same, running with the request's arguments. *)
Theorem trigger_disabled_still_spawns :
  let w := snd (serve trigger Ref.post_s1 (Ref.server Ref.s1_closed)) in
  received 0 w =
    Some (400, MessageBody "The requested script does not have webhooks enabled.") /\
  exists c,
    procs w = [c] /\
    spawnedProcessRunning c = true /\
    argv c = ["./data/scripts/s1/app.js"; "--who=" +:+ dq +:+ "world" +:+ dq].
Proof. split; [reflexivity|]. eexists. vm_compute. repeat split. Qed.

(** C5, at the failing input.  A triggered script exits by itself before
    its timeout.  The exit listener clears [spawnedProcessRunning] and
    nothing else: the timer of the invocation stays armed.  When it fires,
    the guard finds [killed] false, and [kill()] is called on the child
    that has exited. *)
Theorem timer_kills_exited_child :
  let w0 := snd (serve trigger Ref.post_s1 (Ref.server Ref.s1)) in
  let w1 := snd (step (ProcExit 0) w0) in
  let w2 := snd (step (TimerFired 0) w1) in
  ~ exit_disarms w0 0 /\
  (exists c1,
     procs w1 !! 0%nat = Some c1 /\ exited c1 = true /\
     spawnedProcessRunning c1 = false /\ killed c1 = false /\
     timer c1 = Some 30000 /\ kills c1 = 0%nat) /\
  (exists c2,
     procs w2 !! 0%nat = Some c2 /\ exited c2 = true /\ kills c2 = 1%nat).
Proof.
  split.
  { intros [(c1 & Hc1 & Ht) _].
    vm_compute in Hc1. injection Hc1 as <-. discriminate Ht. }
  split; eexists; vm_compute; repeat split.
Qed.

(** C3, at the failing input.  A run request whose child is still running
    when the timer fires: the timeout callback removes the exit listener
    of the request together with that of [runScript], the child is killed
    and exits, and no response is ever sent; the captured output stays in
    the request's variables. *)
Theorem run_timeout_never_replies :
  let w := snd ((serve run Ref.post_s1;;
                 run_events [StdoutData 0 "partial"; TimerFired 0; ProcExit 0])
                (Ref.server Ref.s1)) in
  received 0 w = None /\
  (exists c, procs w !! 0%nat = Some c /\ killed c = true /\ exited c = true /\
             listeners c = []) /\
  (exists x, runs w !! 0%nat = Some x /\ res_of x = 0%nat /\
             consoleOutput x = "partial").
Proof. split; [reflexivity|]. split; eexists; vm_compute; repeat split. Qed.

(** ** Cron firing *)

(** C7.  Every tick of a cron task runs [runScript] for its script with a
    context of one element and the message [null]: for a registered nodejs
    script a child is spawned whose argument vector is the entrypoint path
    followed by the single token [--time=<epoch-seconds>], the clock
    reading in milliseconds divided by 1000 and rounded down, and the
    invocation holds no message. *)
Theorem cron_tick_passes_time w t now task c :
  crons w !! t = Some task ->
  find_script (task_script task) (scripts w) = Some c ->
  strict_eq_str (runtime c) "nodejs" = true ->
  let r := step (CronFired t now) w in
  fst r = Normal tt /\
  exists ch,
    procs (snd r) = procs w ++ [ch] /\
    length (spawnargs ch) = 2%nat /\
    argv ch = [script_path (id c) (ToString (entrypoint c));
               "--time=" +:+ pretty (now `div` 1000)] /\
    message ch = JNull.
Proof.
  intros Ht Hfind Hrt. unfold step. unfold_m. rewrite Ht. cbn.
  unfold cron_callback. unfold_m. cbn -[runScript].
  assert (Hfind' : find_script (task_script task)
            (scripts
               (with_console
                  (fun l => l ++ [(Log, "Running cog script " +:+ task_script task
                                          +:+ " from cron schedule")]) w))
            = Some c) by exact Hfind.
  rewrite (runScript_nodejs _ _ _ _ _ Hfind' Hrt). cbn.
  split; [reflexivity|].
  eexists. split; [reflexivity|]. repeat split.
Qed.

Lemma cron_tick_passes_time_witness :
  let r := step (CronFired 0 1700000000123) Ref.cron_server in
  fst r = Normal tt /\
  exists ch,
    procs (snd r) = procs Ref.cron_server ++ [ch] /\
    length (spawnargs ch) = 2%nat /\
    argv ch = ["./data/scripts/s1/app.js"; "--time=1700000000"] /\
    message ch = JNull.
Proof.
  apply (cron_tick_passes_time Ref.cron_server 0 1700000000123
           {| task_script := "s1"; task_schedule := JStr "* * * * *" |}
           Ref.s1_cron); reflexivity.
Defined.

(** ** Unsupported runtimes and spawn failures *)




(** ** Updating a script *)

Lemma append_inj_r (p a b : string) : p +:+ a = p +:+ b -> a = b.
Proof.
  induction p as [|ch p IH]; cbn; intros H; [exact H|].
  injection H as H. auto.
Qed.

Lemma script_path_inj (i a b : string) :
  script_path i a = script_path i b -> a = b.
Proof.
  unfold script_path. intros H.
  now do 3 apply append_inj_r in H.
Qed.

Lemma find_script_id x l c : find_script x l = Some c -> id c = x.
Proof.
  unfold find_script. intros H. apply find_some in H as [_ H].
  now apply String.eqb_eq in H.
Qed.

(** C8 fails on the code: the update leaves [updated] at 100. *)
Lemma update_keeps_timestamp :
  ~ update_refreshes RefUpdate.received_at "s1" "console.log(2)"
      (snd (serve ui_update RefUpdate.post_code (Ref.server Ref.s1))).
Proof.
  intros (c & Hfind & _ & Hupd & _).
  vm_compute in Hfind. injection Hfind as <-.
  vm_compute in Hupd. discriminate Hupd.
Qed.

(** C8, amended.  An update of an existing script with a string of code
    rewrites the entrypoint file and nothing else: the script list, and
    with it the descriptor and its [updated] stamp, is unchanged, and so is
    the stored descriptor file; the reply is the script's id. *)
Theorem update_rewrites_entrypoint_only w req c code :
  find_script (params_script req) (scripts w) = Some c ->
  field req "code" = JStr code ->
  let r := serve ui_update req w in
  fst r = Normal tt /\
  scripts (snd r) = scripts w /\
  files (snd r) =
    <[script_path (id c) (ToString (entrypoint c)) := Raw code]> (files w) /\
  (ToString (entrypoint c) <> ".cog" ->
   files (snd r) !! script_path (id c) ".cog" =
     files w !! script_path (id c) ".cog") /\
  received (length (resps w)) (snd r) = Some (200, IdBody (id c)).
Proof.
  intros Hfind Hcode.
  assert (Hlast : forall x : response,
            (resps w ++ [x]) !! length (resps w) = Some x).
  { intros x. rewrite lookup_app_r by lia. now rewrite Nat.sub_diag. }
  rewrite serve_of_invoke. unfold invoke, res_new, ui_update. unfold_m. cbn -[find_script].
  rewrite Hfind. unfold writeFileSync. rewrite Hcode.
  unfold res_send. unfold_m. cbn. rewrite Hlast. cbn.
  repeat split.
  - intros Hne. apply lookup_insert_ne.
    intros H. apply script_path_inj in H. congruence.
  - unfold received. cbn. rewrite alter_last. now rewrite Hlast.
Qed.

Lemma update_rewrites_entrypoint_only_witness :
  let w := Ref.server Ref.s1 in
  let r := serve ui_update RefUpdate.post_code w in
  fst r = Normal tt /\
  scripts (snd r) = scripts w /\
  files (snd r) = <[ "./data/scripts/s1/app.js" := Raw "console.log(2)" ]> (files w) /\
  files (snd r) !! "./data/scripts/s1/.cog" = Some (Json Ref.s1) /\
  received 0 (snd r) = Some (200, IdBody "s1").
Proof.
  pose proof (update_rewrites_entrypoint_only
                (Ref.server Ref.s1) RefUpdate.post_code Ref.s1 "console.log(2)"
                eq_refl eq_refl) as (H1 & H2 & H3 & H4 & H5).
  split; [exact H1|]. split; [exact H2|]. split; [exact H3|].
  split; [|exact H5].
  transitivity (files (Ref.server Ref.s1) !! script_path (id Ref.s1) ".cog");
    [apply H4; discriminate | reflexivity].
Defined.

(** ** Scheduling *)

(** [addCronTrigger] on the object pushed last. *)
Lemma addCronTrigger_last valid w l c :
  scripts w = l ++ [c] ->
  addCronTrigger valid (length l) w =
    if valid (cronSchedule c)
    then (Normal tt,
          with_scripts (fun _ => l ++ [set_cronTask (Some (length (crons w))) c])
            (with_crons (fun t =>
               t ++ [{| task_script := id c; task_schedule := cronSchedule c |}]) w))
    else (Throw (SystemError "invalid cron expression"), w).
Proof.
  intros Hs. unfold addCronTrigger. unfold_m.
  rewrite Hs, lookup_last.
  destruct (valid (cronSchedule c)); [|reflexivity].
  cbn. unfold with_scripts; cbn. now rewrite Hs, alter_last.
Qed.

(** ** Registration *)

Lemma res_send_keeps r b w :
  scripts (snd (res_send r b w)) = scripts w /\
  files (snd (res_send r b w)) = files w.
Proof.
  unfold res_send. unfold_m.
  destruct (resps w !! r) as [x|]; [|now split].
  destruct (sent x); now split.
Qed.

Lemma register_entry_adds valid req res e w :
  let r := register_entry valid req res e w in
  exists e',
    scripts (snd r) = scripts w ++ [e'] /\
    id e' = id e /\ timeout e' = timeout e /\
    files (snd r) !! script_path (id e) ".cog" = Some (Json e).
Proof.
  unfold register_entry, writeDescriptor. unfold_m.
  cbn -[addCronTrigger res_send].
  destruct (truthy (field req "cron")).
  - rewrite (addCronTrigger_last valid _ (scripts w) e) by reflexivity.
    destruct (valid (cronSchedule e)).
    + cbn -[res_send].
      match goal with |- context [res_send ?r ?b ?w0] =>
        destruct (res_send_keeps r b w0) as [Hs Hf] end.
      eexists. rewrite Hs, Hf. cbn.
      split; [reflexivity|]. repeat split. apply lookup_insert_eq.
    + cbn. exists e. repeat split. apply lookup_insert_eq.
  - cbn -[res_send].
    match goal with |- context [res_send ?r ?b ?w0] =>
      destruct (res_send_keeps r b w0) as [Hs Hf] end.
    exists e. rewrite Hs, Hf. cbn. repeat split. apply lookup_insert_eq.
Qed.

(** C10.  Whatever the registration request holds, the script list after
    [POST /ui/new] is the list before followed by descriptors of timeout
    30000; and when the handler completes (it may throw, and the request
    is then answered by the error handler), exactly one descriptor was
    added, under the generated id, with timeout 30000 in the list and in
    the stored descriptor file. *)
Theorem created_timeout_is_30000 valid hat now req w :
  let r := serve (ui_new valid hat now) req w in
  (exists added,
     scripts (snd r) = scripts w ++ added /\
     Forall (fun c => timeout c = 30000) added) /\
  (is_normal (fst (invoke (ui_new valid hat now) req w)) = true ->
   exists e e0,
     scripts (snd r) = scripts w ++ [e] /\
     id e = hat /\ timeout e = 30000 /\
     files (snd r) !! script_path hat ".cog" = Some (Json e0) /\
     timeout e0 = 30000).
Proof.
  set (e0 := {| id := hat; created := now `div` 1000; updated := now `div` 1000;
                name := field req "name"; runtime := field req "runtime";
                webhook := field req "webhook"; cron := field req "cron";
                cronSchedule := field req "cronSchedule"; entrypoint := JNull;
                timeout := 30000; cronTask := None |}).
  assert (Htail : forall e w0,
    id e = hat -> timeout e = 30000 -> scripts w0 = scripts w ->
    let r := register_entry valid req (length (resps w)) e w0 in
    (exists added,
       scripts (snd r) = scripts w ++ added /\
       Forall (fun c => timeout c = 30000) added) /\
    (is_normal (fst r) = true ->
     exists e1 e2,
       scripts (snd r) = scripts w ++ [e1] /\
       id e1 = hat /\ timeout e1 = 30000 /\
       files (snd r) !! script_path hat ".cog" = Some (Json e2) /\
       timeout e2 = 30000)).
  { intros e w0 Hid Ht Hs r.
    destruct (register_entry_adds valid req (length (resps w)) e w0)
      as (e' & Hs' & Hid' & Ht' & Hf).
    fold r in Hs', Hf. rewrite Hid in Hf. rewrite Hs in Hs'. split.
    - exists [e']. split; [exact Hs'|]. constructor; [congruence|constructor].
    - intros _. exists e', e. repeat split; congruence. }
  cbn zeta.
  destruct (serve_state (ui_new valid hat now) req w) as (-> & _ & -> & _).
  unfold invoke, res_new, ui_new, mkdirSync. unfold_m.
  cbn -[register_entry addCronTrigger res_send].
  destruct (bool_decide (hat ∈ dirs w)).
  { cbn. split; [|discriminate]. exists []. now rewrite app_nil_r. }
  cbn -[register_entry addCronTrigger res_send]. fold e0.
  destruct (strict_eq_str (field req "runtime") "nodejs").
  - unfold writeFileSync.
    destruct (field req "code");
      try (cbn; split; [exists []; now rewrite app_nil_r | discriminate]).
    unfold_m. cbn -[register_entry addCronTrigger res_send].
    apply (Htail (set_entrypoint (JStr "app.js") e0)
             (with_files (insert (script_path hat "app.js") (Raw s))
                (with_dirs (fun l => l ++ [hat])
                   (with_resps (fun l => l ++ [{| statusCode := 200; sent := None |}])
                      w)))); reflexivity.
  - apply (Htail e0
             (with_dirs (fun l => l ++ [hat])
                (with_resps (fun l => l ++ [{| statusCode := 200; sent := None |}])
                   w))); reflexivity.
Qed.

Lemma created_timeout_is_30000_witness :
  let w := Ref.server Ref.s1 in
  let r := serve (ui_new RefNew.accept_all "f00d" 1700000000123) RefNew.form w in
  (exists added,
     scripts (snd r) = scripts w ++ added /\
     Forall (fun c => timeout c = 30000) added) /\
  (exists e e0,
     scripts (snd r) = scripts w ++ [e] /\
     id e = "f00d" /\ timeout e = 30000 /\
     files (snd r) !! script_path "f00d" ".cog" = Some (Json e0) /\
     timeout e0 = 30000).
Proof.
  pose proof (created_timeout_is_30000 RefNew.accept_all "f00d" 1700000000123
                RefNew.form (Ref.server Ref.s1)) as [H1 H2].
  split; [exact H1 | apply H2; reflexivity].
Defined.

Example registration_completes :
  fst (serve (ui_new RefNew.accept_all "f00d" 1700000000123) RefNew.form
         (Ref.server Ref.s1)) = Normal tt.
Proof. reflexivity. Qed.

(** ** The startup load *)

(** C9 fails on the code: at the descriptor that [JSON.parse] rejects
    its [SyntaxError] leaves the loop, and the script after it is not
    loaded. *)
Lemma unparseable_descriptor_aborts_load :
  ~ load_completes RefNew.accept_all RefDisk.cut_short RefDisk.damaged /\
  listen_callback RefNew.accept_all RefDisk.cut_short RefDisk.damaged =
    (Throw (SyntaxError "JSON.parse"),
     with_console (fun _ => [(Log, "Cog is online 0.0.0.0:3000")]) RefDisk.damaged).
Proof.
  split; [|reflexivity].
  intros [H _]. vm_compute in H. discriminate H.
Qed.

Lemma erase_set_cronTask t c :
  set_cronTask None (set_cronTask t c) = set_cronTask None c.
Proof. reflexivity. Qed.

(** One iteration of the loop on a descriptor that loads. *)
Lemma reload_loads valid parse n rest w f c :
  files w !! script_path n ".cog" = Some f ->
  descriptor_of parse (Some f) = Some c ->
  (truthy (cron c) = true -> valid (cronSchedule c) = true) ->
  exists w1 c1,
    reload valid parse (n :: rest) w = reload valid parse rest w1 /\
    files w1 = files w /\ dirs w1 = dirs w /\ procs w1 = procs w /\
    scripts w1 = scripts w ++ [c1] /\
    set_cronTask None c1 = set_cronTask None c /\
    console w1 =
      console w ++ [(Log, "Cog script " +:+ id c +:+ " loaded into runtime")].
Proof.
  intros Hfile Hdesc Hvalid.
  assert (Hparse : JSON_parse parse f = Normal c).
  { destruct f as [text|c0]; cbn in Hdesc |- *; [now rewrite Hdesc | congruence]. }
  cbn [reload]. unfold_m. rewrite Hfile. unfold lift. rewrite Hparse.
  cbn -[reload addCronTrigger].
  destruct (truthy (cron c)) eqn:Hc.
  - rewrite (addCronTrigger_last valid
               (with_scripts (fun l => l ++ [c]) w) (scripts w) c) by reflexivity.
    rewrite (Hvalid eq_refl). cbn -[reload].
    eexists _, _. split; [reflexivity|]. cbn. now repeat split.
  - cbn -[reload]. eexists _, c. split; [reflexivity|]. cbn. now repeat split.
Qed.

(** One iteration of the loop on a directory without descriptor file. *)
Lemma reload_skips valid parse n rest w :
  files w !! script_path n ".cog" = None ->
  reload valid parse (n :: rest) w =
    reload valid parse rest (with_console (fun l => l ++ [skip_line n]) w).
Proof. intros Hfile. cbn [reload]. unfold_m. now rewrite Hfile. Qed.

Lemma stored_cons_desc parse fs n l c :
  descriptor_of parse (fs !! script_path n ".cog") = Some c ->
  stored parse fs (n :: l) = c :: stored parse fs l.
Proof. intros H. unfold stored. cbn [omap list_omap]. now rewrite H. Qed.

Lemma stored_cons_none parse fs n l :
  descriptor_of parse (fs !! script_path n ".cog") = None ->
  stored parse fs (n :: l) = stored parse fs l.
Proof. intros H. unfold stored. cbn [omap list_omap]. now rewrite H. Qed.

Lemma reload_spec valid parse names : forall w,
  Forall (fun n => loadable valid parse (files w !! script_path n ".cog")) names ->
  exists w' extra,
    reload valid parse names w = (Normal tt, w') /\
    files w' = files w /\
    map (set_cronTask None) (scripts w') =
      map (set_cronTask None) (scripts w ++ stored parse (files w) names) /\
    console w' = console w ++ extra /\
    forall n, n ∈ names -> files w !! script_path n ".cog" = None ->
              skip_line n ∈ extra.
Proof.
  induction names as [|n rest IH]; intros w Hall.
  - exists w, []. cbn. rewrite !app_nil_r. repeat split.
    intros n Hn. now apply elem_of_nil in Hn.
  - apply Forall_cons in Hall as [Hn Hrest].
    destruct (files w !! script_path n ".cog") as [f|] eqn:Hfile.
    + (* the descriptor loads *)
      unfold loadable in Hn.
      destruct (descriptor_of parse (Some f)) as [c|] eqn:Hdesc; [|destruct Hn].
      destruct (reload_loads valid parse n rest w f c Hfile Hdesc Hn)
        as (w1 & c1 & -> & Hf1 & _ & _ & Hs1 & He1 & Hc1).
      destruct (IH w1) as (w' & extra & Hrun & Hf' & Hs' & Hc' & Hskip).
      { rewrite Hf1. exact Hrest. }
      exists w', ((Log, "Cog script " +:+ id c +:+ " loaded into runtime") :: extra).
      split; [exact Hrun|]. split; [congruence|].
      split.
      { rewrite Hs', Hf1, Hs1.
        rewrite (stored_cons_desc parse (files w) n rest c)
          by (now rewrite Hfile).
        rewrite <- !app_assoc. cbn. rewrite !map_app. cbn. now rewrite He1. }
      split.
      { rewrite Hc', Hc1. now rewrite <- app_assoc. }
      intros m Hm Hnone. apply elem_of_cons in Hm as [->|Hm]; [congruence|].
      apply elem_of_cons. right. apply Hskip; [exact Hm|]. now rewrite Hf1.
    + (* no descriptor file: skipped *)
      rewrite (reload_skips valid parse n rest w Hfile).
      destruct (IH (with_console (fun l => l ++ [skip_line n]) w))
        as (w' & extra & Hrun & Hf' & Hs' & Hc' & Hskip).
      { exact Hrest. }
      exists w', (skip_line n :: extra).
      split; [exact Hrun|]. split; [exact Hf'|].
      split.
      { rewrite Hs'. cbn -[stored].
        rewrite (stored_cons_none parse (files w) n rest)
          by (now rewrite Hfile).
        reflexivity. }
      split.
      { rewrite Hc'. cbn. now rewrite <- app_assoc. }
      intros m Hm Hnone. apply elem_of_cons in Hm as [->|Hm].
      * apply elem_of_cons. now left.
      * apply elem_of_cons. right. now apply Hskip.
Qed.

(** C9, amended.  When every descriptor file that is present holds a
    descriptor (the text that the server wrote for one, or a text that
    [JSON.parse] turns into one) and every descriptor that asks for cron
    carries a schedule the scheduler accepts, the startup load completes:
    the scripts whose descriptor file is missing are skipped, each with a
    [console.log] line, and the others are appended to the script list in
    directory order, differing from what is stored only by the task
    attached to them. *)
Theorem startup_load_skips_missing valid parse w :
  Forall (fun n => loadable valid parse (files w !! script_path n ".cog")) (dirs w) ->
  let r := listen_callback valid parse w in
  fst r = Normal tt /\
  map (set_cronTask None) (scripts (snd r)) =
    map (set_cronTask None) (scripts w ++ stored parse (files w) (dirs w)) /\
  forall n, n ∈ dirs w -> files w !! script_path n ".cog" = None ->
            skip_line n ∈ console (snd r).
Proof.
  intros Hall. unfold listen_callback. unfold_m. cbn -[reload].
  set (w0 := with_console _ w).
  destruct (reload_spec valid parse (dirs w) w0 Hall)
    as (w' & extra & Hrun & _ & Hs & Hc & Hskip).
  rewrite Hrun. cbn. split; [reflexivity|]. split; [exact Hs|].
  intros n Hn Hnone. rewrite Hc. apply elem_of_app. right.
  now apply Hskip.
Qed.

Lemma startup_load_skips_missing_witness :
  let r := listen_callback RefNew.accept_all RefDisk.cut_short RefDisk.incomplete in
  fst r = Normal tt /\
  map (set_cronTask None) (scripts (snd r)) =
    map (set_cronTask None) [RefDisk.b] /\
  skip_line "a" ∈ console (snd r).
Proof.
  assert (Hall : Forall (fun n => loadable RefNew.accept_all RefDisk.cut_short
                           (files RefDisk.incomplete !! script_path n ".cog"))
                   (dirs RefDisk.incomplete)).
  { constructor; [vm_compute; exact I|].
    constructor; [vm_compute; intros _; reflexivity|].
    constructor. }
  pose proof (startup_load_skips_missing RefNew.accept_all RefDisk.cut_short
                RefDisk.incomplete Hall)
    as (H1 & H2 & H3).
  split; [exact H1|]. split; [exact H2|].
  apply H3; [|reflexivity]. apply elem_of_cons. now left.
Defined.

Example incomplete_disk_loads :
  let r := listen_callback RefNew.accept_all RefDisk.cut_short RefDisk.incomplete in
  scripts (snd r) = [RefDisk.b] /\
  console (snd r) =
    [(Log, "Cog is online 0.0.0.0:3000"); skip_line "a";
     (Log, "Cog script b loaded into runtime")].
Proof. split; reflexivity. Qed.

(** ** The trigger endpoint *)

Lemma trigger_unknown_404 w req :
  find_script (params_script req) (scripts w) = None ->
  let r := serve trigger req w in
  fst r = Normal tt /\
  received (length (resps w)) (snd r) =
    Some (404, MessageBody "The requested script could not be found.") /\
  procs (snd r) = procs w.
Proof.
  intros Hfind. rewrite serve_of_invoke. unfold invoke, res_new, trigger. unfold_m.
  cbn -[find_script]. rewrite Hfind.
  unfold res_status, res_send. unfold_m. cbn.
  rewrite alter_last, lookup_last. cbn.
  unfold received. cbn. now rewrite !alter_last, lookup_last.
Qed.

(** The webhook flag off: the 400 goes out and the handler carries on into
    [runScript]; the acknowledgement that follows finds the headers sent,
    and the error handler, which gets that exception, can send nothing. *)
Lemma trigger_disabled_spawns w req c :
  find_script (params_script req) (scripts w) = Some c ->
  truthy (webhook c) = false ->
  strict_eq_str (runtime c) "nodejs" = true ->
  let r := serve trigger req w in
  fst (invoke trigger req w) = Throw (SystemError "ERR_HTTP_HEADERS_SENT") /\
  fst r = Normal tt /\
  received (length (resps w)) (snd r) =
    Some (400, MessageBody "The requested script does not have webhooks enabled.") /\
  procs (snd r) =
    procs w ++ [started c (flatten_query (query req)) (JStr (body_json req))].
Proof.
  intros Hfind Hwh Hrt.
  pose proof (find_script_id _ _ _ Hfind) as Hid.
  rewrite serve_of_invoke. unfold invoke, res_new, trigger. unfold_m.
  cbn -[find_script runScript]. rewrite Hfind, Hwh.
  unfold res_status, res_send. unfold_m. cbn -[runScript].
  rewrite alter_last, lookup_last. cbn -[runScript].
  erewrite runScript_nodejs; [|rewrite Hid; exact Hfind|exact Hrt].
  cbn. rewrite !alter_last, lookup_last. cbn.
  unfold finalhandler. unfold_m. cbn. rewrite !alter_last, lookup_last. cbn.
  unfold received. cbn. now rewrite !alter_last, lookup_last.
Qed.

(** The webhook flag on: the child is spawned and the acknowledgement goes
    out with status 200 while the child is still running. *)
Lemma trigger_enabled_200 w req c :
  find_script (params_script req) (scripts w) = Some c ->
  truthy (webhook c) = true ->
  strict_eq_str (runtime c) "nodejs" = true ->
  let r := serve trigger req w in
  fst r = Normal tt /\
  received (length (resps w)) (snd r) =
    Some (200, MessageBody "Script execution has been triggered.") /\
  procs (snd r) =
    procs w ++ [started c (flatten_query (query req)) (JStr (body_json req))].
Proof.
  intros Hfind Hwh Hrt.
  pose proof (find_script_id _ _ _ Hfind) as Hid.
  rewrite serve_of_invoke. unfold invoke, res_new, trigger. unfold_m.
  cbn -[find_script runScript]. rewrite Hfind, Hwh.
  cbn -[runScript].
  erewrite runScript_nodejs; [|rewrite Hid; exact Hfind|exact Hrt].
  unfold res_send. unfold_m. cbn. rewrite lookup_last. cbn.
  unfold received. cbn. now rewrite alter_last, lookup_last.
Qed.

(** ** The timeout *)

(** When the timer of a child fires and [kill()] has not been called on it
    before, every listener on the process is removed and [kill()] is
    called, whether or not the child has exited. *)
Lemma timer_fired_kills w p c t :
  procs w !! p = Some c ->
  timer c = Some t ->
  killed c = false ->
  exists w',
    step (TimerFired p) w = (Normal tt, w') /\
    resps w' = resps w /\ runs w' = runs w /\
    procs w' !! p =
      Some (kill (removeAllListeners (removeAllListeners (set_timer None c)))).
Proof.
  intros Hp Ht Hk. unfold step. unfold_m. rewrite Hp, Ht.
  unfold timeout_callback. unfold_m. cbn.
  rewrite list_lookup_alter_eq, Hp. cbn. rewrite Hk. cbn.
  destruct (spawnedProcessRunning c); cbn;
    (eexists; split; [reflexivity|]; cbn; repeat split;
     now rewrite !list_lookup_alter_eq, Hp).
Qed.

(** The exit of a child that has no listener on the process reaches no
    one: no response is sent, no variable of a run request changes. *)
Lemma exit_without_listeners w p c :
  procs w !! p = Some c ->
  listeners c = [] ->
  exists w',
    step (ProcExit p) w = (Normal tt, w') /\
    resps w' = resps w /\ runs w' = runs w.
Proof.
  intros Hp Hl. unfold step. unfold_m. rewrite Hp.
  destruct (exited c); [now exists w|].
  cbn. unfold emit. rewrite Hl. cbn. eexists. split; [reflexivity|].
  now split.
Qed.

(** After the timeout of a child that was not killed before, its exit
    sends no response: a run request waiting on it is left unanswered. *)
Lemma timeout_then_exit_sends_nothing w p c t :
  procs w !! p = Some c ->
  timer c = Some t ->
  killed c = false ->
  exists w',
    run_events [TimerFired p; ProcExit p] w = (Normal tt, w') /\
    resps w' = resps w.
Proof.
  intros Hp Ht Hk.
  destruct (timer_fired_kills w p c t Hp Ht Hk) as (w1 & Hstep & Hr1 & _ & Hp1).
  destruct (exit_without_listeners w1 p _ Hp1 eq_refl) as (w2 & Hstep2 & Hr2 & _).
  exists w2. cbn [run_events]. unfold mbind, M_bind.
  rewrite Hstep, Hstep2. cbn. split; [reflexivity|]. congruence.
Qed.

(** The exit of a child on which only [runScript] listens: the flag of the
    invocation is cleared, and the timer stays armed. *)
Lemma natural_exit_keeps_timer w p c :
  procs w !! p = Some c ->
  listeners c = [("exit", OnExit_runScript)] ->
  exited c = false ->
  exists w',
    step (ProcExit p) w = (Normal tt, w') /\
    procs w' !! p = Some (set_running false (set_exited c)) /\
    timer (set_running false (set_exited c)) = timer c.
Proof.
  intros Hp Hl He. unfold step. unfold_m. rewrite Hp, He.
  cbn. unfold emit. rewrite Hl. cbn. unfold_m. cbn.
  rewrite !list_lookup_alter_eq, Hp. cbn.
  eexists. split; [reflexivity|]. cbn.
  now rewrite !list_lookup_alter_eq, Hp.
Qed.

(** * The rest of the server *)

(** ** What a callback does to registry, disk, scheduler and children *)

Lemma static_refl w : static w w.
Proof. now repeat split. Qed.

Lemma static_trans w1 w2 w3 : static w1 w2 -> static w2 w3 -> static w1 w3.
Proof.
  intros (? & ? & ? & ?) (? & ? & ? & ?). repeat split; congruence.
Qed.

Section Evolution.

Variable R : child -> child -> Prop.
Hypothesis R_refl : forall c, R c c.
Hypothesis R_trans : forall a b c, R a b -> R b c -> R a c.

Lemma Forall2_R_refl (l : list child) : Forall2 R l l.
Proof. apply Forall_Forall2_diag, Forall_forall. auto. Qed.

Lemma evolves_ret {A} (a : A) : evolves R (mret a).
Proof. intros w. split; [apply static_refl | apply Forall2_R_refl]. Qed.

Lemma evolves_throw {A} (e : js_error) : evolves R (throw e : M A).
Proof. intros w. split; [apply static_refl | apply Forall2_R_refl]. Qed.

Lemma evolves_get : evolves R get.
Proof. intros w. split; [apply static_refl | apply Forall2_R_refl]. Qed.

Lemma evolves_bind {A B} (m : M A) (f : A -> M B) :
  evolves R m -> (forall a, evolves R (f a)) -> evolves R (m ≫= f).
Proof.
  intros Hm Hf w. unfold mbind, M_bind.
  destruct (Hm w) as [Hs1 Hc1].
  destruct (m w) as [[a|e] w1]; cbn in Hs1, Hc1; [|now split].
  destruct (Hf a w1) as [Hs2 Hc2]. split.
  - eapply static_trans; eauto.
  - eapply Forall2_trans; [|exact Hc1|exact Hc2]. eauto.
Qed.

Lemma evolves_modify (f : world -> world) :
  (forall w, static w (f w) /\ procs (f w) = procs w) -> evolves R (modify f).
Proof.
  intros Hf w. destruct (Hf w) as [Hs Hp]. cbn. split; [exact Hs|].
  rewrite Hp. apply Forall2_R_refl.
Qed.

Lemma evolves_on_child q (f : child -> child) :
  (forall c, R c (f c)) -> evolves R (on_child q f).
Proof.
  intros Hf w. unfold on_child, modify. cbn. split; [now repeat split|].
  apply Forall2_alter_r; [apply Forall2_R_refl|].
  intros x y _ _ Hxy. eapply R_trans; eauto.
Qed.

Lemma evolves_when (b : bool) (m : M unit) :
  evolves R m -> evolves R (when b m).
Proof. destruct b; [auto | intros _; apply evolves_ret]. Qed.

Lemma evolves_console_log s : evolves R (console_log s).
Proof. apply evolves_modify. intros w. now repeat split. Qed.

Lemma evolves_console_warn s : evolves R (console_warn s).
Proof. apply evolves_modify. intros w. now repeat split. Qed.

Lemma evolves_console_error s : evolves R (console_error s).
Proof. apply evolves_modify. intros w. now repeat split. Qed.

Lemma evolves_on_run k f : evolves R (on_run k f).
Proof. apply evolves_modify. intros w. now repeat split. Qed.

Lemma evolves_on_resp r f : evolves R (on_resp r f).
Proof. apply evolves_modify. intros w. now repeat split. Qed.

Lemma evolves_res_send r b : evolves R (res_send r b).
Proof.
  unfold res_send. apply evolves_bind; [apply evolves_get|].
  intros w. destruct (resps w !! r) as [x|]; [|apply evolves_ret].
  destruct (sent x); [apply evolves_throw | apply evolves_on_resp].
Qed.

(** What the listeners do to a child is within [R]. *)
Hypothesis R_running : forall b c, R c (set_running b c).
Hypothesis R_stdin : forall s c, R c (stdin_write s c).

Lemma evolves_run_handler p h data : evolves R (run_handler p h data).
Proof.
  destruct h; cbn [run_handler].
  - apply evolves_bind; [now apply evolves_on_child|]. intros _.
    apply evolves_bind; [apply evolves_get|]. intros w.
    destruct (procs w !! p); cbn;
      [apply evolves_console_log | apply evolves_ret].
  - apply evolves_bind; [apply evolves_get|]. intros w.
    apply evolves_bind.
    + destruct (procs w !! p); cbn;
        [apply evolves_console_log | apply evolves_ret].
    + intros _. apply evolves_when. now apply evolves_on_child.
  - apply evolves_on_run.
  - apply evolves_bind; [apply evolves_on_run|].
    intros _. apply evolves_on_run.
  - apply evolves_bind; [apply evolves_get|]. intros w.
    destruct (runs w !! k); cbn;
      [apply evolves_res_send | apply evolves_ret].
Qed.

Lemma evolves_call_all p hs data : evolves R (call_all p hs data).
Proof.
  induction hs as [|h rest IH]; cbn [call_all].
  - apply evolves_ret.
  - apply evolves_bind; [apply evolves_run_handler | intros _; exact IH].
Qed.

Lemma evolves_emit p ls ev data : evolves R (emit p ls ev data).
Proof.
  unfold emit. destruct (handlers_for ev ls) as [|h rest] eqn:Hh.
  - destruct (String.eqb ev "error");
      [apply evolves_throw | apply evolves_ret].
  - apply evolves_call_all.
Qed.

(** The callbacks that spawn nothing: everything but a cron tick. *)
Hypothesis R_exited : forall c, R c (set_exited c).

Lemma evolves_exit p c : evolves R (on_child p set_exited;; emit p (listeners c) "exit" EmptyString).
Proof.
  apply evolves_bind; [now apply evolves_on_child|].
  intros _. apply evolves_emit.
Qed.

End Evolution.

Section QuietSteps.

Variable R : child -> child -> Prop.
Hypothesis R_refl : forall c, R c c.
Hypothesis R_trans : forall a b c, R a b -> R b c -> R a c.
Hypothesis R_running : forall b c, R c (set_running b c).
Hypothesis R_stdin : forall s c, R c (stdin_write s c).
Hypothesis R_exited : forall c, R c (set_exited c).
Hypothesis R_timer : forall t c, R c (set_timer t c).
Hypothesis R_remove : forall c, R c (removeAllListeners c).
Hypothesis R_kill : forall c, R c (kill c).

Lemma evolves_timeout_callback p : evolves R (timeout_callback p).
Proof.
  unfold timeout_callback.
  apply evolves_bind; [assumption | now apply evolves_get |]. intros w.
  destruct (procs w !! p) as [c|]; [|now apply evolves_ret].
  apply evolves_bind; [assumption | |intros _].
  - apply evolves_when; [assumption|]. now apply evolves_console_warn.
  - apply evolves_when; [assumption|].
    repeat (apply evolves_bind; [assumption | |intros _]);
      now apply evolves_on_child.
Qed.

(** Every event but a cron tick. *)
Lemma evolves_quiet_step e :
  (forall t now, e <> CronFired t now) -> evolves R (step e).
Proof.
  intros Hquiet. unfold step.
  apply evolves_bind; [assumption | now apply evolves_get |]. intros w.
  destruct e as [p data|p data|p|p code|p|t now].
  - destruct (procs w !! p); cbn;
      [now apply evolves_emit | now apply evolves_ret].
  - destruct (procs w !! p); cbn;
      [now apply evolves_emit | now apply evolves_ret].
  - destruct (procs w !! p) as [c|]; [|now apply evolves_ret].
    destruct (exited c); [now apply evolves_ret|].
    now apply evolves_exit.
  - destruct (procs w !! p); cbn;
      [now apply evolves_emit | now apply evolves_ret].
  - destruct (procs w !! p) as [c|]; [|now apply evolves_ret].
    destruct (timer c); [|now apply evolves_ret].
    apply evolves_bind; [assumption | now apply evolves_on_child |].
    intros _. apply evolves_timeout_callback.
  - now destruct (Hquiet t now).
Qed.

End QuietSteps.

(** [runScript] leaves registry, disk and scheduler alone and the children
    it finds as they are; at most it adds the child it starts. *)
Lemma runScript_grows w i context msg :
  let w' := snd (runScript i context msg w) in
  static w w' /\
  (procs w' = procs w \/
   exists c, find_script i (scripts w) = Some c /\
             procs w' = procs w ++ [started c context msg]).
Proof.
  destruct (find_script i (scripts w)) as [c|] eqn:Hfind.
  - destruct (strict_eq_str (runtime c) "nodejs") eqn:Hrt.
    + rewrite (runScript_nodejs _ _ _ _ _ Hfind Hrt). cbn.
      split; [now repeat split|]. right. now exists c.
    + rewrite (runScript_other_runtime _ _ _ _ _ Hfind Hrt). cbn.
      split; [apply static_refl | now left].
  - rewrite (runScript_unknown _ _ _ _ Hfind). cbn.
    split; [now repeat split | now left].
Qed.

(** A cron tick: at most the child of the task's script is added. *)
Lemma cron_tick_grows w t now :
  let w' := snd (step (CronFired t now) w) in
  static w w' /\
  (procs w' = procs w \/
   exists task c,
     crons w !! t = Some task /\
     find_script (task_script task) (scripts w) = Some c /\
     procs w' =
       procs w ++
       [started c [JArr [JStr ("--time=" +:+ pretty (now `div` 1000))]] JNull]).
Proof.
  unfold step. unfold_m. destruct (crons w !! t) as [task|] eqn:Ht; cbn;
    [|split; [apply static_refl | now left]].
  unfold cron_callback. unfold_m. cbn -[runScript].
  match goal with |- context [runScript ?i ?c ?m ?w0] =>
    pose proof (runScript_grows w0 i c m) as [Hs Hp];
    destruct (runScript i c m w0) as [[r|e] w1] end;
    cbn in Hs, Hp |- *.
  all: split; [destruct Hs as (? & ? & ? & ?); now repeat split|].
  all: destruct Hp as [Hp|(c & Hfind & Hp)]; [now left|].
  all: right; exists task, c; now repeat split.
Qed.

(** The firing of a timer, as an update of its child alone. *)
Lemma timer_fires w p :
  let r := step (TimerFired p) w in
  fst r = Normal tt /\ static w (snd r) /\
  (procs (snd r) = procs w \/
   exists c t, procs w !! p = Some c /\ timer c = Some t /\
               procs (snd r) = alter fire p (procs w)).
Proof.
  unfold step. unfold_m.
  destruct (procs w !! p) as [c|] eqn:Hp;
    [|cbn; split; [reflexivity|]; split; [apply static_refl | now left]].
  destruct (timer c) as [t|] eqn:Ht;
    [|cbn; split; [reflexivity|]; split; [apply static_refl | now left]].
  cbn. unfold timeout_callback. unfold_m. cbn.
  rewrite list_lookup_alter_eq, Hp. cbn.
  assert (Hfire : forall x, procs w !! p = Some x -> fire x =
            if killed c then set_timer None x
            else kill (removeAllListeners (removeAllListeners (set_timer None x)))).
  { intros x Hx. assert (x = c) by congruence. now subst. }
  destruct (spawnedProcessRunning c), (killed c) eqn:Hk; cbn;
    (split; [reflexivity|]; split; [now repeat split|];
     right; exists c, t; split; [first [exact Hp | reflexivity]|];
     split; [exact Ht|]);
    rewrite ?list_alter_alter_eq;
    (apply list_alter_ext; [|reflexivity]; intros x Hx;
     now rewrite (Hfire x Hx)).
Qed.

Section IoSteps.

Variable R : child -> child -> Prop.
Hypothesis R_refl : forall c, R c c.
Hypothesis R_trans : forall a b c, R a b -> R b c -> R a c.
Hypothesis R_running : forall b c, R c (set_running b c).
Hypothesis R_stdin : forall s c, R c (stdin_write s c).
Hypothesis R_exited : forall c, R c (set_exited c).

(** Output, exit and spawn failure of a child. *)
Lemma evolves_io_step e :
  match e with TimerFired _ | CronFired _ _ => False | _ => True end ->
  evolves R (step e).
Proof.
  intros Hio. unfold step.
  apply evolves_bind; [assumption | now apply evolves_get |]. intros w.
  destruct e as [p data|p data|p|p code|p|t now]; try contradiction.
  - destruct (procs w !! p); cbn;
      [now apply evolves_emit | now apply evolves_ret].
  - destruct (procs w !! p); cbn;
      [now apply evolves_emit | now apply evolves_ret].
  - destruct (procs w !! p) as [c|]; [|now apply evolves_ret].
    destruct (exited c); [now apply evolves_ret|].
    now apply evolves_exit.
  - destruct (procs w !! p); cbn;
      [now apply evolves_emit | now apply evolves_ret].
Qed.

End IoSteps.

Lemma same_counts_refl c : same_counts c c.
Proof. now repeat split. Qed.

Lemma same_counts_trans a b c :
  same_counts a b -> same_counts b c -> same_counts a c.
Proof.
  intros (? & ? & ? & ? & ?) (? & ? & ? & ? & ?). repeat split; congruence.
Qed.

Lemma io_step_same_counts e :
  match e with TimerFired _ | CronFired _ _ => False | _ => True end ->
  evolves same_counts (step e).
Proof.
  apply (evolves_io_step same_counts same_counts_refl same_counts_trans);
    intros; now repeat split.
Qed.

(** No event changes the registry, the stored files or the scheduler. *)
Lemma step_static e w : static w (snd (step e w)).
Proof.
  destruct e as [p data|p data|p|p code|p|t now].
  1-4: match goal with |- context [step ?e ?w0] =>
         exact (proj1 (io_step_same_counts e I w0)) end.
  - apply timer_fires.
  - apply cron_tick_grows.
Qed.

Lemma run_events_static es : forall w, static w (snd (run_events es w)).
Proof.
  induction es as [|e rest IH]; intros w; [apply static_refl|].
  cbn [run_events]. unfold mbind, M_bind.
  pose proof (step_static e w) as Hs.
  destruct (step e w) as [[[]|x] w1]; cbn in Hs |- *; [|exact Hs].
  eapply static_trans; [exact Hs | apply IH].
Qed.

Lemma kill_once_started c context msg : kill_once (started c context msg).
Proof. cbn. repeat split; auto. Qed.

Lemma kill_once_same_counts c c' :
  same_counts c c' -> kill_once c -> kill_once c'.
Proof.
  intros (Hk & Hs & Ht & _) (H1 & H2 & H3). unfold kill_once.
  rewrite Hk, Hs, Ht. auto.
Qed.

Lemma kill_once_fire c : is_Some (timer c) -> kill_once c -> kill_once (fire c).
Proof.
  intros Ht (H1 & H2 & H3). specialize (H3 Ht).
  unfold fire, kill_once. destruct (killed c); cbn.
  - repeat split; [lia | lia | ]. intros [? ?]; discriminate.
  - rewrite H3 in *. destruct (exited c); repeat split; try lia;
      intros [? ?]; discriminate.
Qed.

Lemma Forall_evolved (R : child -> child -> Prop) (P : child -> Prop) l l' :
  Forall2 R l l' -> (forall x y, R x y -> P x -> P y) ->
  Forall P l -> Forall P l'.
Proof. induction 1; intros HR Hl; inv Hl; constructor; eauto. Qed.

Lemma step_kill_once e w :
  Forall kill_once (procs w) -> Forall kill_once (procs (snd (step e w))).
Proof.
  intros Hall.
  destruct e as [p data|p data|p|p code|p|t now].
  1-4: match goal with |- context [step ?e ?w0] =>
         destruct (io_step_same_counts e I w0) as [_ Hc] end;
       exact (Forall_evolved _ _ _ _ Hc kill_once_same_counts Hall).
  - destruct (timer_fires w p) as (_ & _ & [->|(c & t & Hp & Ht & ->)]);
      [exact Hall|].
    apply Forall_alter; [exact Hall|].
    intros x Hx Hkx. assert (x = c) by congruence. subst x.
    apply kill_once_fire; [now rewrite Ht | exact Hkx].
  - destruct (cron_tick_grows w t now) as (_ & [->|(task & c & _ & _ & ->)]);
      [exact Hall|].
    apply Forall_app. split; [exact Hall|].
    constructor; [apply kill_once_started | constructor].
Qed.

(** ** Growth of the children *)

Lemma settled_refl c : settled c c.
Proof. now split. Qed.

Lemma settled_trans a b c : settled a b -> settled b c -> settled a c.
Proof. intros [? ?] [? ?]. split; [congruence | auto]. Qed.

Lemma fresh_child_settled registry c c' :
  settled c c' -> fresh_child registry c -> fresh_child registry c'.
Proof. intros [Hid Hk] [? ?]. split; [auto | now rewrite Hid]. Qed.

Lemma fresh_child_static w w' c :
  static w w' -> fresh_child (scripts w') c -> fresh_child (scripts w) c.
Proof. intros (Hs & _). now rewrite Hs. Qed.

Lemma grows_of_evolves {A} (m : M A) : evolves settled m -> grows m.
Proof.
  intros Hm w. destruct (Hm w) as [Hs Hc]. split; [exact Hs|].
  exists (procs (snd (m w))), []. rewrite app_nil_r. now repeat split.
Qed.

Lemma grows_bind {A B} (m : M A) (f : A -> M B) :
  grows m -> (forall a, grows (f a)) -> grows (m ≫= f).
Proof.
  intros Hm Hf w. unfold mbind, M_bind.
  destruct (Hm w) as (Hs1 & o1 & n1 & Hp1 & Ho1 & Hn1).
  destruct (m w) as [[a|e] w1]; cbn in Hs1, Hp1;
    [|split; [exact Hs1 | now exists o1, n1]].
  destruct (Hf a w1) as (Hs2 & o2 & n2 & Hp2 & Ho2 & Hn2).
  split; [eapply static_trans; eauto|].
  rewrite Hp1 in Ho2. apply Forall2_app_inv_l in Ho2
    as (o2a & o2b & Hoa & Hob & ->).
  exists o2a, (o2b ++ n2). split; [now rewrite Hp2, app_assoc|]. split.
  - eapply Forall2_trans; [|exact Ho1|exact Hoa]. apply settled_trans.
  - apply Forall_app. split.
    + eapply Forall_evolved; [exact Hob| |exact Hn1].
      intros x y. apply fresh_child_settled.
    + eapply Forall_impl; [exact Hn2|].
      intros x. now apply fresh_child_static.
Qed.

Lemma fresh_child_started w i context msg c :
  find_script i (scripts w) = Some c ->
  fresh_child (scripts w) (started c context msg).
Proof.
  intros Hfind. split; [apply kill_once_started|]. cbn.
  rewrite (find_script_id _ _ _ Hfind). now rewrite Hfind.
Qed.

Lemma grows_runScript i context msg : grows (runScript i context msg).
Proof.
  intros w. destruct (runScript_grows w i context msg) as [Hs Hp].
  split; [exact Hs|].
  destruct Hp as [->|(c & Hfind & ->)].
  - exists (procs w), []. rewrite app_nil_r.
    repeat split; [|constructor].
    apply Forall_Forall2_diag, Forall_forall. intros; apply settled_refl.
  - exists (procs w), [started c context msg]. repeat split.
    + apply Forall_Forall2_diag, Forall_forall. intros; apply settled_refl.
    + constructor; [|constructor]. now apply (fresh_child_started w i).
Qed.

Lemma res_status_evolves r code : evolves settled (res_status r code).
Proof. unfold res_status. apply (evolves_on_resp _ settled_refl). Qed.

Ltac frame_settled :=
  repeat first
    [ apply (evolves_ret _ settled_refl)
    | apply (evolves_get _ settled_refl)
    | apply (evolves_throw _ settled_refl)
    | apply (evolves_console_log _ settled_refl)
    | apply (evolves_console_warn _ settled_refl)
    | apply (evolves_console_error _ settled_refl)
    | apply (evolves_on_run _ settled_refl)
    | apply (evolves_on_resp _ settled_refl)
    | apply res_status_evolves
    | apply (evolves_res_send _ settled_refl settled_trans)
    | apply (evolves_when _ settled_refl)
    | apply (evolves_modify _ settled_refl); intros ?; now repeat split
    | apply (evolves_on_child _ settled_refl settled_trans);
      intros ?; now split
    | apply (evolves_bind _ settled_trans); [|intros ?] ].

Lemma res_new_evolves : evolves settled res_new.
Proof. unfold res_new. frame_settled. Qed.

Lemma grows_trigger req res : grows (trigger req res).
Proof.
  unfold trigger.
  apply grows_bind; [apply grows_of_evolves; frame_settled|]. intros w.
  destruct (find_script (params_script req) (scripts w)) as [c|].
  - apply grows_bind; [apply grows_of_evolves; frame_settled|]. intros _.
    apply grows_bind; [apply grows_runScript|]. intros _.
    apply grows_of_evolves; frame_settled.
  - apply grows_of_evolves; frame_settled.
Qed.

Lemma grows_run req res : grows (run req res).
Proof.
  unfold run.
  apply grows_bind; [apply grows_of_evolves; frame_settled|]. intros w.
  destruct (find_script (params_script req) (scripts w)) as [c|].
  - apply grows_bind; [apply grows_of_evolves; frame_settled|]. intros _.
    apply grows_bind; [apply grows_runScript|]. intros [p|];
      apply grows_of_evolves; frame_settled.
  - apply grows_of_evolves; frame_settled.
Qed.

Lemma grows_try_catch {A} (m : M A) (h : js_error -> M A) :
  grows m -> (forall e, grows (h e)) -> grows (try_catch m h).
Proof.
  intros Hm Hh w. unfold try_catch.
  destruct (Hm w) as (Hs1 & o1 & n1 & Hp1 & Ho1 & Hn1).
  destruct (m w) as [[a|e] w1]; cbn in Hs1, Hp1;
    [split; [exact Hs1 | now exists o1, n1]|].
  destruct (Hh e w1) as (Hs2 & o2 & n2 & Hp2 & Ho2 & Hn2).
  split; [eapply static_trans; eauto|].
  rewrite Hp1 in Ho2. apply Forall2_app_inv_l in Ho2
    as (o2a & o2b & Hoa & Hob & ->).
  exists o2a, (o2b ++ n2). split; [now rewrite Hp2, app_assoc|]. split.
  - eapply Forall2_trans; [|exact Ho1|exact Hoa]. apply settled_trans.
  - apply Forall_app. split.
    + eapply Forall_evolved; [exact Hob| |exact Hn1].
      intros x y. apply fresh_child_settled.
    + eapply Forall_impl; [exact Hn2|].
      intros x. now apply fresh_child_static.
Qed.

Lemma finalhandler_evolves res e : evolves settled (finalhandler res e).
Proof.
  unfold finalhandler.
  apply (evolves_bind _ settled_trans); [frame_settled|]. intros w.
  destruct (resps w !! res) as [x|]; [|frame_settled].
  destruct (sent x); frame_settled.
Qed.

Lemma grows_serve (h : request -> nat -> M unit) req :
  (forall res, grows (h req res)) -> grows (serve h req).
Proof.
  intros Hh. unfold serve.
  apply grows_bind; [apply grows_of_evolves, res_new_evolves|].
  intros res. apply grows_try_catch; [apply Hh|].
  intros e. apply grows_of_evolves, finalhandler_evolves.
Qed.

Lemma grows_step e : grows (step e).
Proof.
  destruct e as [p data|p data|p|p code|p|t now].
  1-4: apply grows_of_evolves;
       apply (evolves_io_step settled settled_refl settled_trans);
       try exact I; intros; now split.
  - intros w. destruct (timer_fires w p) as (_ & Hs & Hp).
    split; [exact Hs|].
    exists (procs (snd (step (TimerFired p) w))), []. rewrite app_nil_r.
    repeat split; [|constructor].
    destruct Hp as [->|(c & t & Hc & Ht & ->)].
    + apply Forall_Forall2_diag, Forall_forall. intros; apply settled_refl.
    + apply Forall2_alter_r.
      * apply Forall_Forall2_diag, Forall_forall. intros; apply settled_refl.
      * intros x y Hx Hy _. assert (x = c) by congruence.
        assert (y = c) by congruence. subst x y.
        split; [unfold fire; now destruct (killed c)|].
        apply kill_once_fire. now rewrite Ht.
  - intros w. destruct (cron_tick_grows w t now) as (Hs & Hp).
    split; [exact Hs|].
    destruct Hp as [->|(task & c & _ & Hfind & ->)].
    + exists (procs w), []. rewrite app_nil_r. repeat split; [|constructor].
      apply Forall_Forall2_diag, Forall_forall. intros; apply settled_refl.
    + eexists (procs w), [_]. repeat split.
      * apply Forall_Forall2_diag, Forall_forall. intros; apply settled_refl.
      * constructor; [|constructor].
        now apply (fresh_child_started w (task_script task)).
Qed.

Lemma grows_kill_once {A} (m : M A) w :
  grows m -> Forall kill_once (procs w) -> Forall kill_once (procs (snd (m w))).
Proof.
  intros Hm Hall. destruct (Hm w) as (_ & old & new & -> & Ho & Hn).
  apply Forall_app. split.
  - eapply Forall_evolved; [exact Ho| |exact Hall]. now intros x y [_ H].
  - eapply Forall_impl; [exact Hn|]. now intros x [H _].
Qed.

(** ** The requests that change the registry touch no child *)

Lemma keeps_procs_ret {A} (a : A) : keeps_procs (mret a).
Proof. now intros w. Qed.

Lemma keeps_procs_throw {A} (e : js_error) : keeps_procs (throw e : M A).
Proof. now intros w. Qed.

Lemma keeps_procs_get : keeps_procs get.
Proof. now intros w. Qed.

Lemma keeps_procs_lift {A} (c : completion A) : keeps_procs (lift c).
Proof. now intros w. Qed.

Lemma keeps_procs_bind {A B} (m : M A) (f : A -> M B) :
  keeps_procs m -> (forall a, keeps_procs (f a)) -> keeps_procs (m ≫= f).
Proof.
  intros Hm Hf w. unfold mbind, M_bind. specialize (Hm w).
  destruct (m w) as [[a|e] w1]; cbn in Hm; [|exact Hm].
  now rewrite Hf.
Qed.

Lemma keeps_procs_modify (f : world -> world) :
  (forall w, procs (f w) = procs w) -> keeps_procs (modify f).
Proof. intros Hf w. apply Hf. Qed.

Lemma keeps_procs_when b (m : M unit) : keeps_procs m -> keeps_procs (when b m).
Proof. destruct b; [auto | intros _; apply keeps_procs_ret]. Qed.

Ltac frame_procs :=
  repeat first
    [ apply keeps_procs_ret
    | apply keeps_procs_get
    | apply keeps_procs_throw
    | apply keeps_procs_lift
    | apply keeps_procs_when
    | apply keeps_procs_modify; intros ?; reflexivity
    | apply keeps_procs_bind; [|intros ?] ].

Lemma keeps_procs_res_send r b : keeps_procs (res_send r b).
Proof.
  unfold res_send. apply keeps_procs_bind; [frame_procs|]. intros w.
  destruct (resps w !! r) as [x|]; [|frame_procs].
  destruct (sent x); unfold on_resp; frame_procs.
Qed.

Lemma keeps_procs_writeFileSync path data : keeps_procs (writeFileSync path data).
Proof. unfold writeFileSync. destruct data; frame_procs. Qed.

Lemma keeps_procs_addCronTrigger valid i : keeps_procs (addCronTrigger valid i).
Proof.
  unfold addCronTrigger. apply keeps_procs_bind; [frame_procs|]. intros w.
  destruct (scripts w !! i) as [c|]; [|frame_procs].
  destruct (valid (cronSchedule c)); frame_procs.
Qed.

Lemma keeps_procs_serve (h : request -> nat -> M unit) req :
  keeps_procs (invoke h req) -> keeps_procs (serve h req).
Proof.
  intros Hh w. destruct (serve_state h req w) as (_ & _ & _ & -> & _).
  apply Hh.
Qed.

Lemma keeps_procs_ui_new valid hat now req :
  keeps_procs (serve (ui_new valid hat now) req).
Proof.
  apply keeps_procs_serve.
  unfold invoke, res_new, ui_new, mkdirSync, writeDescriptor.
  apply keeps_procs_bind; [frame_procs|]. intros res.
  apply keeps_procs_bind.
  { apply keeps_procs_bind; [frame_procs|]. intros w.
    destruct (bool_decide (hat ∈ dirs w)); frame_procs. }
  intros _. apply keeps_procs_bind.
  { destruct (strict_eq_str (field req "runtime") "nodejs"); [|frame_procs].
    apply keeps_procs_bind; [apply keeps_procs_writeFileSync|]. intros _.
    frame_procs. }
  intros e. apply keeps_procs_bind; [frame_procs|]. intros _.
  apply keeps_procs_bind; [frame_procs|]. intros w.
  apply keeps_procs_bind; [frame_procs|]. intros _.
  apply keeps_procs_bind;
    [apply keeps_procs_when, keeps_procs_addCronTrigger|]. intros _.
  apply keeps_procs_res_send.
Qed.

Lemma ui_update_keeps req w :
  let w' := snd (serve ui_update req w) in
  procs w' = procs w /\ scripts w' = scripts w /\
  dirs w' = dirs w /\ crons w' = crons w.
Proof.
  cbn zeta.
  destruct (serve_state ui_update req w) as (-> & -> & _ & -> & _ & ->).
  unfold invoke, res_new, ui_update, res_status, res_send, writeFileSync.
  unfold_m. cbn -[find_script].
  destruct (find_script (params_script req) (scripts w)) as [c|].
  - destruct (field req "code"); cbn; try now repeat split.
    rewrite lookup_last. now cbn.
  - cbn. rewrite alter_last, lookup_last. now cbn.
Qed.

Lemma ui_delete_keeps_procs req s :
  procs (engine (snd (ui_delete req s))) = procs (engine s).
Proof.
  unfold ui_delete.
  destruct (find_script (params_script req) (scripts (engine s))) as [c|];
    [|reflexivity].
  now destruct (cronTask c).
Qed.

(** ** Invariants of the running server *)

Lemma perform_all_cons valid a l s :
  perform_all valid (a :: l) s = perform_all valid l (perform valid a s).
Proof. reflexivity. Qed.

Lemma traffic_grows valid a s :
  is_traffic a = true ->
  destroyed (perform valid a s) = destroyed s /\
  (perform valid a s = s \/
   exists m : M unit, grows m /\ engine (perform valid a s) = snd (m (engine s))).
Proof.
  destruct a as [e|req|req|hat now req|req|req]; try discriminate; intros _.
  - destruct e as [p data|p data|p|p code|p|t now]; cbn;
      try (split; [reflexivity|]; right; eexists; split;
           [apply grows_step | reflexivity]).
    destruct (bool_decide (t ∈ destroyed s)); cbn;
      [split; [reflexivity | now left]|].
    split; [reflexivity|]. right. eexists. split;
      [apply grows_step | reflexivity].
  - cbn. split; [reflexivity|]. right. eexists. split;
      [apply grows_serve, grows_trigger | reflexivity].
  - cbn. split; [reflexivity|]. right. eexists. split;
      [apply grows_serve, grows_run | reflexivity].
Qed.

(** X6.  Events and API requests, in any number and order, change neither
    the script list nor the directories, the stored files or the tasks of
    the scheduler. *)
Theorem traffic_leaves_registry_and_disk valid l : forall s,
  forallb is_traffic l = true ->
  static (engine s) (engine (perform_all valid l s)) /\
  destroyed (perform_all valid l s) = destroyed s.
Proof.
  induction l as [|a l IH]; intros s Hl; [split; [apply static_refl | reflexivity]|].
  cbn in Hl. apply andb_true_iff in Hl as [Ha Hl].
  rewrite perform_all_cons.
  destruct (IH (perform valid a s) Hl) as [Hs Hd].
  destruct (traffic_grows valid a s Ha) as [Hd1 [Heq|(m & Hm & Heng)]].
  - rewrite Heq in *. now split.
  - split; [|congruence].
    eapply static_trans; [|exact Hs]. rewrite Heng. apply Hm.
Qed.

Lemma traffic_leaves_registry_and_disk_witness :
  let s := {| engine := Ref.cron_server; destroyed := [] |} in
  let s' := perform_all RefNew.accept_all
              [PostTrigger Ref.post_s1; Event (CronFired 0 1700000000123);
               Event (StdoutData 0 "message: go"); PostRun Ref.post_s1;
               Event (TimerFired 0); Event (ProcExit 1)] s in
  static (engine s) (engine s') /\ destroyed s' = destroyed s.
Proof.
  apply (traffic_leaves_registry_and_disk RefNew.accept_all
           [PostTrigger Ref.post_s1; Event (CronFired 0 1700000000123);
            Event (StdoutData 0 "message: go"); PostRun Ref.post_s1;
            Event (TimerFired 0); Event (ProcExit 1)]
           {| engine := Ref.cron_server; destroyed := [] |}).
  reflexivity.
Defined.

Lemma perform_kill_once valid a s :
  Forall kill_once (procs (engine s)) ->
  Forall kill_once (procs (engine (perform valid a s))).
Proof.
  intros Hall.
  destruct a as [e|req|req|hat now req|req|req].
  - destruct (traffic_grows valid (Event e) s eq_refl)
      as [_ [->|(m & Hm & ->)]]; [exact Hall | now apply grows_kill_once].
  - destruct (traffic_grows valid (PostTrigger req) s eq_refl)
      as [_ [->|(m & Hm & ->)]]; [exact Hall | now apply grows_kill_once].
  - destruct (traffic_grows valid (PostRun req) s eq_refl)
      as [_ [->|(m & Hm & ->)]]; [exact Hall | now apply grows_kill_once].
  - cbn. now rewrite keeps_procs_ui_new.
  - cbn. now rewrite (proj1 (ui_update_keeps req (engine s))).
  - cbn. now rewrite ui_delete_keeps_procs.
Qed.

(** X7.  Whatever the server goes through, [kill()] is called at most once
    on a child, at most one signal is sent to it, and none before its
    timer has fired. *)
Theorem kill_is_called_at_most_once valid l : forall s,
  Forall kill_once (procs (engine s)) ->
  Forall kill_once (procs (engine (perform_all valid l s))).
Proof.
  induction l as [|a l IH]; intros s Hall; [exact Hall|].
  rewrite perform_all_cons. apply IH. now apply perform_kill_once.
Qed.

Lemma kill_is_called_at_most_once_witness :
  let s := {| engine := Ref.server Ref.s1; destroyed := [] |} in
  Forall kill_once
    (procs (engine (perform_all RefNew.accept_all
                      [PostTrigger Ref.post_s1; Event (TimerFired 0);
                       Event (ProcExit 0); Event (TimerFired 0)] s))).
Proof.
  apply (kill_is_called_at_most_once RefNew.accept_all
           [PostTrigger Ref.post_s1; Event (TimerFired 0);
            Event (ProcExit 0); Event (TimerFired 0)]
           {| engine := Ref.server Ref.s1; destroyed := [] |}).
  constructor.
Defined.

(** ** Deleting a script *)

Lemma prefix_append (a b : string) : String.prefix a (a +:+ b) = true.
Proof.
  induction a as [|ch a IH]; simpl; [now destruct b|].
  destruct (ascii_dec ch ch); [exact IH | congruence].
Qed.

Lemma prefix_append_same (p a b : string) :
  String.prefix (p +:+ a) (p +:+ b) = String.prefix a b.
Proof.
  induction p as [|ch p IH]; simpl; [reflexivity|].
  destruct (ascii_dec ch ch); [exact IH | congruence].
Qed.

Lemma append_assoc (a b c : string) : (a +:+ b) +:+ c = a +:+ b +:+ c.
Proof.
  induction a as [|ch a IH]; [reflexivity|].
  change (String ch ((a +:+ b) +:+ c) = String ch (a +:+ b +:+ c)).
  now f_equal.
Qed.

Lemma append_empty_r (a : string) : a +:+ EmptyString = a.
Proof.
  induction a as [|ch a IH]; [reflexivity|].
  change (String ch (a +:+ EmptyString) = String ch a). now f_equal.
Qed.

Lemma script_path_dir i n : script_path i n = script_dir i +:+ n.
Proof. unfold script_path, script_dir. now rewrite !append_assoc. Qed.

Lemma prefix_script_dir i n : String.prefix (script_dir i) (script_path i n) = true.
Proof. rewrite script_path_dir. apply prefix_append. Qed.

Lemma includes_cons ch s n :
  includes (String ch s) n =
    if String.prefix n (String ch s) then true else includes s n.
Proof. reflexivity. Qed.

Lemma prefix_cons a s1 b s2 :
  String.prefix (String a s1) (String b s2) =
    if ascii_dec a b then String.prefix s1 s2 else false.
Proof. reflexivity. Qed.

Lemma prefix_empty s : String.prefix EmptyString s = true.
Proof. now destruct s. Qed.

Lemma append_cons a s t : String a s +:+ t = String a (s +:+ t).
Proof. reflexivity. Qed.

Lemma includes_slash_cons ch s :
  includes (String ch s) "/" = false ->
  ch <> "/"%char /\ includes s "/" = false.
Proof.
  rewrite includes_cons.
  change "/" with (String "/"%char EmptyString) at 1.
  rewrite prefix_cons, prefix_empty.
  destruct (ascii_dec "/" ch) as [<-|Hne]; [discriminate|].
  intros H. split; [congruence | exact H].
Qed.

(** Directories of different scripts do not nest. *)
Lemma script_dir_disjoint i j n :
  includes i "/" = false -> includes j "/" = false ->
  String.prefix (script_dir i) (script_path j n) = true -> i = j.
Proof.
  unfold script_dir, script_path. rewrite prefix_append_same.
  change "/" with (String "/"%char EmptyString) at 3 4.
  revert j. induction i as [|a i IH]; intros [|b j] Hi Hj.
  - reflexivity.
  - apply includes_slash_cons in Hj as [Hb _].
    change (EmptyString +:+ String "/"%char EmptyString)
      with (String "/"%char EmptyString).
    rewrite append_cons, prefix_cons.
    destruct (ascii_dec "/" b); [congruence | discriminate].
  - apply includes_slash_cons in Hi as [Ha _].
    change (EmptyString +:+ String "/"%char EmptyString +:+ n)
      with (String "/"%char (EmptyString +:+ n)).
    rewrite append_cons, prefix_cons.
    destruct (ascii_dec a "/"); [congruence | discriminate].
  - apply includes_slash_cons in Hi as [_ Hi].
    apply includes_slash_cons in Hj as [_ Hj].
    rewrite !append_cons, prefix_cons.
    destruct (ascii_dec a b) as [->|]; [|discriminate].
    intros H. f_equal. now apply IH.
Qed.

Lemma find_script_filter_out i l :
  find_script i (List.filter (fun x => negb (String.eqb (id x) i)) l) = None.
Proof.
  unfold find_script. induction l as [|x l IH]; cbn; [reflexivity|].
  destruct (String.eqb (id x) i) eqn:Hx; cbn; [exact IH|].
  now rewrite Hx.
Qed.

Lemma find_script_filter_other i j l :
  j <> i ->
  find_script j (List.filter (fun x => negb (String.eqb (id x) i)) l) =
    find_script j l.
Proof.
  intros Hne. unfold find_script. induction l as [|x l IH]; cbn; [reflexivity|].
  destruct (String.eqb (id x) i) eqn:Hx; cbn.
  - apply String.eqb_eq in Hx.
    destruct (String.eqb (id x) j) eqn:Hj; [|exact IH].
    apply String.eqb_eq in Hj. congruence.
  - destruct (String.eqb (id x) j); [reflexivity | exact IH].
Qed.

Lemma find_script_filter_none i (f : cogFile -> bool) l :
  find_script i l = None -> find_script i (List.filter f l) = None.
Proof.
  unfold find_script. induction l as [|x l IH]; cbn; [reflexivity|].
  destruct (String.eqb (id x) i) eqn:Hx; [discriminate|].
  intros H. destruct (f x); cbn; [rewrite Hx|]; auto.
Qed.

(** What [ui_delete] leaves, for a registered script without task. *)
Lemma ui_delete_known req s script :
  find_script (params_script req) (scripts (engine s)) = Some script ->
  cronTask script = None ->
  let r := ui_delete req s in
  fst r = Normal {| reply_status := 200; reply_payload := NullId |} /\
  scripts (engine (snd r)) =
    List.filter (fun x => negb (String.eqb (id x) (id script)))
      (scripts (engine s)) /\
  dirs (engine (snd r)) =
    List.filter (fun d => negb (String.eqb d (id script))) (dirs (engine s)) /\
  files (engine (snd r)) =
    filter (fun kv : string * file =>
              String.prefix (script_dir (id script)) (fst kv) = false)
      (files (engine s)) /\
  procs (engine (snd r)) = procs (engine s) /\
  crons (engine (snd r)) = crons (engine s) /\
  destroyed (snd r) = destroyed s.
Proof.
  intros Hfind Htask. unfold ui_delete. rewrite Hfind, Htask.
  cbn. now repeat split.
Qed.

(** For a script that carries a task the handler destroys the task and
    throws. *)
Lemma ui_delete_scheduled req s script t :
  find_script (params_script req) (scripts (engine s)) = Some script ->
  cronTask script = Some t ->
  ui_delete req s =
    (Throw (TypeError "Cannot read properties of undefined (reading 'then')"),
     {| engine := engine s; destroyed := destroyed s ++ [t] |}).
Proof. intros Hfind Htask. unfold ui_delete. now rewrite Hfind, Htask. Qed.

(** X23.  Deleting a registered script that carries no scheduler task
    answers [{ id: null }] and leaves no entry of that id in the script
    list, no directory entry of that name and no file under its
    directory; the children that are running are not touched.  A script
    that carries a task is not deleted: its task is destroyed, so that
    it ticks no more, and then the handler throws, before anything is
    removed; the request is answered by the error handler, and script
    list, disk and children are as they were. *)
Theorem delete_removes_script_without_task req s script :
  find_script (params_script req) (scripts (engine s)) = Some script ->
  let r := ui_delete req s in
  match cronTask script with
  | None =>
      fst r = Normal {| reply_status := 200; reply_payload := NullId |} /\
      find_script (id script) (scripts (engine (snd r))) = None /\
      (id script ∉ dirs (engine (snd r))) /\
      (forall n, files (engine (snd r)) !! script_path (id script) n = None) /\
      procs (engine (snd r)) = procs (engine s) /\
      destroyed (snd r) = destroyed s
  | Some t =>
      (exists e, fst r = Throw e /\ error_name e = "TypeError" /\
                 answered (fst r) =
                   {| reply_status := 500; reply_payload := Failed e |}) /\
      engine (snd r) = engine s /\
      destroyed (snd r) = destroyed s ++ [t] /\
      (forall now, deliver (CronFired t now) (snd r) = (Normal tt, snd r))
  end.
Proof.
  intros Hfind. cbn zeta.
  destruct (cronTask script) as [t|] eqn:Htask.
  - rewrite (ui_delete_scheduled req s script t Hfind Htask). cbn.
    split; [eexists; repeat split|]. repeat split.
    intros now. rewrite bool_decide_eq_true_2; [reflexivity|].
    apply elem_of_app. right. apply elem_of_cons. now left.
  - destruct (ui_delete_known req s script Hfind Htask)
      as (Hr & Hs & Hd & Hf & Hp & _ & Hx).
    cbn zeta in *. split; [exact Hr|].
    split; [rewrite Hs; apply find_script_filter_out|].
    split.
    { rewrite Hd. intros Hin. apply list_elem_of_In, filter_In in Hin as [_ Hin].
      now rewrite String.eqb_refl in Hin. }
    split.
    { intros n. rewrite Hf. apply map_lookup_filter_None. right.
      intros x _. cbn. now rewrite prefix_script_dir. }
    now split.
Qed.

Lemma delete_removes_script_without_task_witness :
  let req := {| params_script := "s1"; query := []; req_body := ∅;
                body_json := "{}" |} in
  (let r := ui_delete req {| engine := Ref.server Ref.s1; destroyed := [] |} in
   fst r = Normal {| reply_status := 200; reply_payload := NullId |} /\
   find_script "s1" (scripts (engine (snd r))) = None /\
   ("s1" ∉ dirs (engine (snd r))) /\
   (forall n, files (engine (snd r)) !! script_path "s1" n = None) /\
   procs (engine (snd r)) = [] /\
   destroyed (snd r) = []) /\
  (let r := ui_delete req {| engine := Ref.cron_server; destroyed := [] |} in
   (exists e, fst r = Throw e /\ error_name e = "TypeError" /\
              answered (fst r) =
                {| reply_status := 500; reply_payload := Failed e |}) /\
   engine (snd r) = Ref.cron_server /\
   destroyed (snd r) = [0%nat] /\
   (forall now, deliver (CronFired 0 now) (snd r) = (Normal tt, snd r))).
Proof.
  split.
  - apply (delete_removes_script_without_task
             {| params_script := "s1"; query := []; req_body := ∅;
                body_json := "{}" |}
             {| engine := Ref.server Ref.s1; destroyed := [] |} Ref.s1).
    reflexivity.
  - apply (delete_removes_script_without_task
             {| params_script := "s1"; query := []; req_body := ∅;
                body_json := "{}" |}
             {| engine := Ref.cron_server; destroyed := [] |} Ref.s1_cron).
    reflexivity.
Defined.

(** X24.  Deleting a script leaves every other script as it was: its entry
    in the script list, its directory entry and its files (ids being
    directory names, without [/]). *)
Theorem delete_keeps_other_scripts req s script j :
  find_script (params_script req) (scripts (engine s)) = Some script ->
  j <> id script ->
  includes (id script) "/" = false ->
  includes j "/" = false ->
  let w' := engine (snd (ui_delete req s)) in
  find_script j (scripts w') = find_script j (scripts (engine s)) /\
  (j ∈ dirs (engine s) -> j ∈ dirs w') /\
  (forall n, files w' !! script_path j n = files (engine s) !! script_path j n).
Proof.
  intros Hfind Hne Hi Hj.
  destruct (cronTask script) as [t|] eqn:Htask.
  { rewrite (ui_delete_scheduled req s script t Hfind Htask). cbn.
    now repeat split. }
  destruct (ui_delete_known req s script Hfind Htask) as (_ & Hs & Hd & Hf & _).
  cbn zeta. rewrite Hs, Hd, Hf. split; [now apply find_script_filter_other|].
  split.
  - intros Hin. apply list_elem_of_In, filter_In. split;
      [now apply list_elem_of_In|].
    apply negb_true_iff, String.eqb_neq. exact Hne.
  - intros n.
    assert (Hkeep : String.prefix (script_dir (id script)) (script_path j n) = false).
    { destruct (String.prefix (script_dir (id script)) (script_path j n)) eqn:Hp;
        [|reflexivity].
      apply script_dir_disjoint in Hp; [congruence | assumption | assumption]. }
    destruct (files (engine s) !! script_path j n) as [f|] eqn:Hlook.
    + apply map_lookup_filter_Some. now split.
    + apply map_lookup_filter_None. now left.
Qed.

Lemma delete_keeps_other_scripts_witness :
  let s := {| engine :=
                with_files (insert (script_path "b" ".cog") (Json RefDisk.b))
                  (with_scripts (fun l => l ++ [RefDisk.b]) (Ref.server Ref.s1));
              destroyed := [] |} in
  let req := {| params_script := "s1"; query := []; req_body := ∅;
                body_json := "{}" |} in
  let w' := engine (snd (ui_delete req s)) in
  find_script "b" (scripts w') = Some RefDisk.b /\
  files w' !! script_path "b" ".cog" = Some (Json RefDisk.b) /\
  files w' !! script_path "s1" ".cog" = None.
Proof.
  pose proof (delete_keeps_other_scripts
    {| params_script := "s1"; query := []; req_body := ∅; body_json := "{}" |}
    {| engine :=
         with_files (insert (script_path "b" ".cog") (Json RefDisk.b))
           (with_scripts (fun l => l ++ [RefDisk.b]) (Ref.server Ref.s1));
       destroyed := [] |}
    Ref.s1 "b" eq_refl ltac:(discriminate) eq_refl eq_refl) as (H1 & _ & H3).
  split; [exact H1|]. split; [exact (H3 ".cog") | reflexivity].
Defined.

Lemma run_unknown_404 w req :
  find_script (params_script req) (scripts w) = None ->
  let r := serve run req w in
  fst r = Normal tt /\
  received (length (resps w)) (snd r) =
    Some (404, MessageBody "The requested script could not be found.") /\
  procs (snd r) = procs w.
Proof.
  intros Hfind. rewrite serve_of_invoke. unfold invoke, res_new, run. unfold_m.
  cbn -[find_script]. rewrite Hfind.
  unfold res_status, res_send. unfold_m. cbn.
  rewrite alter_last, lookup_last. cbn.
  unfold received. cbn. now rewrite !alter_last, lookup_last.
Qed.

Lemma update_unknown_404 w req :
  find_script (params_script req) (scripts w) = None ->
  let r := serve ui_update req w in
  fst r = Normal tt /\
  received (length (resps w)) (snd r) = Some (404, TextBody "404") /\
  files (snd r) = files w /\ scripts (snd r) = scripts w.
Proof.
  intros Hfind. rewrite serve_of_invoke. unfold invoke, res_new, ui_update. unfold_m.
  cbn -[find_script]. rewrite Hfind.
  unfold res_status, res_send. unfold_m. cbn.
  rewrite alter_last, lookup_last. cbn.
  unfold received. cbn. now rewrite !alter_last, lookup_last.
Qed.

(** X25.  Once a script without scheduler task is deleted, requests for
    its id are answered 404: trigger and run spawn nothing, an update
    writes nothing, the script page is not found. *)
Theorem deleted_script_is_unknown req s script req' :
  find_script (params_script req) (scripts (engine s)) = Some script ->
  cronTask script = None ->
  params_script req' = id script ->
  let w := engine (snd (ui_delete req s)) in
  let r := length (resps w) in
  (received r (snd (serve trigger req' w)) =
     Some (404, MessageBody "The requested script could not be found.") /\
   procs (snd (serve trigger req' w)) = procs (engine s)) /\
  (received r (snd (serve run req' w)) =
     Some (404, MessageBody "The requested script could not be found.") /\
   procs (snd (serve run req' w)) = procs (engine s)) /\
  (received r (snd (serve ui_update req' w)) = Some (404, TextBody "404") /\
   files (snd (serve ui_update req' w)) = files w) /\
  fst (ui_script req' w) =
    Normal {| reply_status := 404; reply_payload := Sent "404" |}.
Proof.
  intros Hfind Htask Hid.
  destruct (ui_delete_known req s script Hfind Htask)
    as (_ & Hs & _ & _ & Hp & _).
  assert (Hgone : find_script (params_script req')
                    (scripts (engine (snd (ui_delete req s)))) = None).
  { rewrite Hid. cbn zeta in Hs. rewrite Hs. apply find_script_filter_out. }
  cbn zeta in Hp |- *.
  set (w := engine (snd (ui_delete req s))) in *.
  destruct (trigger_unknown_404 w req' Hgone) as (_ & Ht & Htp).
  destruct (run_unknown_404 w req' Hgone) as (_ & Hr & Hrp).
  destruct (update_unknown_404 w req' Hgone) as (_ & Hu & Huf & _).
  repeat split; try assumption; try congruence.
  unfold ui_script. unfold_m. now rewrite Hgone.
Qed.

Lemma deleted_script_is_unknown_witness :
  let req := {| params_script := "s1"; query := []; req_body := ∅;
                body_json := "{}" |} in
  let s := {| engine := Ref.server Ref.s1; destroyed := [] |} in
  let w := engine (snd (ui_delete req s)) in
  received (length (resps w)) (snd (serve trigger Ref.post_s1 w)) =
    Some (404, MessageBody "The requested script could not be found.") /\
  procs (snd (serve trigger Ref.post_s1 w)) = procs (engine s).
Proof.
  exact (proj1 (deleted_script_is_unknown
    {| params_script := "s1"; query := []; req_body := ∅; body_json := "{}" |}
    {| engine := Ref.server Ref.s1; destroyed := [] |} Ref.s1 Ref.post_s1
    eq_refl eq_refl eq_refl)).
Defined.

Lemma none_spawned_grows i n (m : M unit) s :
  grows m ->
  none_spawned i n s ->
  none_spawned i n {| engine := snd (m (engine s)); destroyed := destroyed s |}.
Proof.
  intros Hm (Hfind & old & new & Hp & Hlen & Hnew).
  destruct (Hm (engine s)) as ((Hs & _) & o & nw & Hp' & Ho & Hnw).
  unfold none_spawned. cbn. split; [now rewrite Hs|].
  rewrite Hp in Ho. apply Forall2_app_inv_l in Ho
    as (oa & ob & Hoa & Hob & ->).
  exists oa, (ob ++ nw). split; [now rewrite Hp', app_assoc|]. split.
  - apply Forall2_length in Hoa. congruence.
  - apply Forall_app. split.
    + eapply Forall_evolved; [exact Hob| |exact Hnew].
      intros x y [Hid _]. now rewrite Hid.
    + eapply Forall_impl; [exact Hnw|].
      intros c [_ [x Hx]] Hc. rewrite Hc in Hx. congruence.
Qed.

Lemma none_spawned_perform valid i n a s :
  registers a = false ->
  none_spawned i n s -> none_spawned i n (perform valid a s).
Proof.
  intros Hreg Hinv.
  destruct a as [e|req|req|hat now req|req|req]; try discriminate.
  - destruct (traffic_grows valid (Event e) s eq_refl)
      as [Hd [->|(m & Hm & He)]]; [exact Hinv|].
    pose proof (none_spawned_grows i n m s Hm Hinv) as H.
    unfold none_spawned in *. now rewrite He.
  - destruct (traffic_grows valid (PostTrigger req) s eq_refl)
      as [Hd [->|(m & Hm & He)]]; [exact Hinv|].
    pose proof (none_spawned_grows i n m s Hm Hinv) as H.
    unfold none_spawned in *. now rewrite He.
  - destruct (traffic_grows valid (PostRun req) s eq_refl)
      as [Hd [->|(m & Hm & He)]]; [exact Hinv|].
    pose proof (none_spawned_grows i n m s Hm Hinv) as H.
    unfold none_spawned in *. now rewrite He.
  - destruct Hinv as (Hfind & Hrest). unfold none_spawned. cbn.
    destruct (ui_update_keeps req (engine s)) as (Hp & Hs & _).
    cbn zeta in Hp, Hs. now rewrite Hp, Hs.
  - destruct Hinv as (Hfind & Hrest). unfold none_spawned. cbn.
    rewrite ui_delete_keeps_procs. split; [|exact Hrest].
    destruct (find_script (params_script req) (scripts (engine s)))
      as [c|] eqn:Hc.
    + destruct (cronTask c) as [t|] eqn:Htask.
      * now rewrite (ui_delete_scheduled req s c t Hc Htask).
      * destruct (ui_delete_known req s c Hc Htask) as (_ & -> & _).
        now apply find_script_filter_none.
    + unfold ui_delete. now rewrite Hc.
Qed.

(** X26.  After a script without scheduler task is deleted, and as long
    as nothing is registered anew, nothing the server goes through
    spawns a child for its id, whatever events, cron ticks and trigger,
    run, update and delete requests follow: every child that was not
    there when the script was deleted belongs to another script. *)
Theorem deleted_script_is_never_spawned valid req s script l :
  find_script (params_script req) (scripts (engine s)) = Some script ->
  cronTask script = None ->
  forallb (fun a => negb (registers a)) l = true ->
  let s' := perform_all valid l (snd (ui_delete req s)) in
  Forall (fun c => cogScriptId c <> id script)
    (drop (length (procs (engine s))) (procs (engine s'))).
Proof.
  intros Hfind Htask Hl.
  assert (Hstart : none_spawned (id script) (length (procs (engine s)))
                     (snd (ui_delete req s))).
  { destruct (ui_delete_known req s script Hfind Htask)
      as (_ & Hs & _ & _ & Hp & _).
    split; [rewrite Hs; apply find_script_filter_out|].
    exists (procs (engine s)), []. rewrite app_nil_r. now repeat split. }
  generalize dependent (snd (ui_delete req s)).
  induction l as [|a l IH]; intros s0 Hinv.
  - cbn. destruct Hinv as (_ & old & new & Heq & Hlen & Hnew).
    rewrite Heq, <- Hlen. now rewrite drop_app_length.
  - cbn in Hl. apply andb_true_iff in Hl as [Ha Hl].
    rewrite perform_all_cons. apply (IH Hl).
    apply none_spawned_perform; [now apply negb_true_iff | exact Hinv].
Qed.

Lemma deleted_script_is_never_spawned_witness :
  let post_b := {| params_script := "b"; query := []; req_body := ∅;
                   body_json := "{}" |} in
  let s := perform RefNew.accept_all (PostTrigger Ref.post_s1)
             {| engine := with_scripts (fun l => l ++ [RefDisk.b])
                            (Ref.server Ref.s1);
                destroyed := [] |} in
  let s' := perform_all RefNew.accept_all
              [PostTrigger Ref.post_s1; PostTrigger post_b; PostRun Ref.post_s1;
               Event (ProcExit 0); PostRun post_b]
              (snd (ui_delete Ref.post_s1 s)) in
  Forall (fun c => cogScriptId c <> "s1")
    (drop (length (procs (engine s))) (procs (engine s'))) /\
  map cogScriptId (procs (engine s')) = ["s1"; "b"; "b"].
Proof.
  split; [|reflexivity].
  apply (deleted_script_is_never_spawned RefNew.accept_all Ref.post_s1
    (perform RefNew.accept_all (PostTrigger Ref.post_s1)
       {| engine := with_scripts (fun l => l ++ [RefDisk.b])
                      (Ref.server Ref.s1);
          destroyed := [] |})
    Ref.s1
    [PostTrigger Ref.post_s1;
     PostTrigger {| params_script := "b"; query := []; req_body := ∅;
                    body_json := "{}" |};
     PostRun Ref.post_s1; Event (ProcExit 0);
     PostRun {| params_script := "b"; query := []; req_body := ∅;
                body_json := "{}" |}]); reflexivity.
Defined.

(** ** The API endpoints *)

Lemma argv_started c q msg :
  argv (started c (flatten_query q) msg) =
    script_path (id c) (ToString (entrypoint c)) ::
    map (fun kv => "--" +:+ fst kv +:+ "=" +:+ dq +:+ ToString (snd kv) +:+ dq) q.
Proof.
  unfold argv, started, flatten_query. cbn. f_equal.
  now rewrite map_map.
Qed.

(** X1.  A trigger request for a registered nodejs script with the webhook
    on is acknowledged with 200 at once, while the child it spawned is
    still running: the child gets the entrypoint path followed by one
    token [--key="value"] per query parameter, in order, holds the JSON
    text of the body as its message, and its timer is armed with the
    descriptor's timeout.  Registry and disk are not touched. *)
Theorem trigger_spawns_and_acknowledges w req c :
  find_script (params_script req) (scripts w) = Some c ->
  truthy (webhook c) = true ->
  strict_eq_str (runtime c) "nodejs" = true ->
  let r := serve trigger req w in
  fst r = Normal tt /\
  received (length (resps w)) (snd r) =
    Some (200, MessageBody "Script execution has been triggered.") /\
  static w (snd r) /\
  exists ch,
    procs (snd r) = procs w ++ [ch] /\
    spawnedProcessRunning ch = true /\ exited ch = false /\
    message ch = JStr (body_json req) /\
    timer ch = Some (timeout c) /\
    argv ch =
      script_path (id c) (ToString (entrypoint c)) ::
      map (fun kv => "--" +:+ fst kv +:+ "=" +:+ dq +:+ ToString (snd kv) +:+ dq)
          (query req).
Proof.
  intros Hfind Hwh Hrt.
  destruct (trigger_enabled_200 w req c Hfind Hwh Hrt) as (H1 & H2 & H3).
  cbn zeta. split; [exact H1|]. split; [exact H2|].
  split; [apply (grows_serve trigger req (grows_trigger req) w)|].
  eexists. split; [exact H3|]. repeat split. apply argv_started.
Qed.

Lemma trigger_spawns_and_acknowledges_witness :
  let r := serve trigger Ref.post_s1 (Ref.server Ref.s1) in
  fst r = Normal tt /\
  received 0 (snd r) =
    Some (200, MessageBody "Script execution has been triggered.") /\
  static (Ref.server Ref.s1) (snd r) /\
  exists ch,
    procs (snd r) = [ch] /\
    spawnedProcessRunning ch = true /\ exited ch = false /\
    message ch = JStr (body_json Ref.post_s1) /\
    timer ch = Some 30000 /\
    argv ch = ["./data/scripts/s1/app.js"; "--who=" +:+ dq +:+ "world" +:+ dq].
Proof.
  apply (trigger_spawns_and_acknowledges (Ref.server Ref.s1) Ref.post_s1 Ref.s1);
    reflexivity.
Defined.

(** X2.  A trigger or run request for an id that is not registered is
    answered 404 with the same message; no child is spawned, and registry
    and disk are as before. *)
Theorem unknown_script_is_not_found w req :
  find_script (params_script req) (scripts w) = None ->
  (let r := serve trigger req w in
   fst r = Normal tt /\
   received (length (resps w)) (snd r) =
     Some (404, MessageBody "The requested script could not be found.") /\
   procs (snd r) = procs w /\ static w (snd r)) /\
  (let r := serve run req w in
   fst r = Normal tt /\
   received (length (resps w)) (snd r) =
     Some (404, MessageBody "The requested script could not be found.") /\
   procs (snd r) = procs w /\ static w (snd r)).
Proof.
  intros Hfind.
  destruct (trigger_unknown_404 w req Hfind) as (H1 & H2 & H3).
  destruct (run_unknown_404 w req Hfind) as (H4 & H5 & H6).
  split; cbn zeta; repeat split; try assumption.
  - apply (grows_serve trigger req (grows_trigger req) w).
  - apply (grows_serve trigger req (grows_trigger req) w).
  - apply (grows_serve trigger req (grows_trigger req) w).
  - apply (grows_serve trigger req (grows_trigger req) w).
  - apply (grows_serve run req (grows_run req) w).
  - apply (grows_serve run req (grows_run req) w).
  - apply (grows_serve run req (grows_run req) w).
  - apply (grows_serve run req (grows_run req) w).
Qed.

Lemma unknown_script_is_not_found_witness :
  let req := {| params_script := "nope"; query := []; req_body := ∅;
                body_json := "{}" |} in
  let w := Ref.server Ref.s1 in
  (let r := serve trigger req w in
   fst r = Normal tt /\
   received (length (resps w)) (snd r) =
     Some (404, MessageBody "The requested script could not be found.") /\
   procs (snd r) = procs w /\ static w (snd r)) /\
  (let r := serve run req w in
   fst r = Normal tt /\
   received (length (resps w)) (snd r) =
     Some (404, MessageBody "The requested script could not be found.") /\
   procs (snd r) = procs w /\ static w (snd r)).
Proof.
  apply (unknown_script_is_not_found (Ref.server Ref.s1)
    {| params_script := "nope"; query := []; req_body := ∅; body_json := "{}" |}).
  reflexivity.
Defined.

(** X3.  After a trigger request, whatever the child prints, its stdin
    receives the JSON text of the request body followed by a newline once
    for every stdout chunk that contains [message:], and nothing else: no
    write without such a chunk. *)
Theorem trigger_answers_every_prompt w req c chunks :
  find_script (params_script req) (scripts w) = Some c ->
  truthy (webhook c) = true ->
  strict_eq_str (runtime c) "nodejs" = true ->
  let p := length (procs w) in
  let r := (serve trigger req;; run_events (map (StdoutData p) chunks)) w in
  fst r = Normal tt /\
  exists ch,
    procs (snd r) !! p = Some ch /\
    stdin ch =
      map (fun _ => body_json req +:+ nl)
          (List.filter (fun d => includes d "message:") chunks).
Proof.
  intros Hfind Hwh Hrt.
  destruct (trigger_enabled_200 w req c Hfind Hwh Hrt) as (H1 & _ & H3).
  cbn zeta in H1, H3 |- *.
  destruct (serve trigger req w) as [[[]|e] w1] eqn:Hserve; cbn in H1, H3;
    [|discriminate].
  destruct (handshake_writes_per_match chunks w1 (length (procs w))
              (started c (flatten_query (query req)) (JStr (body_json req))))
    as (w' & ch & Hrun & Hch & Hin).
  { rewrite H3. apply lookup_last. }
  { reflexivity. }
  assert (Hall : (serve trigger req;;
                  run_events (map (StdoutData (length (procs w))) chunks)) w =
                 (Normal tt, w')).
  { unfold mbind, M_bind. now rewrite Hserve. }
  rewrite Hall. split; [reflexivity|]. exists ch. split; [exact Hch|].
  exact Hin.
Qed.

Lemma trigger_answers_every_prompt_witness :
  let r := (serve trigger Ref.post_s1;;
            run_events (map (StdoutData 0)
                          ["starting"; "message: one"; "working";
                           "message: two"])) (Ref.server Ref.s1) in
  fst r = Normal tt /\
  exists ch,
    procs (snd r) !! 0%nat = Some ch /\
    stdin ch = [body_json Ref.post_s1 +:+ nl; body_json Ref.post_s1 +:+ nl].
Proof.
  apply (trigger_answers_every_prompt (Ref.server Ref.s1) Ref.post_s1 Ref.s1
           ["starting"; "message: one"; "working"; "message: two"]);
    reflexivity.
Defined.

(** X8.  The timeout detaches the listeners of the process only: a child
    that is killed by its timer has lost its exit listeners, but the
    stdout listener of [runScript] is still attached, and a chunk with
    [message:] that arrives afterwards is answered on stdin as before. *)
Theorem timeout_keeps_stdout_listener w p c t data :
  procs w !! p = Some c ->
  timer c = Some t ->
  killed c = false ->
  stdout_listeners c = [("data", OnStdout_runScript)] ->
  includes data "message:" = true ->
  let r := run_events [TimerFired p; StdoutData p data] w in
  fst r = Normal tt /\
  exists c',
    procs (snd r) !! p = Some c' /\
    listeners c' = [] /\
    kills c' = S (kills c) /\
    stdin c' = stdin c ++ [ToString (message c) +:+ nl].
Proof.
  intros Hp Ht Hk Hl Hinc.
  destruct (timer_fired_kills w p c t Hp Ht Hk) as (w1 & Hstep & _ & _ & Hp1).
  cbn [run_events]. unfold mbind, M_bind. rewrite Hstep.
  rewrite (step_stdout_runScript w1 p _ data Hp1) by exact Hl.
  cbn. split; [reflexivity|]. eexists. split.
  - rewrite list_lookup_alter_eq, Hp1. reflexivity.
  - unfold after_chunk. rewrite Hinc. now repeat split.
Qed.

Lemma timeout_keeps_stdout_listener_witness :
  let w := snd (runScript "s1" [] JNull (Ref.server Ref.s1)) in
  let r := run_events [TimerFired 0; StdoutData 0 "message: late"] w in
  fst r = Normal tt /\
  exists c',
    procs (snd r) !! 0%nat = Some c' /\
    listeners c' = [] /\
    kills c' = 1%nat /\
    stdin c' = ["null" +:+ nl].
Proof.
  apply (timeout_keeps_stdout_listener
           (snd (runScript "s1" [] JNull (Ref.server Ref.s1))) 0
           (started Ref.s1 [] JNull) 30000 "message: late"); reflexivity.
Defined.

(** ** The run endpoint *)

Lemma awaiting_stdout p k r rs out err w data :
  awaiting p k r rs out err w ->
  exists w',
    step (StdoutData p data) w = (Normal tt, w') /\
    awaiting p k r rs (out +:+ data) err w'.
Proof.
  intros ((c & Hp & Hex & Hl & Hso & Hse) & Hk & Hr).
  unfold step. unfold_m. rewrite Hp. cbn.
  unfold emit. rewrite Hso. cbn. unfold_m. rewrite Hp. cbn.
  destruct (includes data "message:"); cbn.
  - eexists. split; [reflexivity|]. split; [|split].
    + eexists. cbn. rewrite list_lookup_alter_eq, Hp. cbn.
      split; [reflexivity|]. now repeat split.
    + cbn. rewrite list_lookup_alter_eq, Hk. reflexivity.
    + exact Hr.
  - eexists. split; [reflexivity|]. split; [|split].
    + exists c. cbn. now repeat split.
    + cbn. rewrite list_lookup_alter_eq, Hk. reflexivity.
    + exact Hr.
Qed.

Lemma awaiting_stderr p k r rs out err w data :
  awaiting p k r rs out err w ->
  exists w',
    step (StderrData p data) w = (Normal tt, w') /\
    awaiting p k r rs (out +:+ data) (err +:+ data) w'.
Proof.
  intros ((c & Hp & Hex & Hl & Hso & Hse) & Hk & Hr).
  unfold step. unfold_m. rewrite Hp. cbn.
  unfold emit. rewrite Hse. cbn. unfold_m. cbn.
  eexists. split; [reflexivity|]. split; [|split].
  - exists c. cbn. now repeat split.
  - cbn. rewrite !list_lookup_alter_eq, Hk. reflexivity.
  - exact Hr.
Qed.

Lemma awaiting_exit p k r rs out err w :
  awaiting p k r rs out err w ->
  match sent rs with
  | None =>
      exists w',
        step (ProcExit p) w = (Normal tt, w') /\
        received r w' =
          Some (statusCode rs,
                RunBody "Script has executed successfully!" out err)
  | Some _ =>
      exists w',
        step (ProcExit p) w = (Throw (SystemError "ERR_HTTP_HEADERS_SENT"), w') /\
        resps w' = resps w
  end.
Proof.
  intros ((c & Hp & Hex & Hl & Hso & Hse) & Hk & Hr).
  unfold step. unfold_m. rewrite Hp, Hex. cbn.
  unfold emit. rewrite Hl. cbn. unfold_m. cbn.
  rewrite !list_lookup_alter_eq, Hp. cbn. rewrite Hk. cbn.
  unfold res_send. unfold_m. cbn. rewrite Hr.
  destruct (sent rs) eqn:Hsent.
  - eexists. split; [reflexivity|]. reflexivity.
  - eexists. split; [reflexivity|].
    unfold received. cbn. rewrite list_lookup_alter_eq, Hr. cbn.
    reflexivity.
Qed.

Lemma awaiting_feed p k r rs cs : forall w out err,
  awaiting p k r rs out err w ->
  exists w',
    run_events (map (chunk_event p) cs) w = (Normal tt, w') /\
    awaiting p k r rs (out +:+ all_output cs) (err +:+ error_output cs) w'.
Proof.
  induction cs as [|[d|d] cs IH]; intros w out err Haw.
  - exists w. cbn. rewrite !append_empty_r. now split.
  - destruct (awaiting_stdout _ _ _ _ _ _ _ d Haw) as (w1 & Hstep & Haw1).
    destruct (IH w1 _ _ Haw1) as (w' & Hrun & Haw').
    exists w'. cbn [map run_events chunk_event all_output error_output].
    unfold mbind, M_bind. rewrite Hstep. split; [exact Hrun|].
    now rewrite <- append_assoc.
  - destruct (awaiting_stderr _ _ _ _ _ _ _ d Haw) as (w1 & Hstep & Haw1).
    destruct (IH w1 _ _ Haw1) as (w' & Hrun & Haw').
    exists w'. cbn [map run_events chunk_event all_output error_output].
    unfold mbind, M_bind. rewrite Hstep. split; [exact Hrun|].
    now rewrite <- !append_assoc.
Qed.

Lemma run_events_app es1 es2 w w1 :
  run_events es1 w = (Normal tt, w1) ->
  run_events (es1 ++ es2) w = run_events es2 w1.
Proof.
  revert w. induction es1 as [|e es1 IH]; intros w; cbn [run_events app].
  - now intros [= ->].
  - unfold mbind, M_bind. destruct (step e w) as [[[]|x] w0]; [|discriminate].
    apply IH.
Qed.

(** What [POST /api/v1/run] sets up for a registered nodejs script. *)
Lemma run_starts w req c :
  find_script (params_script req) (scripts w) = Some c ->
  strict_eq_str (runtime c) "nodejs" = true ->
  exists w1,
    serve run req w = (Normal tt, w1) /\
    procs w1 =
      procs w ++ [run_child c (flatten_query (query req))
                    (JStr (body_json req)) (length (runs w))] /\
    awaiting (length (procs w)) (length (runs w)) (length (resps w))
      (if truthy (webhook c)
       then {| statusCode := 200; sent := None |}
       else {| statusCode := 400;
               sent := Some (400, MessageBody
                 "The requested script does not have webhooks enabled.") |})
      EmptyString EmptyString w1.
Proof.
  intros Hfind Hrt.
  pose proof (find_script_id _ _ _ Hfind) as Hid.
  rewrite serve_of_invoke. unfold invoke, res_new, run. unfold_m.
  cbn -[find_script runScript]. rewrite Hfind.
  destruct (truthy (webhook c)); cbn -[runScript].
  - erewrite runScript_nodejs; [|rewrite Hid; exact Hfind|exact Hrt].
    cbn. eexists. split; [reflexivity|].
    unfold awaiting. cbn. rewrite !alter_last, !lookup_last.
    split; [reflexivity|]. split; [|now split].
    eexists. split; [reflexivity|]. now repeat split.
  - unfold res_status, res_send. unfold_m. cbn -[runScript].
    rewrite alter_last, lookup_last. cbn -[runScript].
    erewrite runScript_nodejs; [|rewrite Hid; exact Hfind|exact Hrt].
    cbn. eexists. split; [reflexivity|].
    unfold awaiting. cbn. rewrite !alter_last, !lookup_last.
    split; [reflexivity|]. split; [|now split].
    eexists. split; [reflexivity|]. now repeat split.
Qed.

Lemma capturing_chunk p k r rs out err w ch :
  capturing p k r rs out err w ->
  exists w',
    step (chunk_event p ch) w = (Normal tt, w') /\
    capturing p k r rs (out +:+ all_output [ch]) (err +:+ error_output [ch]) w'.
Proof.
  intros ((c & Hp & Hso & Hse) & Hk & Hr).
  destruct ch as [data|data]; cbn [chunk_event all_output error_output];
    rewrite ?append_empty_r.
  - unfold step. unfold_m. rewrite Hp. cbn.
    unfold emit. rewrite Hso. cbn. unfold_m. rewrite Hp. cbn.
    destruct (includes data "message:"); cbn.
    + eexists. split; [reflexivity|]. split; [|split].
      * eexists. cbn. rewrite list_lookup_alter_eq, Hp. cbn.
        split; [reflexivity|]. now split.
      * cbn. rewrite list_lookup_alter_eq, Hk. reflexivity.
      * exact Hr.
    + eexists. split; [reflexivity|]. split; [|split].
      * exists c. cbn. now repeat split.
      * cbn. rewrite list_lookup_alter_eq, Hk. reflexivity.
      * exact Hr.
  - unfold step. unfold_m. rewrite Hp. cbn.
    unfold emit. rewrite Hse. cbn. unfold_m. cbn.
    eexists. split; [reflexivity|]. split; [|split].
    + exists c. cbn. now repeat split.
    + cbn. rewrite !list_lookup_alter_eq, Hk. reflexivity.
    + exact Hr.
Qed.

(** Chunks that arrive go into the variables of the request and leave
    the response as it is. *)
Lemma capturing_feed p k r rs cs : forall w out err,
  capturing p k r rs out err w ->
  exists w',
    run_events (map (chunk_event p) cs) w = (Normal tt, w') /\
    resps w' !! r = Some rs.
Proof.
  induction cs as [|ch cs IH]; intros w out err Hcap.
  - exists w. split; [reflexivity | apply Hcap].
  - destruct (capturing_chunk _ _ _ _ _ _ _ ch Hcap) as (w1 & Hstep & Hcap1).
    destruct (IH w1 _ _ Hcap1) as (w' & Hrun & Hres).
    exists w'. cbn [map run_events]. unfold mbind, M_bind.
    now rewrite Hstep.
Qed.

(** The exit of the child of a waiting request sends the reply and
    leaves the listeners on the streams. *)
Lemma awaiting_exit_sends p k r rs out err w :
  awaiting p k r rs out err w ->
  sent rs = None ->
  exists w',
    step (ProcExit p) w = (Normal tt, w') /\
    capturing p k r
      {| statusCode := statusCode rs;
         sent := Some (statusCode rs,
                       RunBody "Script has executed successfully!" out err) |}
      out err w'.
Proof.
  intros ((c & Hp & Hex & Hl & Hso & Hse) & Hk & Hr) Hsent.
  unfold step. unfold_m. rewrite Hp, Hex. cbn.
  unfold emit. rewrite Hl. cbn. unfold_m. cbn.
  rewrite !list_lookup_alter_eq, Hp. cbn. rewrite Hk. cbn.
  unfold res_send. unfold_m. cbn. rewrite Hr, Hsent.
  eexists. split; [reflexivity|]. split; [|split].
  - eexists. cbn. rewrite !list_lookup_alter_eq, Hp. cbn.
    split; [reflexivity|]. now split.
  - exact Hk.
  - cbn. now rewrite list_lookup_alter_eq, Hr.
Qed.

(** X4.  A run request for a registered nodejs script with the webhook
    on, whose child exits before its timer fires: the reply goes out at
    the exit, 200 with what the child has written until then, whatever
    that is.  [output] is the chunks of stdout and of stderr in their
    order of arrival, [outputError] the chunks of stderr alone.  What the
    streams of the child deliver after the exit is in no reply. *)
Theorem run_replies_with_captured_output w req c cs late :
  find_script (params_script req) (scripts w) = Some c ->
  truthy (webhook c) = true ->
  strict_eq_str (runtime c) "nodejs" = true ->
  let p := length (procs w) in
  let r :=
    (serve run req;;
     run_events (map (chunk_event p) cs ++
                 ProcExit p :: map (chunk_event p) late)) w in
  fst r = Normal tt /\
  received (length (resps w)) (snd r) =
    Some (200, RunBody "Script has executed successfully!"
                 (all_output cs) (error_output cs)).
Proof.
  intros Hfind Hwh Hrt.
  destruct (run_starts w req c Hfind Hrt) as (w1 & Hserve & _ & Haw).
  rewrite Hwh in Haw.
  destruct (awaiting_feed _ _ _ _ cs w1 _ _ Haw) as (w2 & Hrun & Haw2).
  destruct (awaiting_exit_sends _ _ _ _ _ _ _ Haw2 eq_refl)
    as (w3 & Hstep & Hcap).
  destruct (capturing_feed _ _ _ _ late w3 _ _ Hcap) as (w4 & Hlate & Hres).
  assert (Hall : (serve run req;;
                  run_events (map (chunk_event (length (procs w))) cs ++
                              ProcExit (length (procs w)) ::
                              map (chunk_event (length (procs w))) late)) w =
                 (Normal tt, w4)).
  { unfold mbind, M_bind. rewrite Hserve.
    rewrite (run_events_app _ _ _ _ Hrun). cbn [run_events].
    unfold mbind, M_bind. now rewrite Hstep. }
  cbn zeta. rewrite Hall. cbn [fst snd]. split; [reflexivity|].
  unfold received. now rewrite Hres.
Qed.

Lemma run_replies_with_captured_output_witness :
  let r :=
    (serve run Ref.post_s1;;
     run_events (map (chunk_event 0) [Out "args: x "; Err "boom"; Out "done"]
                 ++ ProcExit 0 ::
                    map (chunk_event 0) [Out "message: late"; Err "later"]))
      (Ref.server Ref.s1) in
  fst r = Normal tt /\
  received 0 (snd r) =
    Some (200, RunBody "Script has executed successfully!"
                 "args: x boomdone" "boom").
Proof.
  apply (run_replies_with_captured_output (Ref.server Ref.s1) Ref.post_s1 Ref.s1
           [Out "args: x "; Err "boom"; Out "done"]
           [Out "message: late"; Err "later"]); reflexivity.
Defined.

(** X5.  A run request for a script whose webhook flag is off is answered
    400, and the handler goes on as for an enabled script: the child is
    spawned with the listeners of the request, and when it exits the
    reply of the exit listener finds the response already sent and
    throws. *)
Theorem run_disabled_throws_on_exit w req c cs :
  find_script (params_script req) (scripts w) = Some c ->
  truthy (webhook c) = false ->
  strict_eq_str (runtime c) "nodejs" = true ->
  let p := length (procs w) in
  let r0 := serve run req w in
  let r := run_events (map (chunk_event p) cs ++ [ProcExit p]) (snd r0) in
  fst r0 = Normal tt /\
  received (length (resps w)) (snd r0) =
    Some (400, MessageBody "The requested script does not have webhooks enabled.") /\
  procs (snd r0) =
    procs w ++ [run_child c (flatten_query (query req))
                  (JStr (body_json req)) (length (runs w))] /\
  fst r = Throw (SystemError "ERR_HTTP_HEADERS_SENT") /\
  received (length (resps w)) (snd r) =
    Some (400, MessageBody "The requested script does not have webhooks enabled.").
Proof.
  intros Hfind Hwh Hrt.
  destruct (run_starts w req c Hfind Hrt) as (w1 & Hserve & Hp & Haw).
  rewrite Hwh in Haw.
  destruct (awaiting_feed _ _ _ _ cs w1 _ _ Haw) as (w2 & Hrun & Haw2).
  pose proof (awaiting_exit _ _ _ _ _ _ _ Haw2) as Hexit. cbn in Hexit.
  destruct Hexit as (w3 & Hstep & Hres).
  cbn zeta. rewrite Hserve. cbn [fst snd].
  rewrite (run_events_app _ _ _ _ Hrun). cbn [run_events].
  unfold mbind, M_bind. rewrite Hstep. cbn [fst snd].
  destruct Haw as (_ & _ & Hr1). destruct Haw2 as (_ & _ & Hr2).
  unfold received. rewrite Hres, Hr1, Hr2. now repeat split.
Qed.

Lemma run_disabled_throws_on_exit_witness :
  let r0 := serve run Ref.post_s1 (Ref.server Ref.s1_closed) in
  let r := run_events (map (chunk_event 0) [Out "hello"] ++ [ProcExit 0]) (snd r0) in
  fst r0 = Normal tt /\
  received 0 (snd r0) =
    Some (400, MessageBody "The requested script does not have webhooks enabled.") /\
  procs (snd r0) =
    [run_child Ref.s1_closed (flatten_query (query Ref.post_s1))
       (JStr (body_json Ref.post_s1)) 0] /\
  fst r = Throw (SystemError "ERR_HTTP_HEADERS_SENT") /\
  received 0 (snd r) =
    Some (400, MessageBody "The requested script does not have webhooks enabled.").
Proof.
  apply (run_disabled_throws_on_exit (Ref.server Ref.s1_closed) Ref.post_s1
           Ref.s1_closed [Out "hello"]); reflexivity.
Defined.

(** ** Registration *)

(** The handler up to the write of the descriptor, when the directory is
    new and the code, if it is needed, is a string. *)
Lemma ui_new_reaches_entry valid hat now req w code :
  hat ∉ dirs w ->
  (strict_eq_str (field req "runtime") "nodejs" = true ->
   field req "code" = JStr code) ->
  let w0 :=
    with_dirs (fun l => l ++ [hat])
      (with_resps (fun l => l ++ [{| statusCode := 200; sent := None |}]) w) in
  invoke (ui_new valid hat now) req w =
    register_entry valid req (length (resps w)) (new_entry hat now req)
      (if strict_eq_str (field req "runtime") "nodejs"
       then with_files (insert (script_path hat "app.js") (Raw code)) w0
       else w0).
Proof.
  intros Hfresh Hcode.
  unfold invoke, res_new, ui_new, mkdirSync. unfold_m.
  cbn -[register_entry addCronTrigger res_send].
  rewrite bool_decide_eq_false_2 by exact Hfresh.
  cbn -[register_entry addCronTrigger res_send].
  unfold new_entry.
  destruct (strict_eq_str (field req "runtime") "nodejs") eqn:Hrt.
  - unfold writeFileSync. rewrite (Hcode eq_refl). reflexivity.
  - reflexivity.
Qed.

Lemma register_entry_ok valid req res e w :
  (truthy (field req "cron") = true -> valid (cronSchedule e) = true) ->
  resps w !! res = Some {| statusCode := 200; sent := None |} ->
  exists w' e',
    register_entry valid req res e w = (Normal tt, w') /\
    scripts w' = scripts w ++ [e'] /\
    e' = (if truthy (field req "cron")
          then set_cronTask (Some (length (crons w))) e else e) /\
    crons w' =
      crons w ++
      (if truthy (field req "cron")
       then [{| task_script := id e; task_schedule := cronSchedule e |}]
       else []) /\
    files w' = <[script_path (id e) ".cog" := Json e]> (files w) /\
    dirs w' = dirs w /\ procs w' = procs w /\
    received res w' = Some (200, IdBody (id e)).
Proof.
  intros Hvalid Hres.
  unfold register_entry, writeDescriptor. unfold_m.
  cbn -[addCronTrigger res_send].
  destruct (truthy (field req "cron")).
  - rewrite (addCronTrigger_last valid _ (scripts w) e) by reflexivity.
    rewrite (Hvalid eq_refl). cbn -[res_send].
    unfold res_send. unfold_m. cbn. rewrite Hres. cbn.
    eexists _, _. split; [reflexivity|]. cbn.
    unfold received. cbn. rewrite list_lookup_alter_eq, Hres.
    now repeat split.
  - cbn -[res_send].
    unfold res_send. unfold_m. cbn. rewrite Hres. cbn.
    eexists _, _. split; [reflexivity|]. cbn.
    unfold received. cbn. rewrite list_lookup_alter_eq, Hres.
    rewrite app_nil_r. now repeat split.
Qed.

Lemma find_script_app_fresh i l e :
  find_script i l = None -> id e = i -> find_script i (l ++ [e]) = Some e.
Proof.
  unfold find_script. intros Hnone Hid.
  induction l as [|x l IH]; cbn in *.
  - now rewrite Hid, String.eqb_refl.
  - destruct (String.eqb (id x) i); [discriminate | auto].
Qed.



Lemma register_entry_rejected valid req res e w :
  truthy (field req "cron") = true ->
  valid (cronSchedule e) = false ->
  register_entry valid req res e w =
    (Throw (SystemError "invalid cron expression"),
     with_scripts (fun l => l ++ [e])
       (with_files (insert (script_path (id e) ".cog") (Json e)) w)).
Proof.
  intros Hcron Hvalid.
  unfold register_entry, writeDescriptor. unfold_m.
  cbn -[addCronTrigger res_send]. rewrite Hcron.
  rewrite (addCronTrigger_last valid _ (scripts w) e) by reflexivity.
  now rewrite Hvalid.
Qed.

(** X10.  A registration that asks for cron with an accepted schedule
    adds one task to the scheduler, for the new id and the schedule of
    the form; the entry in the script list holds that task while the
    stored descriptor holds none.  A tick of the task then spawns a child
    of the new script on its [app.js] with the time of the tick and no
    message. *)
Theorem registered_cron_runs_script valid hat now req w code tick :
  hat ∉ dirs w ->
  find_script hat (scripts w) = None ->
  strict_eq_str (field req "runtime") "nodejs" = true ->
  field req "code" = JStr code ->
  truthy (field req "cron") = true ->
  valid (field req "cronSchedule") = true ->
  let w1 := snd (serve (ui_new valid hat now) req w) in
  let t := length (crons w) in
  crons w1 =
    crons w ++ [{| task_script := hat; task_schedule := field req "cronSchedule" |}] /\
  (exists e, find_script hat (scripts w1) = Some e /\ cronTask e = Some t) /\
  (exists d, files w1 !! script_path hat ".cog" = Some (Json d) /\
             cronTask d = None) /\
  let r := step (CronFired t tick) w1 in
  fst r = Normal tt /\
  exists ch,
    procs (snd r) = procs w ++ [ch] /\
    cogScriptId ch = hat /\
    argv ch = [script_path hat "app.js"; "--time=" +:+ pretty (tick `div` 1000)] /\
    message ch = JNull.
Proof.
  intros Hfresh Hnone Hrt Hcode Hcron Hvalid.
  cbn zeta.
  rewrite serve_of_invoke.
  rewrite (ui_new_reaches_entry valid hat now req w code Hfresh (fun _ => Hcode)).
  rewrite Hrt.
  match goal with |- context [register_entry _ _ _ _ ?w0] =>
    destruct (register_entry_ok valid req (length (resps w))
                (new_entry hat now req) w0 (fun _ => Hvalid))
      as (w' & e' & Hrun & Hs & He & Hc & Hf & Hd & Hp & Hrec)
  end.
  { cbn. apply lookup_last. }
  rewrite Hrun. cbn [snd].
  rewrite Hcron in He, Hc. cbn in Hs, Hc, Hp.
  assert (Hfind : find_script hat (scripts w') = Some e').
  { rewrite Hs. apply find_script_app_fresh; [exact Hnone|]. now rewrite He. }
  split; [exact Hc|].
  split; [exists e'; split; [exact Hfind | now rewrite He]|].
  split.
  { eexists. split; [rewrite Hf; apply lookup_insert_eq | reflexivity]. }
  unfold step. unfold_m. rewrite Hc, lookup_last. cbn -[runScript].
  unfold cron_callback. unfold_m. cbn -[runScript].
  assert (Hfind' : find_script hat
            (scripts
               (with_console
                  (fun l => l ++ [(Log, "Running cog script " +:+ hat
                                          +:+ " from cron schedule")]) w'))
            = Some e') by exact Hfind.
  assert (Hrt' : strict_eq_str (runtime e') "nodejs" = true)
    by (rewrite He; exact Hrt).
  rewrite (runScript_nodejs _ _ _ _ _ Hfind' Hrt'). cbn.
  split; [reflexivity|].
  eexists. split; [now rewrite Hp|].
  rewrite He. unfold argv. cbn. rewrite Hrt. now repeat split.
Qed.

Lemma registered_cron_runs_script_witness :
  let w1 := snd (serve (ui_new RefNew.accept_all "beef" 1700000000123)
                   RefForms.cron_form (Ref.server Ref.s1)) in
  crons w1 = [{| task_script := "beef"; task_schedule := JStr "* * * * *" |}] /\
  (exists e, find_script "beef" (scripts w1) = Some e /\ cronTask e = Some 0%nat) /\
  (exists d, files w1 !! script_path "beef" ".cog" = Some (Json d) /\
             cronTask d = None) /\
  let r := step (CronFired 0 1700000060999) w1 in
  fst r = Normal tt /\
  exists ch,
    procs (snd r) = [ch] /\
    cogScriptId ch = "beef" /\
    argv ch = [script_path "beef" "app.js"; "--time=" +:+ pretty 1700000060] /\
    message ch = JNull.
Proof.
  apply (registered_cron_runs_script RefNew.accept_all "beef" 1700000000123
           RefForms.cron_form (Ref.server Ref.s1) "console.log(2)" 1700000060999).
  - intros H. apply list_elem_of_In in H. cbn in H. destruct H as [H|[]].
    discriminate H.
  - reflexivity.
  - reflexivity.
  - reflexivity.
  - reflexivity.
  - reflexivity.
Defined.

(** X11.  A registration that asks for cron with a schedule the scheduler
    rejects throws after the script is stored and listed: the descriptor
    and the code are on disk and the id is found in the script list, but
    no task exists, and instead of the id the client receives the page
    of the error handler, with status 500. *)
Theorem rejected_schedule_leaves_script valid hat now req w code :
  hat ∉ dirs w ->
  find_script hat (scripts w) = None ->
  (strict_eq_str (field req "runtime") "nodejs" = true ->
   field req "code" = JStr code) ->
  truthy (field req "cron") = true ->
  valid (field req "cronSchedule") = false ->
  let r := serve (ui_new valid hat now) req w in
  fst (invoke (ui_new valid hat now) req w) =
    Throw (SystemError "invalid cron expression") /\
  fst r = Normal tt /\
  received (length (resps w)) (snd r) =
    Some (500, ErrorPage (SystemError "invalid cron expression")) /\
  scripts (snd r) = scripts w ++ [new_entry hat now req] /\
  find_script hat (scripts (snd r)) = Some (new_entry hat now req) /\
  files (snd r) !! script_path hat ".cog" = Some (Json (new_entry hat now req)) /\
  (strict_eq_str (field req "runtime") "nodejs" = true ->
   files (snd r) !! script_path hat "app.js" = Some (Raw code)) /\
  crons (snd r) = crons w.
Proof.
  intros Hfresh Hnone Hcode Hcron Hvalid.
  cbn zeta. rewrite serve_of_invoke.
  rewrite (ui_new_reaches_entry valid hat now req w code Hfresh Hcode).
  rewrite register_entry_rejected by assumption.
  cbn [fst snd]. split; [reflexivity|].
  unfold finalhandler. unfold_m.
  destruct (strict_eq_str (field req "runtime") "nodejs"); cbn.
  all: rewrite lookup_last; cbn.
  all: unfold received; cbn; rewrite alter_last, lookup_last; cbn.
  all: repeat split; try apply lookup_insert_eq; try discriminate.
  all: try (now apply find_script_app_fresh).
  intros _. rewrite lookup_insert_ne; [apply lookup_insert_eq|].
  intros H. apply script_path_inj in H. discriminate.
Qed.

Lemma rejected_schedule_leaves_script_witness :
  let r := serve (ui_new RefForms.reject_all "beef" 1700000000123)
             RefForms.cron_form (Ref.server Ref.s1) in
  fst (invoke (ui_new RefForms.reject_all "beef" 1700000000123)
         RefForms.cron_form (Ref.server Ref.s1)) =
    Throw (SystemError "invalid cron expression") /\
  fst r = Normal tt /\
  received 0 (snd r) =
    Some (500, ErrorPage (SystemError "invalid cron expression")) /\
  scripts (snd r) =
    [Ref.s1; new_entry "beef" 1700000000123 RefForms.cron_form] /\
  find_script "beef" (scripts (snd r)) =
    Some (new_entry "beef" 1700000000123 RefForms.cron_form) /\
  files (snd r) !! script_path "beef" ".cog" =
    Some (Json (new_entry "beef" 1700000000123 RefForms.cron_form)) /\
  files (snd r) !! script_path "beef" "app.js" = Some (Raw "console.log(2)") /\
  crons (snd r) = [].
Proof.
  destruct (rejected_schedule_leaves_script RefForms.reject_all "beef"
              1700000000123 RefForms.cron_form (Ref.server Ref.s1)
              "console.log(2)")
    as (H1 & H2 & H3 & H4 & H5 & H6 & H7 & H8).
  - intros H. apply list_elem_of_In in H. cbn in H. destruct H as [H|[]].
    discriminate H.
  - reflexivity.
  - reflexivity.
  - reflexivity.
  - reflexivity.
  - repeat (split; [assumption|]). split; [now apply H7 | exact H8].
Defined.

(** X12.  A registration for nodejs whose [code] is not a string throws
    on the write of the entrypoint: the directory of the new id exists,
    but no file is written, the script list and the scheduler are
    unchanged, and the client receives the page of the error handler,
    with status 500. *)
Theorem registration_without_code_leaves_directory valid hat now req w :
  hat ∉ dirs w ->
  strict_eq_str (field req "runtime") "nodejs" = true ->
  (forall s, field req "code" <> JStr s) ->
  let r := serve (ui_new valid hat now) req w in
  fst (invoke (ui_new valid hat now) req w) =
    Throw (TypeError "ERR_INVALID_ARG_TYPE") /\
  fst r = Normal tt /\
  received (length (resps w)) (snd r) =
    Some (500, ErrorPage (TypeError "ERR_INVALID_ARG_TYPE")) /\
  dirs (snd r) = dirs w ++ [hat] /\
  files (snd r) = files w /\
  scripts (snd r) = scripts w /\
  crons (snd r) = crons w /\
  procs (snd r) = procs w.
Proof.
  intros Hfresh Hrt Hcode.
  cbn zeta. rewrite serve_of_invoke.
  unfold invoke, res_new, ui_new, mkdirSync. unfold_m.
  cbn -[addCronTrigger res_send].
  rewrite bool_decide_eq_false_2 by exact Hfresh.
  cbn -[addCronTrigger res_send]. rewrite Hrt.
  unfold writeFileSync.
  destruct (field req "code") eqn:Hc; try (now destruct (Hcode _ eq_refl)).
  all: cbn; split; [reflexivity|].
  all: unfold finalhandler; unfold_m; cbn; rewrite lookup_last; cbn.
  all: unfold received; cbn; rewrite alter_last, lookup_last; now repeat split.
Qed.

Lemma registration_without_code_leaves_directory_witness :
  let w := Ref.server Ref.s1 in
  let r := serve (ui_new RefNew.accept_all "beef" 1700000000123)
             RefForms.no_code w in
  fst (invoke (ui_new RefNew.accept_all "beef" 1700000000123)
         RefForms.no_code w) =
    Throw (TypeError "ERR_INVALID_ARG_TYPE") /\
  fst r = Normal tt /\
  received 0 (snd r) =
    Some (500, ErrorPage (TypeError "ERR_INVALID_ARG_TYPE")) /\
  dirs (snd r) = ["s1"; "beef"] /\
  files (snd r) = files w /\
  scripts (snd r) = scripts w /\
  crons (snd r) = crons w /\
  procs (snd r) = procs w.
Proof.
  apply (registration_without_code_leaves_directory RefNew.accept_all "beef"
           1700000000123 RefForms.no_code (Ref.server Ref.s1)).
  - intros H. apply list_elem_of_In in H. cbn in H. destruct H as [H|[]].
    discriminate H.
  - reflexivity.
  - intros s H. discriminate H.
Defined.

(** X13.  A registration under an id whose directory exists throws on
    [mkdirSync] before anything is written: directory listing, files,
    script list and scheduler are unchanged, and the client receives the
    page of the error handler, with status 500. *)
Theorem registration_on_existing_directory_changes_nothing valid hat now req w :
  hat ∈ dirs w ->
  let r := serve (ui_new valid hat now) req w in
  fst (invoke (ui_new valid hat now) req w) = Throw (SystemError "EEXIST") /\
  fst r = Normal tt /\
  received (length (resps w)) (snd r) =
    Some (500, ErrorPage (SystemError "EEXIST")) /\
  static w (snd r) /\
  procs (snd r) = procs w.
Proof.
  intros Hin.
  cbn zeta. rewrite serve_of_invoke.
  unfold invoke, res_new, ui_new, mkdirSync. unfold_m.
  cbn -[addCronTrigger res_send].
  rewrite bool_decide_eq_true_2 by exact Hin.
  cbn. split; [reflexivity|].
  unfold finalhandler. unfold_m. cbn. rewrite lookup_last. cbn.
  unfold received; cbn; rewrite alter_last, lookup_last. now repeat split.
Qed.

Lemma registration_on_existing_directory_changes_nothing_witness :
  let w := Ref.server Ref.s1 in
  let r := serve (ui_new RefNew.accept_all "s1" 1700000000123) RefNew.form w in
  fst (invoke (ui_new RefNew.accept_all "s1" 1700000000123) RefNew.form w) =
    Throw (SystemError "EEXIST") /\
  fst r = Normal tt /\
  received 0 (snd r) = Some (500, ErrorPage (SystemError "EEXIST")) /\
  static w (snd r) /\
  procs (snd r) = procs w.
Proof.
  apply (registration_on_existing_directory_changes_nothing RefNew.accept_all
           "s1" 1700000000123 RefNew.form (Ref.server Ref.s1)).
  apply list_elem_of_In. cbn. now left.
Defined.

(** ** Update *)

(** X14.  An update of a registered script whose [code] is not a string
    throws on the write: no file and no descriptor changes, and the
    client receives the page of the error handler, with status 500. *)
Theorem update_without_code_writes_nothing w req c :
  find_script (params_script req) (scripts w) = Some c ->
  (forall s, field req "code" <> JStr s) ->
  let r := serve ui_update req w in
  fst (invoke ui_update req w) = Throw (TypeError "ERR_INVALID_ARG_TYPE") /\
  fst r = Normal tt /\
  received (length (resps w)) (snd r) =
    Some (500, ErrorPage (TypeError "ERR_INVALID_ARG_TYPE")) /\
  static w (snd r) /\
  procs (snd r) = procs w.
Proof.
  intros Hfind Hcode.
  cbn zeta. rewrite serve_of_invoke.
  unfold invoke, res_new, ui_update. unfold_m. cbn -[find_script].
  rewrite Hfind. unfold writeFileSync.
  destruct (field req "code") eqn:Hc; try (now destruct (Hcode _ eq_refl)).
  all: cbn; split; [reflexivity|].
  all: unfold finalhandler; unfold_m; cbn; rewrite lookup_last; cbn.
  all: unfold received; cbn; rewrite alter_last, lookup_last; now repeat split.
Qed.

Lemma update_without_code_writes_nothing_witness :
  let w := Ref.server Ref.s1 in
  let r := serve ui_update RefForms.update_no_code w in
  fst (invoke ui_update RefForms.update_no_code w) =
    Throw (TypeError "ERR_INVALID_ARG_TYPE") /\
  fst r = Normal tt /\
  received 0 (snd r) =
    Some (500, ErrorPage (TypeError "ERR_INVALID_ARG_TYPE")) /\
  static w (snd r) /\
  procs (snd r) = procs w.
Proof.
  apply (update_without_code_writes_nothing (Ref.server Ref.s1)
           RefForms.update_no_code Ref.s1).
  - reflexivity.
  - intros s H. discriminate H.
Defined.

(** ** The startup load, continued *)

Lemma reload_rejected valid parse bad rest w err kept :
  rejected valid parse (files w !! script_path bad ".cog") = Some (err, kept) ->
  exists w',
    reload valid parse (bad :: rest) w = (Throw err, w') /\
    files w' = files w /\ scripts w' = scripts w ++ kept /\
    console w' = console w.
Proof.
  unfold rejected. cbn [reload]. unfold_m.
  destruct (files w !! script_path bad ".cog") as [f|]; [|discriminate].
  unfold lift.
  destruct f as [text|c]; cbn [descriptor_of JSON_parse].
  - destruct (parse text) as [c|].
    + destruct (truthy (cron c)) eqn:Hc; [|discriminate].
      destruct (valid (cronSchedule c)) eqn:Hv; [discriminate|].
      intros [= <- <-]. cbn -[reload addCronTrigger]. rewrite ?Hc.
      rewrite (addCronTrigger_last valid _ (scripts w) c) by reflexivity.
      rewrite Hv. eexists. split; [reflexivity|]. now repeat split.
    + intros [= <- <-]. exists w. cbn. rewrite app_nil_r. now repeat split.
  - destruct (truthy (cron c)) eqn:Hc; [|discriminate].
    destruct (valid (cronSchedule c)) eqn:Hv; [discriminate|].
    intros [= <- <-]. cbn -[reload addCronTrigger]. rewrite ?Hc.
    rewrite (addCronTrigger_last valid _ (scripts w) c) by reflexivity.
    rewrite Hv. eexists. split; [reflexivity|]. now repeat split.
Qed.

Lemma reload_stops valid parse good bad rest : forall w err kept,
  Forall (fun n => loadable valid parse (files w !! script_path n ".cog")) good ->
  rejected valid parse (files w !! script_path bad ".cog") = Some (err, kept) ->
  exists w',
    reload valid parse (good ++ bad :: rest) w = (Throw err, w') /\
    files w' = files w /\
    map (set_cronTask None) (scripts w') =
      map (set_cronTask None)
        (scripts w ++ stored parse (files w) good ++ kept).
Proof.
  induction good as [|n good IH]; intros w err kept Hgood Hbad.
  - destruct (reload_rejected valid parse bad rest w err kept Hbad)
      as (w' & Hrun & Hf & Hs & Hc).
    exists w'. split; [exact Hrun|]. split; [exact Hf|]. now rewrite Hs.
  - apply Forall_cons in Hgood as [Hn Hgood]. cbn [app].
    destruct (files w !! script_path n ".cog") as [f|] eqn:Hfile.
    + unfold loadable in Hn.
      destruct (descriptor_of parse (Some f)) as [c|] eqn:Hdesc; [|destruct Hn].
      destruct (reload_loads valid parse n (good ++ bad :: rest) w f c
                  Hfile Hdesc Hn)
        as (w1 & c1 & -> & Hf1 & _ & _ & Hs1 & He1 & _).
      destruct (IH w1 err kept) as (w' & Hrun & Hf' & Hs').
      { rewrite Hf1. exact Hgood. }
      { rewrite Hf1. exact Hbad. }
      exists w'. split; [exact Hrun|]. split; [congruence|].
      rewrite Hs', Hf1, Hs1.
      rewrite (stored_cons_desc parse (files w) n good c)
        by (now rewrite Hfile).
      rewrite <- !app_assoc. cbn -[stored]. rewrite !map_app.
      cbn -[stored]. now rewrite He1.
    + rewrite (reload_skips valid parse n (good ++ bad :: rest) w Hfile).
      destruct (IH (with_console (fun l => l ++ [skip_line n]) w) err kept)
        as (w' & Hrun & Hf' & Hs').
      { exact Hgood. }
      { exact Hbad. }
      exists w'. split; [exact Hrun|]. split; [exact Hf'|].
      rewrite Hs'. cbn -[stored].
      now rewrite (stored_cons_none parse (files w) n good)
        by (now rewrite Hfile).
Qed.

(** X15.  The startup load stops at the first directory entry whose
    descriptor file [JSON.parse] rejects, or whose descriptor asks for
    cron with a schedule the scheduler rejects: the callback throws
    there, the descriptors before it are in the script list (followed by
    the rejected one, when it parsed), no file is changed, and no entry
    after it is looked at. *)
Theorem startup_load_stops_at_first_rejected valid parse w good bad rest err kept :
  dirs w = good ++ bad :: rest ->
  Forall (fun n => loadable valid parse (files w !! script_path n ".cog")) good ->
  rejected valid parse (files w !! script_path bad ".cog") = Some (err, kept) ->
  let r := listen_callback valid parse w in
  fst r = Throw err /\
  files (snd r) = files w /\
  map (set_cronTask None) (scripts (snd r)) =
    map (set_cronTask None) (scripts w ++ stored parse (files w) good ++ kept).
Proof.
  intros Hdirs Hgood Hbad. unfold listen_callback. unfold_m. cbn -[reload].
  rewrite Hdirs.
  set (w0 := with_console _ w).
  destruct (reload_stops valid parse good bad rest w0 err kept Hgood Hbad)
    as (w' & Hrun & Hf & Hs).
  rewrite Hrun. cbn. now repeat split.
Qed.

Lemma startup_load_stops_at_first_rejected_witness :
  let w := RefDisk.broken_middle in
  let r := listen_callback RefNew.accept_all RefDisk.cut_short w in
  fst r = Throw (SyntaxError "JSON.parse") /\
  files (snd r) = files w /\
  map (set_cronTask None) (scripts (snd r)) =
    map (set_cronTask None) [RefDisk.b].
Proof.
  apply (startup_load_stops_at_first_rejected RefNew.accept_all
           RefDisk.cut_short RefDisk.broken_middle ["b"] "a" ["c"]).
  - reflexivity.
  - constructor; [vm_compute; intros _; reflexivity | constructor].
  - reflexivity.
Defined.

(** ** Registration and restart *)

Lemma script_path_eq i j a b :
  no_slash i -> no_slash j ->
  script_path i a = script_path j b -> i = j /\ a = b.
Proof.
  intros Hi Hj H.
  assert (i = j) as ->.
  { apply (script_dir_disjoint i j b Hi Hj). rewrite <- H.
    apply prefix_script_dir. }
  split; [reflexivity|]. now apply script_path_inj in H.
Qed.

(** What a registration that gets past the write of the code leaves on
    disk, whether or not the schedule is accepted afterwards. *)
Lemma ui_new_disk valid hat now req w code :
  hat ∉ dirs w ->
  (strict_eq_str (field req "runtime") "nodejs" = true ->
   field req "code" = JStr code) ->
  let w1 := snd (serve (ui_new valid hat now) req w) in
  dirs w1 = dirs w ++ [hat] /\
  files w1 =
    <[script_path hat ".cog" := Json (new_entry hat now req)]>
      (if strict_eq_str (field req "runtime") "nodejs"
       then <[script_path hat "app.js" := Raw code]> (files w)
       else files w).
Proof.
  intros Hfresh Hcode. cbn zeta.
  destruct (serve_state (ui_new valid hat now) req w) as (_ & -> & -> & _).
  rewrite (ui_new_reaches_entry valid hat now req w code Hfresh Hcode).
  destruct (truthy (field req "cron")) eqn:Hcron.
  - destruct (valid (field req "cronSchedule")) eqn:Hvalid.
    + match goal with |- context [register_entry _ _ _ _ ?w0] =>
        destruct (register_entry_ok valid req (length (resps w))
                    (new_entry hat now req) w0 (fun _ => Hvalid))
          as (w' & e' & Hrun & _ & _ & _ & Hf & Hd & _)
      end.
      { destruct (strict_eq_str (field req "runtime") "nodejs"); cbn;
          apply lookup_last. }
      rewrite Hrun. cbn [snd]. rewrite Hf, Hd.
      now destruct (strict_eq_str (field req "runtime") "nodejs").
    + rewrite register_entry_rejected by assumption. cbn [snd].
      now destruct (strict_eq_str (field req "runtime") "nodejs").
  - match goal with |- context [register_entry _ _ _ _ ?w0] =>
      destruct (register_entry_ok valid req (length (resps w))
                  (new_entry hat now req) w0)
        as (w' & e' & Hrun & _ & _ & _ & Hf & Hd & _)
    end.
    { congruence. }
    { destruct (strict_eq_str (field req "runtime") "nodejs"); cbn;
        apply lookup_last. }
    rewrite Hrun. cbn [snd]. rewrite Hf, Hd.
    now destruct (strict_eq_str (field req "runtime") "nodejs").
Qed.

(** The descriptors of the other scripts are as they were. *)
Lemma ui_new_keeps_descriptors valid hat now req w code n :
  hat ∉ dirs w ->
  (strict_eq_str (field req "runtime") "nodejs" = true ->
   field req "code" = JStr code) ->
  no_slash hat -> no_slash n -> n <> hat ->
  files (snd (serve (ui_new valid hat now) req w)) !! script_path n ".cog" =
    files w !! script_path n ".cog".
Proof.
  intros Hfresh Hcode Hhat Hn Hne.
  destruct (ui_new_disk valid hat now req w code Hfresh Hcode) as [_ ->].
  rewrite lookup_insert_ne.
  - destruct (strict_eq_str (field req "runtime") "nodejs"); [|reflexivity].
    apply lookup_insert_ne.
    intros H. apply script_path_eq in H as [_ H]; [discriminate| |]; assumption.
  - intros H. apply script_path_eq in H as [H _]; [congruence| |]; assumption.
Qed.



(** X17.  A registration whose schedule is rejected breaks every later
    start.  The handler throws, but its descriptor is on disk with cron
    switched on, so the startup load of a new process throws at it, in
    whatever order the directory is listed, although every other
    descriptor loads. *)
Theorem rejected_schedule_breaks_restart valid parse hat now req w code names :
  hat ∉ dirs w ->
  no_slash hat ->
  Forall no_slash (dirs w) ->
  (strict_eq_str (field req "runtime") "nodejs" = true ->
   field req "code" = JStr code) ->
  truthy (field req "cron") = true ->
  valid (field req "cronSchedule") = false ->
  Forall (fun n => loadable valid parse (files w !! script_path n ".cog")) (dirs w) ->
  let w1 := snd (serve (ui_new valid hat now) req w) in
  names ≡ₚ dirs w1 ->
  fst (invoke (ui_new valid hat now) req w) =
    Throw (SystemError "invalid cron expression") /\
  fst (listen_callback valid parse (restart names w1)) =
    Throw (SystemError "invalid cron expression").
Proof.
  intros Hfresh Hhat Hslash Hcode Hcron Hvalid Hload. cbn zeta. intros Hperm.
  rewrite (proj1 (ui_new_disk valid hat now req w code Hfresh Hcode)) in Hperm.
  split.
  { rewrite (ui_new_reaches_entry valid hat now req w code Hfresh Hcode).
    now rewrite register_entry_rejected by assumption. }
  set (w1 := snd (serve (ui_new valid hat now) req w)).
  assert (Hnew : files w1 !! script_path hat ".cog" =
                 Some (Json (new_entry hat now req))).
  { subst w1.
    destruct (ui_new_disk valid hat now req w code Hfresh Hcode) as [_ ->].
    apply lookup_insert_eq. }
  assert (Hin : hat ∈ names).
  { rewrite Hperm. apply elem_of_app. right. apply elem_of_cons. now left. }
  apply list_elem_of_split_l in Hin as (good & rest & -> & Hfirst).
  unfold listen_callback. unfold_m. cbn -[reload].
  match goal with |- context [reload valid parse _ ?w0] =>
    destruct (reload_stops valid parse good hat rest w0
                (SystemError "invalid cron expression") [new_entry hat now req])
      as (w' & Hrun & _)
  end.
  { cbn. apply Forall_forall. intros n Hn.
    assert (Hne : n <> hat) by (intros ->; contradiction).
    assert (Hold : n ∈ dirs w).
    { assert (Hn' : n ∈ dirs w ++ [hat]).
      { rewrite <- Hperm. apply elem_of_app. now left. }
      apply elem_of_app in Hn' as [Hn'|Hn']; [exact Hn'|].
      apply list_elem_of_singleton in Hn'. contradiction. }
    subst w1. rewrite (ui_new_keeps_descriptors valid hat now req w code n);
      try assumption.
    - rewrite Forall_forall in Hload. now apply Hload.
    - rewrite Forall_forall in Hslash. now apply Hslash. }
  { cbn. rewrite Hnew. unfold rejected. cbn. now rewrite Hcron, Hvalid. }
  now rewrite Hrun.
Qed.

Lemma rejected_schedule_breaks_restart_witness :
  let w1 := snd (serve (ui_new RefForms.reject_all "beef" 1700000000123)
                   RefForms.cron_form (Ref.server Ref.s1)) in
  fst (invoke (ui_new RefForms.reject_all "beef" 1700000000123)
         RefForms.cron_form (Ref.server Ref.s1)) =
    Throw (SystemError "invalid cron expression") /\
  fst (listen_callback RefForms.reject_all RefDisk.cut_short
         (restart ["beef"; "s1"] w1)) =
    Throw (SystemError "invalid cron expression").
Proof.
  apply (rejected_schedule_breaks_restart RefForms.reject_all
           RefDisk.cut_short "beef" 1700000000123 RefForms.cron_form
           (Ref.server Ref.s1) "console.log(2)").
  - intros H. apply list_elem_of_In in H. cbn in H. destruct H as [H|[]].
    discriminate H.
  - reflexivity.
  - constructor; [reflexivity | constructor].
  - intros _. reflexivity.
  - reflexivity.
  - reflexivity.
  - constructor; [vm_compute; intros H; discriminate H | constructor].
  - apply perm_swap.
Defined.

(** ** The gate of the UI *)

Lemma lacks_empty sep : lacks sep EmptyString.
Proof. reflexivity. Qed.

Lemma lacks_cons sep ch s :
  lacks sep (String ch s) <-> ch <> sep /\ lacks sep s.
Proof.
  unfold lacks. rewrite includes_cons, prefix_cons, prefix_empty.
  destruct (ascii_dec sep ch) as [<-|Hne].
  - split; [discriminate | intros [H _]; now destruct H].
  - split; [intros H; split; [congruence | exact H] | now intros [_ H]].
Qed.

Lemma split_pieces_lack sep s : Forall (lacks sep) (split sep s).
Proof.
  induction s as [|ch s IH]; cbn.
  - constructor; [apply lacks_empty | constructor].
  - destruct (Ascii.eqb ch sep) eqn:Hch.
    + constructor; [apply lacks_empty | exact IH].
    + apply Ascii.eqb_neq in Hch.
      destruct (split sep s) as [|piece rest].
      * constructor; [|constructor].
        apply lacks_cons. split; [exact Hch | apply lacks_empty].
      * apply Forall_cons in IH as [Hp Hr].
        constructor; [|exact Hr]. apply lacks_cons. now split.
Qed.

Lemma split_lacks sep a : lacks sep a -> split sep a = [a].
Proof.
  induction a as [|ch a IH]; intros H; [reflexivity|].
  apply lacks_cons in H as [Hch Ha]. cbn.
  apply Ascii.eqb_neq in Hch. rewrite Hch. now rewrite (IH Ha).
Qed.

Lemma split_app sep a b :
  lacks sep a -> split sep (a +:+ String sep b) = a :: split sep b.
Proof.
  induction a as [|ch a IH]; intros H.
  - change (EmptyString +:+ String sep b) with (String sep b). cbn.
    now rewrite Ascii.eqb_refl.
  - apply lacks_cons in H as [Hch Ha].
    rewrite append_cons. cbn.
    apply Ascii.eqb_neq in Hch. rewrite Hch. now rewrite (IH Ha).
Qed.

Lemma auth_password_nonempty secret :
  String.eqb (auth_password secret) EmptyString = false.
Proof.
  unfold auth_password. destruct secret as [s|]; [|reflexivity].
  destruct (String.eqb s EmptyString) eqn:H; [reflexivity | exact H].
Qed.

(** X18.  A secret that contains a colon locks everyone out: the gate
    compares it with a piece of the decoded header cut at the colons, and
    no such piece holds one, so no header whatever is accepted. *)
Theorem secret_with_colon_locks_out base64 secret authorization :
  includes secret ":" = true ->
  ui_auth base64 (Some secret) authorization = false.
Proof.
  intros Hcolon. unfold ui_auth. cbn zeta.
  destruct (credentials base64 authorization !! 1%nat) as [pw|] eqn:Hpw;
    cbn [of_piece from_option]; [|cbn; now rewrite !andb_false_r].
  assert (Hlack : lacks ":" pw).
  { pose proof (split_pieces_lack ":" (base64
      (or_empty (split " " (or_empty authorization) !! 1%nat)))) as Hall.
    rewrite Forall_forall in Hall. apply Hall.
    eapply list_elem_of_lookup_2. exact Hpw. }
  assert (Hsecret : auth_password (Some secret) = secret).
  { unfold auth_password. destruct (String.eqb secret EmptyString) eqn:He;
      [|reflexivity].
    apply String.eqb_eq in He. subst secret. discriminate Hcolon. }
  rewrite Hsecret. cbn [strict_eq_str].
  destruct (String.eqb pw secret) eqn:He; [|now rewrite !andb_false_r].
  apply String.eqb_eq in He. subst pw.
  unfold lacks in Hlack. congruence.
Qed.

Lemma secret_with_colon_locks_out_witness :
  ui_auth plain (Some "a:b") (Some "Basic admin:a:b") = false.
Proof.
  apply (secret_with_colon_locks_out plain "a:b" (Some "Basic admin:a:b")).
  reflexivity.
Defined.

(** X19.  What the gate checks of a header of two words.  When the second
    word decodes to [admin:], a password without colon and then nothing
    or a colon and anything, the header is accepted exactly if the
    password is the secret ([cogui] when none is configured): the first
    word, the scheme, is not looked at, and what follows a second colon
    is ignored. *)
Theorem gate_checks_login_and_password base64 secret scheme payload pw tail :
  lacks " " scheme ->
  lacks " " payload ->
  lacks ":" pw ->
  base64 payload = "admin" +:+ String ":" (pw +:+ tail) ->
  tail = EmptyString \/ (exists t, tail = String ":" t) ->
  ui_auth base64 secret (Some (scheme +:+ String " " payload)) =
    String.eqb pw (auth_password secret).
Proof.
  intros Hscheme Hpayload Hpw Hdecode Htail.
  unfold ui_auth, credentials. cbn zeta.
  change (or_empty (Some (scheme +:+ String " " payload)))
    with (scheme +:+ String " " payload).
  rewrite (split_app " " scheme payload Hscheme).
  rewrite (split_lacks " " payload Hpayload).
  change (or_empty ([scheme; payload] !! 1%nat)) with payload.
  rewrite Hdecode.
  rewrite (split_app ":" "admin" (pw +:+ tail) eq_refl).
  assert (Hsecond : (split ":" (pw +:+ tail)) !! 0%nat = Some pw).
  { destruct Htail as [->|(t & ->)].
    - now rewrite append_empty_r, (split_lacks ":" pw Hpw).
    - now rewrite (split_app ":" pw t Hpw). }
  change (("admin" :: split ":" (pw +:+ tail)) !! 0%nat) with (Some "admin").
  change (("admin" :: split ":" (pw +:+ tail)) !! 1%nat)
    with (split ":" (pw +:+ tail) !! 0%nat).
  rewrite Hsecond. cbn [of_piece from_option truthy strict_eq_str].
  change (String.eqb "admin" "admin") with true.
  change (String.eqb "admin" EmptyString) with false.
  cbn [negb andb].
  destruct (String.eqb pw EmptyString) eqn:He; [|reflexivity].
  apply String.eqb_eq in He. subst pw. cbn [negb andb].
  symmetry. rewrite String.eqb_sym. apply auth_password_nonempty.
Qed.

Lemma gate_checks_login_and_password_witness :
  ui_auth plain None (Some ("Bearer" +:+ String " " "admin:cogui:ignored")) =
    String.eqb "cogui" (auth_password None).
Proof.
  apply (gate_checks_login_and_password plain None "Bearer"
           "admin:cogui:ignored" "cogui" ":ignored").
  - reflexivity.
  - reflexivity.
  - reflexivity.
  - reflexivity.
  - right. exists "ignored". reflexivity.
Defined.

(** X20.  A request to the UI without an [Authorization] header, or with
    one of a single word, is refused: the reply is 401 with the text
    [Authentication required.] and the handler behind the gate is not
    run. *)
Theorem gate_refuses_without_credentials base64 secret authorization next w res :
  base64 EmptyString = EmptyString ->
  authorization = None \/
    (exists word, authorization = Some word /\ lacks " " word) ->
  resps w !! res = Some {| statusCode := 200; sent := None |} ->
  let r := ui_gate base64 secret authorization next res w in
  fst r = Normal tt /\
  received res (snd r) = Some (401, TextBody "Authentication required.") /\
  static w (snd r) /\
  procs (snd r) = procs w /\
  console (snd r) = console w.
Proof.
  intros Hempty Hheader Hres.
  assert (Hauth : ui_auth base64 secret authorization = false).
  { unfold ui_auth, credentials. cbn zeta.
    assert (Hb : or_empty (split " " (or_empty authorization) !! 1%nat)
                 = EmptyString).
    { destruct Hheader as [->|(word & -> & Hword)]; [reflexivity|].
      change (or_empty (Some word)) with word.
      now rewrite (split_lacks " " word Hword). }
    rewrite Hb, Hempty. reflexivity. }
  unfold ui_gate. rewrite Hauth.
  unfold res_status, res_send. unfold_m. cbn.
  rewrite list_lookup_alter_eq, Hres. cbn.
  unfold received. cbn. rewrite !list_lookup_alter_eq, Hres. cbn.
  now repeat split.
Qed.

Lemma gate_refuses_without_credentials_witness :
  let w := snd (res_new (Ref.server Ref.s1)) in
  let r := ui_gate plain None (Some "admin:cogui")
             (ui_update RefUpdate.post_code 0) 0 w in
  fst r = Normal tt /\
  received 0 (snd r) = Some (401, TextBody "Authentication required.") /\
  static w (snd r) /\
  procs (snd r) = procs w /\
  console (snd r) = console w.
Proof.
  apply (gate_refuses_without_credentials plain None (Some "admin:cogui")
           (ui_update RefUpdate.post_code 0) (snd (res_new (Ref.server Ref.s1))) 0).
  - reflexivity.
  - right. exists "admin:cogui". split; reflexivity.
  - reflexivity.
Defined.

(** ** The pages of a script *)

Lemma ui_new_ok valid hat now req w code :
  hat ∉ dirs w ->
  (strict_eq_str (field req "runtime") "nodejs" = true ->
   field req "code" = JStr code) ->
  (truthy (field req "cron") = true ->
   valid (field req "cronSchedule") = true) ->
  exists w1 t,
    serve (ui_new valid hat now) req w = (Normal tt, w1) /\
    scripts w1 = scripts w ++ [set_cronTask t (new_entry hat now req)] /\
    files w1 =
      <[script_path hat ".cog" := Json (new_entry hat now req)]>
        (if strict_eq_str (field req "runtime") "nodejs"
         then <[script_path hat "app.js" := Raw code]> (files w)
         else files w).
Proof.
  intros Hfresh Hcode Hvalid.
  pose proof (ui_new_disk valid hat now req w code Hfresh Hcode) as [_ Hfiles].
  revert Hfiles. rewrite serve_of_invoke.
  rewrite (ui_new_reaches_entry valid hat now req w code Hfresh Hcode).
  match goal with |- context [register_entry _ _ _ _ ?w0] =>
    destruct (register_entry_ok valid req (length (resps w))
                (new_entry hat now req) w0 Hvalid)
      as (w' & e' & Hrun & Hs & He & _)
  end.
  { destruct (strict_eq_str (field req "runtime") "nodejs"); cbn;
      apply lookup_last. }
  rewrite Hrun. cbn [snd]. intros Hfiles.
  exists w', (if truthy (field req "cron")
              then Some (length (crons w)) else None).
  split; [reflexivity|]. split; [|exact Hfiles].
  rewrite Hs, He.
  destruct (strict_eq_str (field req "runtime") "nodejs");
    now destruct (truthy (field req "cron")).
Qed.

(** X21.  After an update with a string of code, the raw route of the
    same script answers with that code. *)
Theorem raw_returns_updated_code stringify w req c code :
  find_script (params_script req) (scripts w) = Some c ->
  field req "code" = JStr code ->
  let w1 := snd (serve ui_update req w) in
  fst (ui_raw stringify req w1) =
    Normal {| reply_status := 200; reply_payload := Sent code |}.
Proof.
  intros Hfind Hcode.
  rewrite serve_of_invoke. unfold invoke, res_new, ui_update. unfold_m. cbn -[find_script].
  rewrite Hfind. unfold writeFileSync. rewrite Hcode.
  unfold res_send. unfold_m. cbn -[find_script]. rewrite lookup_last.
  cbn -[find_script].
  unfold ui_raw, readFileSync. unfold_m. cbn -[find_script].
  rewrite Hfind. cbn. now rewrite lookup_insert_eq.
Qed.

Lemma raw_returns_updated_code_witness :
  let w1 := snd (serve ui_update RefUpdate.post_code (Ref.server Ref.s1)) in
  fst (ui_raw (fun _ => "{}") RefUpdate.post_code w1) =
    Normal {| reply_status := 200; reply_payload := Sent "console.log(2)" |}.
Proof.
  apply (raw_returns_updated_code (fun _ => "{}") (Ref.server Ref.s1)
           RefUpdate.post_code Ref.s1 "console.log(2)").
  - reflexivity.
  - reflexivity.
Defined.

(** X22.  A script that has just been registered is served by the UI:
    the home page lists it last with the name and runtime of the form,
    its page is rendered with them, and its raw route answers with the
    code when the runtime is nodejs.  For any other runtime the
    entrypoint is [null], and the raw route throws on a file of that
    name that does not exist. *)
Theorem registered_script_is_served valid stringify hat now req w code req' :
  hat ∉ dirs w ->
  find_script hat (scripts w) = None ->
  (strict_eq_str (field req "runtime") "nodejs" = true ->
   field req "code" = JStr code) ->
  (truthy (field req "cron") = true ->
   valid (field req "cronSchedule") = true) ->
  params_script req' = hat ->
  let w1 := snd (serve (ui_new valid hat now) req w) in
  fst (ui_home w1) =
    Normal {| reply_status := 200;
              reply_payload :=
                Rendered (HomePage
                  (map (fun i => (id i, name i, runtime i)) (scripts w) ++
                   [(hat, field req "name", field req "runtime")])) |} /\
  fst (ui_script req' w1) =
    Normal {| reply_status := 200;
              reply_payload :=
                Rendered (ScriptPage hat (field req "name") (field req "runtime")) |} /\
  (strict_eq_str (field req "runtime") "nodejs" = true ->
   fst (ui_raw stringify req' w1) =
     Normal {| reply_status := 200; reply_payload := Sent code |}) /\
  (strict_eq_str (field req "runtime") "nodejs" = false ->
   files w !! script_path hat "null" = None ->
   fst (ui_raw stringify req' w1) = Throw (SystemError "ENOENT")).
Proof.
  intros Hfresh Hnone Hcode Hvalid Hreq. cbn zeta.
  destruct (ui_new_ok valid hat now req w code Hfresh Hcode Hvalid)
    as (w1 & t & Hrun & Hs & Hf).
  rewrite Hrun. cbn [snd].
  assert (Hfind : find_script (params_script req') (scripts w1) =
                  Some (set_cronTask t (new_entry hat now req))).
  { rewrite Hreq, Hs. now apply find_script_app_fresh. }
  split.
  { unfold ui_home. unfold_m. cbn. rewrite Hs, map_app. reflexivity. }
  split.
  { unfold ui_script. unfold_m. cbn -[find_script]. now rewrite Hfind. }
  split.
  - intros Hrt. unfold ui_raw, readFileSync. unfold_m. cbn -[find_script].
    rewrite Hfind. cbn. rewrite Hrt, Hf, Hrt. cbn.
    rewrite lookup_insert_ne.
    + now rewrite lookup_insert_eq.
    + intros H. apply script_path_inj in H. discriminate.
  - intros Hrt Hnull. unfold ui_raw, readFileSync. unfold_m. cbn -[find_script].
    rewrite Hfind. cbn. rewrite Hrt, Hf, Hrt. cbn.
    rewrite lookup_insert_ne.
    + now rewrite Hnull.
    + intros H. apply script_path_inj in H. discriminate.
Qed.

Lemma registered_script_is_served_witness :
  let w := Ref.server Ref.s1 in
  let req' := {| params_script := "f00d"; query := []; req_body := ∅;
                 body_json := "{}" |} in
  let w1 := snd (serve (ui_new RefNew.accept_all "f00d" 1700000000123)
                   RefNew.form w) in
  fst (ui_home w1) =
    Normal {| reply_status := 200;
              reply_payload :=
                Rendered (HomePage
                  (map (fun i => (id i, name i, runtime i)) (scripts w) ++
                   [("f00d", field RefNew.form "name",
                     field RefNew.form "runtime")])) |} /\
  fst (ui_script req' w1) =
    Normal {| reply_status := 200;
              reply_payload :=
                Rendered (ScriptPage "f00d" (field RefNew.form "name")
                            (field RefNew.form "runtime")) |} /\
  fst (ui_raw (fun _ => "{}") req' w1) =
    Normal {| reply_status := 200; reply_payload := Sent "console.log(1)" |}.
Proof.
  destruct (registered_script_is_served RefNew.accept_all (fun _ => "{}")
              "f00d" 1700000000123 RefNew.form (Ref.server Ref.s1)
              "console.log(1)"
              {| params_script := "f00d"; query := []; req_body := ∅;
                 body_json := "{}" |})
    as (H1 & H2 & H3 & _).
  - intros H. apply list_elem_of_In in H. cbn in H. destruct H as [H|[]].
    discriminate H.
  - reflexivity.
  - intros _. reflexivity.
  - intros H. discriminate H.
  - reflexivity.
  - split; [exact H1|]. split; [exact H2|]. now apply H3.
Defined.
